(** * Robustness validation engine: a shallow embedding

    Embedded sources:
    - [python_implementation/validation_framework.py] (class
      [PortfolioValidator]: walk-forward scheduling, Monte Carlo parameter
      sampling, performance metrics, report aggregation);
    - [python_implementation/module_6_backtest_engine.py] (class
      [BacktestEngine]: data cleaning, weight renormalisation, metrics,
      the rolling Sharpe ratio and the comparison with a benchmark);
    - [python_implementation/run_complete_strategy.py] (the override
      [RealPortfolioValidator._run_backtest]);
    - [python_implementation/demo_validation.py] ([run_demo] without its
      printing).

    Conventions of the embedding.
    - Python [int] is [Z]; [len] is [nat].
    - [datetime] and [timedelta] are integers counting microseconds, which
      is the resolution of both Python types; the year range 1..9999 of
      [datetime] is not modelled.
    - A float is a [pyfloat]: a rational, an infinity or NaN.  Arithmetic on
      finite values is exact (rounding, overflow and the sign of zero are
      not modelled); NaN and the infinities follow IEEE 754.  A comparison
      is decided on the exact values: where the code compares a rounded
      float with a threshold ([std == 0], [score >= 50], [variance != 0]),
      the embedding answers as the code does unless the exact value lies
      within rounding distance of the threshold.  The statements below
      that bound a value from one side do not depend on this; an equality
      between floats is one of exact arithmetic.
    - numpy's default integer type is taken to be [int64] (as on Linux and
      macOS).
    - Exceptions are values of [exn]; code that can raise returns in [res]
      or in the state-and-exception monad [M], whose state is the position
      in the stream of draws of numpy's global random generator.
    - [np.sqrt], [**] and the raw random draws are parameters of the
      development (Section variables). *)

From Stdlib Require Import ZArith QArith Qround List String Bool Lia Lqa.
From Stdlib Require Import Arith DecimalString.
Import ListNotations.

Local Open Scope Z_scope.

(** ** Exceptions and results *)

Inductive exn : Type :=
| ZeroDivisionError
| ValueError
| IndexError
| OverflowError
| StrategyError (msg : string).

Definition res (A : Type) : Type := (exn + A)%type.

Definition ok {A} (a : A) : res A := inr a.
Definition throw {A} (e : exn) : res A := inl e.

(** State-and-exception monad; the state is the number of raw draws already
    taken from the global random generator.  A computation that raises still
    returns the state it reached. *)
Definition M (A : Type) : Type := nat -> res A * nat.

Definition ret {A} (a : A) : M A := fun s => (inr a, s).
Definition raise {A} (e : exn) : M A := fun s => (inl e, s).
Definition bind {A B} (m : M A) (k : A -> M B) : M B :=
  fun s => match m s with
           | (inl e, s') => (inl e, s')
           | (inr a, s') => k a s'
           end.
Definition lift {A} (r : res A) : M A := fun s => (r, s).

(** [try: m except Exception as e: h e] *)
Definition try_except {A} (m : M A) (h : exn -> M A) : M A :=
  fun s => match m s with
           | (inl e, s') => h e s'
           | (inr a, s') => (inr a, s')
           end.

Declare Scope py_scope.
Delimit Scope py_scope with py.
Notation "x <- m ;; k" := (bind m (fun x => k))
  (at level 61, m at next level, right associativity) : py_scope.
Notation "' p <- m ;; k" := (bind m (fun x => let p := x in k))
  (at level 61, p pattern, m at next level, right associativity) : py_scope.

Definition res_bind {A B} (r : res A) (k : A -> res B) : res B :=
  match r with
  | inl e => inl e
  | inr a => k a
  end.
Notation "x <-? r ;; k" := (res_bind r (fun x => k))
  (at level 61, r at next level, right associativity) : py_scope.

(** ** datetime and timedelta *)

Definition datetime := Z.
Definition timedelta := Z.

Definition usec_per_day : Z := 86400000000.

(** [timedelta(days=d)] *)
Definition timedelta_days (d : Z) : timedelta := d * usec_per_day.

(** [td.days]: timedelta normalises so that the day count is the floor. *)
Definition td_days (td : timedelta) : Z := td / usec_per_day.

(** ** Floats *)

Inductive pyfloat : Type :=
| NaN
| Inf (negative : bool)
| Fin (q : Q).

Definition Qsgn_pos (q : Q) : bool := if Qlt_le_dec 0 q then true else false.
Definition Qis0 (q : Q) : bool := Qeq_bool q 0.

Definition fopp (a : pyfloat) : pyfloat :=
  match a with
  | NaN => NaN
  | Inf b => Inf (negb b)
  | Fin q => Fin (- q)
  end.

Definition fadd (a b : pyfloat) : pyfloat :=
  match a, b with
  | NaN, _ | _, NaN => NaN
  | Inf x, Inf y => if Bool.eqb x y then Inf x else NaN
  | Inf x, Fin _ => Inf x
  | Fin _, Inf y => Inf y
  | Fin p, Fin q => Fin (p + q)
  end.

Definition fsub (a b : pyfloat) : pyfloat := fadd a (fopp b).

Definition fmul (a b : pyfloat) : pyfloat :=
  match a, b with
  | NaN, _ | _, NaN => NaN
  | Inf x, Inf y => Inf (xorb x y)
  | Inf x, Fin q | Fin q, Inf x =>
      if Qis0 q then NaN else if Qsgn_pos q then Inf x else Inf (negb x)
  | Fin p, Fin q => Fin (p * q)
  end.

(** numpy division: never raises; [0/0] is NaN and [x/0] an infinity. *)
Definition fdiv (a b : pyfloat) : pyfloat :=
  match a, b with
  | NaN, _ | _, NaN => NaN
  | Inf _, Inf _ => NaN
  | Inf x, Fin q => if Qis0 q then Inf x else if Qsgn_pos q then Inf x else Inf (negb x)
  | Fin _, Inf _ => Fin 0
  | Fin p, Fin q =>
      if Qis0 q then
        if Qis0 p then NaN else Inf (negb (Qsgn_pos p))
      else Fin (p / q)
  end.

(** Comparisons: every comparison with NaN is false. *)
Definition flt (a b : pyfloat) : bool :=
  match a, b with
  | NaN, _ | _, NaN => false
  | Inf x, Inf y => x && negb y
  | Inf x, Fin _ => x
  | Fin _, Inf y => negb y
  | Fin p, Fin q => if Qlt_le_dec p q then true else false
  end.

Definition feqb (a b : pyfloat) : bool :=
  match a, b with
  | NaN, _ | _, NaN => false
  | Inf x, Inf y => Bool.eqb x y
  | Fin p, Fin q => Qeq_bool p q
  | _, _ => false
  end.

Definition fgt (a b : pyfloat) : bool := flt b a.
Definition fle (a b : pyfloat) : bool := flt a b || feqb a b.
Definition fge (a b : pyfloat) : bool := fle b a.

(** Python's builtin [min(a, b)]: keeps [a] unless [b < a]. *)
Definition py_min (a b : pyfloat) : pyfloat := if flt b a then b else a.

Definition is_nan (a : pyfloat) : bool :=
  match a with NaN => true | _ => false end.

(** ** Series (pandas) and array (numpy) operations on finite data *)

Definition series := list Q.

Definition Qsum (xs : list Q) : Q := fold_right Qplus 0%Q xs.
Definition Qprod (xs : list Q) : Q := fold_right Qmult 1%Q xs.
Definition Qlen (xs : list Q) : Q := inject_Z (Z.of_nat (List.length xs)).

Definition Qmax2 (a b : Q) : Q := if Qlt_le_dec a b then b else a.

(** [Series.mean()]: NaN on the empty series. *)
Definition series_mean (xs : series) : pyfloat :=
  match xs with
  | [] => NaN
  | _ => Fin (Qsum xs / Qlen xs)
  end.

(** Sample variance with [ddof=1], the pandas default: NaN when there are
    fewer than two observations. *)
Definition series_var (xs : series) : pyfloat :=
  match xs with
  | [] | [_] => NaN
  | _ =>
      let m := (Qsum xs / Qlen xs)%Q in
      Fin (Qsum (map (fun x => (x - m) * (x - m))%Q xs) / (Qlen xs - 1))
  end.

(** [Series.std()] with [ddof=1]; [np_sqrt] is only applied to a finite
    variance. *)
Definition series_std (np_sqrt : Q -> pyfloat) (xs : series) : pyfloat :=
  match series_var xs with
  | Fin v => np_sqrt v
  | other => other
  end.

(** [s.cumprod()] and [s.cummax()] *)
Fixpoint cumprod_from (acc : Q) (xs : series) : series :=
  match xs with
  | [] => []
  | x :: t => let a := (acc * x)%Q in a :: cumprod_from a t
  end.
Definition cumprod (xs : series) : series := cumprod_from 1%Q xs.

Fixpoint cummax_from (m : Q) (xs : series) : series :=
  match xs with
  | [] => []
  | x :: t => let m' := Qmax2 m x in m' :: cummax_from m' t
  end.
Definition cummax (xs : series) : series :=
  match xs with
  | [] => []
  | x :: t => x :: cummax_from x t
  end.

(** [Series.min()] with the default [skipna=True]: NaN entries are ignored
    and the result is NaN when nothing is left. *)
Definition fmin2 (a b : pyfloat) : pyfloat := if flt b a then b else a.
Definition series_min (xs : list pyfloat) : pyfloat :=
  match filter (fun x => negb (is_nan x)) xs with
  | [] => NaN
  | x :: t => fold_left fmin2 t x
  end.

(** [np.mean] of a list of floats *)
Definition np_mean (xs : list pyfloat) : pyfloat :=
  fdiv (fold_left fadd xs (Fin 0)) (Fin (inject_Z (Z.of_nat (List.length xs)))).

(** True division of two Python integers. *)
Definition py_truediv (a b : Z) : res Q :=
  if b =? 0 then throw ZeroDivisionError else ok (inject_Z a / inject_Z b)%Q.

(** [str(n)] for an integer. *)
Definition string_of_Z (n : Z) : string := NilZero.string_of_int (Z.to_int n).

(** ** Dictionaries

    A [dict] is an association list kept in insertion order with one entry
    per key; [dict_set] is the assignment [d[k] = v]. *)

Definition dict (V : Type) : Type := list (string * V).

Fixpoint dict_get {V} (d : dict V) (k : string) : option V :=
  match d with
  | [] => None
  | (k', v) :: t => if String.eqb k k' then Some v else dict_get t k
  end.

Fixpoint dict_set {V} (d : dict V) (k : string) (v : V) : dict V :=
  match d with
  | [] => [(k, v)]
  | (k', v') :: t =>
      if String.eqb k k' then (k', v) :: t else (k', v') :: dict_set t k v
  end.

Definition dict_keys {V} (d : dict V) : list string := map fst d.
Definition dict_values {V} (d : dict V) : list V := map snd d.

(** A Python number that is either an [int] or a (finite) [float]; this is
    what [isinstance(x, int)] tells apart. *)
Inductive pynum : Type :=
| PyInt (z : Z)
| PyFloat (q : Q).

Definition to_Q (x : pynum) : Q :=
  match x with
  | PyInt z => inject_Z z
  | PyFloat q => q
  end.

(** The bounds of numpy's [int64]. *)
Definition int64_min : Z := - 2 ^ 63.
Definition int64_max : Z := 2 ^ 63 - 1.

(** The least magnitude that rounds to an infinity in binary64: half an
    ulp above the largest double. *)
Definition float_overflow_bound : Q := inject_Z (2 ^ 1024 - 2 ^ 970).
Definition float_overflows (q : Q) : bool :=
  Qle_bool float_overflow_bound q || Qle_bool q (- float_overflow_bound).

(** The conversion of a bound to a C double, as [np.random.uniform] does it:
    an [int] too large for a double raises [OverflowError]; a float that
    large stands for an infinity, with which the range is not finite, and
    the same exception follows. *)
Definition to_float (x : pynum) : res Q :=
  if float_overflows (to_Q x) then inl OverflowError else inr (to_Q x).

(** The portfolio dictionary returned by a strategy: the keys the embedded
    code reads.  [stocks] is [None] when the key is absent. *)
Record Portfolio : Type := mkPortfolio {
  stocks : option (list string);
  weights : dict Q
}.

(** [portfolio.get('stocks', [])] *)
Definition get_stocks (p : Portfolio) : list string :=
  match stocks p with
  | Some l => l
  | None => []
  end.

(** ** validation_framework.py *)

Record BacktestResult : Type := mkBacktestResult {
  period : string;
  start_date : datetime;
  end_date : datetime;
  total_return : pyfloat;
  sharpe_ratio : pyfloat;
  max_drawdown : pyfloat;
  win_rate : pyfloat;
  num_trades : nat;
  stocks_selected : list string;
  annual_return : pyfloat;
  volatility : pyfloat
}.

(** One entry of the list [results] built by
    [monte_carlo_parameter_sensitivity]. *)
Record MCSample : Type := mkMCSample {
  mc_simulation : Z;
  mc_params : dict pynum;
  mc_sharpe : pyfloat;
  mc_return : pyfloat;
  mc_max_dd : pyfloat
}.

(** The [analysis] dictionary of [monte_carlo_parameter_sensitivity].  The
    order statistics and dispersions ([median_sharpe], [std_sharpe],
    [min_sharpe], [max_sharpe], [std_return] and the two percentiles) are
    left out: no embedded function reads them. *)
Record MCAnalysis : Type := mkMCAnalysis {
  num_simulations : nat;
  profitable_pct : pyfloat;
  positive_sharpe_pct : pyfloat;
  avg_sharpe : pyfloat;
  avg_return : pyfloat;
  all_results : list MCSample
}.

(** A warning of the report, with the percentage it cites; the source
    formats it into a sentence. *)
Inductive warning : Type :=
| LowTimeframes (pct : pyfloat)
| LowWalkForward (pct : pyfloat)
| LowMonteCarlo (pct : pyfloat).

Record ValidationReport : Type := mkValidationReport {
  multi_timeframe_results : dict BacktestResult;
  walk_forward_results : list BacktestResult;
  monte_carlo_results : MCAnalysis;
  robustness_score : pyfloat;
  recommendation : string;
  warnings : list warning
}.

(** One iteration of the loop of [walk_forward_analysis]: the window number,
    the train interval handed to the strategy, and the result of the
    backtest, which records the interval that was tested. *)
Record WFWindow : Type := mkWFWindow {
  wf_window_num : Z;
  wf_train_start : datetime;
  wf_train_end : datetime;
  wf_result : BacktestResult
}.

Definition REC_STRONG : string :=
  "STRONG - Strategy is robust and ready for live trading".
Definition REC_MODERATE : string :=
  "MODERATE - Strategy shows promise but needs refinement".
Definition REC_WEAK : string :=
  "WEAK - Strategy needs significant improvement".
Definition REC_FAIL : string :=
  "FAIL - Strategy is not viable, reconsider approach".

Definition default_timeframes : dict Z :=
  [("6mo", 180); ("1yr", 365); ("2yr", 730); ("5yr", 1825); ("10yr", 3650)]%string.

Definition default_risk_free_rate : Q := 2 # 100.

Module PortfolioValidator.
Section Validator.

(** [self.strategy_function]: an opaque callable; it may raise and it may
    draw from the global random generator. *)
Variable strategy_function :
  datetime -> datetime -> option (dict pynum) -> M Portfolio.
(** [np.sqrt] on a non-negative finite argument, and [**]. *)
Variable np_sqrt : Q -> pyfloat.
Variable np_power : pyfloat -> pyfloat -> pyfloat.
(** The global random generator: the standard normal and the unit uniform
    variate it yields at each position of its stream. *)
Variable randn : nat -> Q.
Variable random_sample : nat -> Q.

Local Open Scope py_scope.

(** [np.random.randn(n)]: [n] draws; a negative dimension raises. *)
Definition np_random_randn (n : Z) : M series :=
  fun s =>
    if n <? 0 then (throw ValueError, s)
    else (ok (map (fun i => randn (s + i)%nat) (seq 0 (Z.to_nat n))),
          (s + Z.to_nat n)%nat).

(** [np.random.randint(low, high)]: an integer of [low .. high-1], obtained
    here from one unit variate.  It raises [ValueError] when [low] or
    [high - 1] is not an [int64], and when the interval is empty. *)
Definition np_random_randint (low high : Z) : M Z :=
  fun s =>
    if (low <? int64_min) || (int64_max <? high - 1) || (high <=? low)
    then (throw ValueError, s)
    else (ok (low + Qfloor (random_sample s * inject_Z (high - low))), S s).

(** [np.random.uniform(low, high)] on two floats is
    [low + (high - low) * random_sample()]; it raises [OverflowError] when
    the range [high - low] is not finite. *)
Definition np_random_uniform (low high : Q) : M Q :=
  fun s =>
    if float_overflows (high - low) then (throw OverflowError, s)
    else (ok (low + (high - low) * random_sample s)%Q, S s).

Definition _calculate_portfolio_returns
    (portfolio : Portfolio) (start_date end_date : datetime) : M series :=
  let days := td_days (end_date - start_date) in
  draws <- np_random_randn days ;;
  ret (map (fun x => x * (1 # 100))%Q draws).

(** The guard [returns.std() == 0] is decided on the exact standard
    deviation: a series whose deviation is zero in exact arithmetic but not
    after rounding (a constant series of a value that is no dyadic
    fraction) takes the first branch here and the second in the code. *)
Definition _calculate_sharpe (returns : series) (risk_free_rate : Q) : pyfloat :=
  let excess_returns := map (fun r => r - risk_free_rate / 252)%Q returns in
  if feqb (series_std np_sqrt returns) (Fin 0) then Fin 0
  else fdiv (fmul (np_sqrt 252) (series_mean excess_returns))
            (series_std np_sqrt returns).

Definition _calculate_max_drawdown (returns : series) : pyfloat :=
  let cumulative := cumprod (map (fun r => 1 + r)%Q returns) in
  let running_max := cummax cumulative in
  let drawdown :=
    map (fun '(c, m) => fdiv (Fin (c - m)) (Fin m)) (combine cumulative running_max) in
  series_min drawdown.

Definition _run_backtest (start_date end_date : datetime) (period_name : string)
    (predefined_portfolio : option Portfolio) : M BacktestResult :=
  portfolio <- match predefined_portfolio with
               | None => strategy_function start_date end_date None
               | Some p => ret p
               end ;;
  returns <- _calculate_portfolio_returns portfolio start_date end_date ;;
  let total_return := (Qprod (map (fun r => r + 1) returns) - 1)%Q in
  let sharpe_ratio := _calculate_sharpe returns default_risk_free_rate in
  let max_drawdown := _calculate_max_drawdown returns in
  let days := td_days (end_date - start_date) in
  exponent <- lift (py_truediv 365 days) ;;
  let annual_return :=
    fsub (np_power (Fin (1 + total_return)) (Fin exponent)) (Fin 1) in
  let volatility := fmul (series_std np_sqrt returns) (np_sqrt 252) in
  ret {| period := period_name;
         start_date := start_date;
         end_date := end_date;
         total_return := Fin total_return;
         sharpe_ratio := sharpe_ratio;
         max_drawdown := max_drawdown;
         win_rate := Fin 0;
         num_trades := List.length (get_stocks portfolio);
         stocks_selected := get_stocks portfolio;
         annual_return := annual_return;
         volatility := volatility |}.

(** The loop over [timeframes.items()]. *)
Fixpoint multi_timeframe_loop (items : list (string * Z)) (end_date : datetime)
    (results : dict BacktestResult) : M (dict BacktestResult) :=
  match items with
  | [] => ret results
  | (name, days) :: rest =>
      let start_date := end_date - timedelta_days days in
      result <- _run_backtest start_date end_date name None ;;
      multi_timeframe_loop rest end_date (dict_set results name result)
  end.

(** [now] is the value read from [datetime.now()]. *)
Definition multi_timeframe_backtest (now : datetime) (timeframes : option (dict Z))
  : M (dict BacktestResult) :=
  let timeframes := match timeframes with
                    | None => default_timeframes
                    | Some t => t
                    end in
  multi_timeframe_loop timeframes now [].

(** The [while True] loop of [walk_forward_analysis]; [now] is the local
    [end_date] of the source.  [fuel] bounds the number of tests of the loop
    condition; [None] means that the bound was reached before the loop
    left. *)
Fixpoint walk_forward_loop (fuel : nat) (now : datetime)
    (train_period_days test_period_days step_size_days : Z)
    (current_train_start : datetime) (window_num : Z) (results : list WFWindow)
    (s : nat) : option (res (list WFWindow) * nat) :=
  match fuel with
  | O => None
  | S fuel' =>
      let current_train_end := current_train_start + timedelta_days train_period_days in
      let current_test_end := current_train_end + timedelta_days test_period_days in
      if current_test_end >? now then Some (ok results, s)
      else
        match (portfolio <- strategy_function current_train_start
                                              current_train_end None ;;
               _run_backtest current_train_end current_test_end
                 ("WF_Window_" ++ string_of_Z window_num) (Some portfolio)) s with
        | (inl e, s') => Some (throw e, s')
        | (inr result, s') =>
            walk_forward_loop fuel' now
              train_period_days test_period_days step_size_days
              (current_train_start + timedelta_days step_size_days)
              (window_num + 1)
              (results ++ [ {| wf_window_num := window_num;
                               wf_train_start := current_train_start;
                               wf_train_end := current_train_end;
                               wf_result := result |} ])
              s'
        end
  end.

(** The windows visited by [walk_forward_analysis], in order; [now] is the
    value read from [datetime.now()]. *)
Definition walk_forward_windows (fuel : nat) (now : datetime)
    (train_period_days test_period_days step_size_days total_history_days : Z)
    (s : nat) : option (res (list WFWindow) * nat) :=
  let start_date := now - timedelta_days total_history_days in
  walk_forward_loop fuel now
    train_period_days test_period_days step_size_days start_date 1 [] s.

Definition walk_forward_analysis (fuel : nat) (now : datetime)
    (train_period_days test_period_days step_size_days total_history_days : Z)
    (s : nat) : option (res (list BacktestResult) * nat) :=
  match walk_forward_windows fuel now train_period_days test_period_days
          step_size_days total_history_days s with
  | None => None
  | Some (inl e, s') => Some (throw e, s')
  | Some (inr ws, s') => Some (ok (map wf_result ws), s')
  end.

(** The inner loop over [parameter_ranges.items()] that fills [params]. *)
Fixpoint draw_params (items : list (string * (pynum * pynum)))
    (params : dict pynum) : M (dict pynum) :=
  match items with
  | [] => ret params
  | (param_name, (min_val, max_val)) :: rest =>
      v <- match min_val, max_val with
           | PyInt lo, PyInt hi =>
               z <- np_random_randint lo (hi + 1) ;; ret (PyInt z)
           | _, _ =>
               low <- lift (to_float min_val) ;;
               high <- lift (to_float max_val) ;;
               q <- np_random_uniform low high ;;
               ret (PyFloat q)
           end ;;
      draw_params rest (dict_set params param_name v)
  end.

(** The loop [for i in range(num_simulations)], over the remaining values
    of [i]. *)
Fixpoint monte_carlo_loop (indices : list nat)
    (parameter_ranges : dict (pynum * pynum)) (start_date end_date : datetime)
    (results : list MCSample) : M (list MCSample) :=
  match indices with
  | [] => ret results
  | i :: rest =>
      params <- draw_params parameter_ranges [] ;;
      results' <-
        try_except
          (portfolio <- strategy_function start_date end_date (Some params) ;;
           result <- _run_backtest start_date end_date
                       ("MC_" ++ string_of_Z (Z.of_nat i + 1)) (Some portfolio) ;;
           ret (results ++ [ {| mc_simulation := Z.of_nat i + 1;
                                mc_params := params;
                                mc_sharpe := sharpe_ratio result;
                                mc_return := total_return result;
                                mc_max_dd := max_drawdown result |} ]))
          (fun _ => ret results) ;;
      monte_carlo_loop rest parameter_ranges start_date end_date results'
  end.

(** [len([x for x in xs if x > 0]) / n * 100] *)
Definition positive_pct (xs : list pyfloat) (n : nat) : res pyfloat :=
  q <-? py_truediv (Z.of_nat (List.length (filter (fun x => fgt x (Fin 0)) xs)))
                   (Z.of_nat n) ;;
  ok (Fin (q * 100)).

Definition monte_carlo_parameter_sensitivity (now : datetime)
    (parameter_ranges : dict (pynum * pynum)) (num_simulations : Z)
    (test_period_days : Z) : M MCAnalysis :=
  let end_date := now in
  let start_date := end_date - timedelta_days test_period_days in
  results <- monte_carlo_loop (seq 0 (Z.to_nat num_simulations))
               parameter_ranges start_date end_date [] ;;
  let sharpes := map mc_sharpe results in
  let returns := map mc_return results in
  profitable <- lift (positive_pct returns (List.length results)) ;;
  positive_sharpe <- lift (positive_pct sharpes (List.length sharpes)) ;;
  ret {| num_simulations := List.length results;
         profitable_pct := profitable;
         positive_sharpe_pct := positive_sharpe;
         avg_sharpe := np_mean sharpes;
         avg_return := np_mean returns;
         all_results := results |}.

(** The thresholds of the warnings (60, 50, 70) and of the recommendation
    (70, 50, 30) are compared with the exact percentages and score: a score
    within rounding distance of a threshold may fall on the other side of
    it in the code. *)
Definition generate_validation_report
    (multi_timeframe_results : dict BacktestResult)
    (walk_forward_results : list BacktestResult)
    (monte_carlo_results : MCAnalysis) : res ValidationReport :=
  let mt_sharpes := map sharpe_ratio (dict_values multi_timeframe_results) in
  mt_positive_pct <-? positive_pct mt_sharpes (List.length mt_sharpes) ;;
  let mt_score := fmul mt_positive_pct (Fin (1 # 2)) in
  let warnings1 :=
    if flt mt_positive_pct (Fin 60) then [LowTimeframes mt_positive_pct] else [] in
  let wf_sharpes := map sharpe_ratio walk_forward_results in
  wf_positive_pct <-? positive_pct wf_sharpes (List.length wf_sharpes) ;;
  let wf_score := fmul wf_positive_pct (Fin (1 # 2)) in
  let warnings2 :=
    if flt wf_positive_pct (Fin 50)
    then warnings1 ++ [LowWalkForward wf_positive_pct] else warnings1 in
  let mc_score := fmul (positive_sharpe_pct monte_carlo_results) (Fin (1 # 2)) in
  let warnings3 :=
    if flt (positive_sharpe_pct monte_carlo_results) (Fin 70)
    then warnings2 ++ [LowMonteCarlo (positive_sharpe_pct monte_carlo_results)]
    else warnings2 in
  let avg_sharpe := np_mean (mt_sharpes ++ wf_sharpes) in
  let sharpe_score := py_min (fmul avg_sharpe (Fin 50)) (Fin 50) in
  let robustness_score :=
    fadd (fadd (fadd (fmul mt_score (Fin (25 # 100)))
                     (fmul wf_score (Fin (35 # 100))))
               (fmul mc_score (Fin (25 # 100))))
         (fmul sharpe_score (Fin (15 # 100))) in
  let recommendation :=
    if fge robustness_score (Fin 70) then REC_STRONG
    else if fge robustness_score (Fin 50) then REC_MODERATE
    else if fge robustness_score (Fin 30) then REC_WEAK
    else REC_FAIL in
  ok {| multi_timeframe_results := multi_timeframe_results;
        walk_forward_results := walk_forward_results;
        monte_carlo_results := monte_carlo_results;
        robustness_score := robustness_score;
        recommendation := recommendation;
        warnings := warnings3 |}.

End Validator.
End PortfolioValidator.

(** ** module_6_backtest_engine.py *)

(** A pandas Series of prices: (date, value) pairs in index order, [None]
    standing for NaN.  Index labels are assumed distinct. *)
Definition price_series := list (datetime * option Q).

(** A DataFrame: its index and its columns in insertion order, each column
    as long as the index. *)
Record DataFrame : Type := mkDataFrame {
  df_index : list datetime;
  df_columns : dict (list (option Q))
}.

(** What a function of the engine does: it returns, it raises, or it leaves
    the fragment covered by the embedding ([Unmodelled]: a return series
    that holds an infinity or a NaN, which only a close price of zero
    produces; see [backtest_portfolio_modelled]). *)
Inductive run (A : Type) : Type :=
| Returns (a : A)
| Raises (e : exn)
| Unmodelled.
Arguments Returns {A} a.
Arguments Raises {A} e.
Arguments Unmodelled {A}.

Definition isSome {A} (o : option A) : bool :=
  match o with Some _ => true | None => false end.

(** [s.reindex(index)]: the value at each label, NaN where it is absent. *)
Fixpoint series_at (s : price_series) (d : datetime) : option Q :=
  match s with
  | [] => None
  | (d', v) :: t => if d =? d' then v else series_at t d
  end.

(** [prices[ticker] = s].  A frame whose index is empty takes the index of
    the first non-empty series assigned to it (its earlier columns become
    all-NaN); afterwards a series is aligned on the index of the frame. *)
Definition df_setitem (df : DataFrame) (ticker : string) (s : price_series)
  : DataFrame :=
  match df_index df, s with
  | [], _ :: _ =>
      let idx := map fst s in
      {| df_index := idx;
         df_columns :=
           dict_set (map (fun '(k, _) => (k, map (fun _ => None) idx)) (df_columns df))
                    ticker (map (series_at s) idx) |}
  | idx, _ =>
      {| df_index := idx;
         df_columns := dict_set (df_columns df) ticker (map (series_at s) idx) |}
  end.

(** Keep the elements of [xs] whose position is selected by [mask]. *)
Fixpoint select {A} (mask : list bool) (xs : list A) : list A :=
  match mask, xs with
  | b :: m, x :: t => if b then x :: select m t else select m t
  | _, _ => []
  end.

(** [prices[mask]] *)
Definition df_select_rows (mask : list bool) (df : DataFrame) : DataFrame :=
  {| df_index := select mask (df_index df);
     df_columns := map (fun '(k, c) => (k, select mask c)) (df_columns df) |}.

(** [len(prices)] *)
Definition df_len (df : DataFrame) : nat := List.length (df_index df).

Definition count_notna (c : list (option Q)) : nat :=
  List.length (filter isSome c).

(** [prices.dropna(axis=1, thresh=t)]: keep the columns holding at least [t]
    non-NaN values. *)
Definition df_dropna_columns (thresh : Q) (df : DataFrame) : DataFrame :=
  {| df_index := df_index df;
     df_columns :=
       filter (fun '(_, c) =>
                 if Qlt_le_dec (inject_Z (Z.of_nat (count_notna c))) thresh
                 then false else true)
              (df_columns df) |}.

(** [prices.ffill()] *)
Fixpoint ffill_from (last : option Q) (c : list (option Q)) : list (option Q) :=
  match c with
  | [] => []
  | Some v :: t => Some v :: ffill_from (Some v) t
  | None :: t => last :: ffill_from last t
  end.
Definition df_ffill (df : DataFrame) : DataFrame :=
  {| df_index := df_index df;
     df_columns := map (fun '(k, c) => (k, ffill_from None c)) (df_columns df) |}.

(** The mask of the rows without NaN. *)
Fixpoint notna_mask (n : nat) (cols : list (list (option Q))) : list bool :=
  match cols with
  | [] => repeat true n
  | c :: t => map (fun '(x, b) => isSome x && b) (combine c (notna_mask n t))
  end.

(** [prices.dropna()] *)
Definition df_dropna_rows (df : DataFrame) : DataFrame :=
  df_select_rows (notna_mask (df_len df) (dict_values (df_columns df))) df.

(** [col.pct_change()] on a column without NaN, the leading NaN left out:
    [col / col.shift(1) - 1] from the second row on. *)
Fixpoint pct_change_from (prev : Q) (c : list Q) : list pyfloat :=
  match c with
  | [] => []
  | x :: t => fsub (fdiv (Fin x) (Fin prev)) (Fin 1) :: pct_change_from x t
  end.
Definition pct_change (c : list Q) : list pyfloat :=
  match c with
  | [] => []
  | x :: t => pct_change_from x t
  end.

Definition unwrap (c : list (option Q)) : list Q :=
  map (fun x => match x with Some q => q | None => 0%Q end) c.

(** The rows of a list of equally long columns. *)
Fixpoint transpose {A} (n : nat) (cols : list (list A)) : list (list A) :=
  match cols with
  | [] => repeat [] n
  | c :: t => map (fun '(x, r) => x :: r) (combine c (transpose n t))
  end.

(** [row.dot(weights_array)] on finite data *)
Definition dot (row : list Q) (w : list Q) : Q :=
  fold_left Qplus (map (fun '(r, x) => r * x)%Q (combine row w)) 0%Q.

Definition finite_series (xs : list pyfloat) : option series :=
  fold_right (fun x acc =>
                match x, acc with
                | Fin q, Some l => Some (q :: l)
                | _, _ => None
                end) (Some []) xs.

(** All the columns as finite series, when every cell is finite. *)
Fixpoint finite_columns (cols : list (list pyfloat)) : option (list series) :=
  match cols with
  | [] => Some []
  | c :: t =>
      match finite_series c, finite_columns t with
      | Some c', Some t' => Some (c' :: t')
      | _, _ => None
      end
  end.

Module BacktestEngine.

(** The dictionary returned on success. *)
Record BacktestSuccess : Type := mkBacktestSuccess {
  start_date : datetime;
  end_date : datetime;
  initial_capital : Q;
  final_value : Q;
  total_return : pyfloat;
  annual_return : pyfloat;
  volatility : pyfloat;
  sharpe_ratio : pyfloat;
  max_drawdown : pyfloat;
  win_rate : pyfloat;
  num_days : nat;
  portfolio_returns : series;
  portfolio_value : series;
  cumulative_returns : series;
  weights_used : dict Q
}.

(** The dictionary returned by [backtest_portfolio]: ['success'] is
    [False] with a message, or [True] with the metrics. *)
Inductive BacktestDict : Type :=
| Failure (message : string)
| Success (r : BacktestSuccess).

Definition success (d : BacktestDict) : bool :=
  match d with
  | Failure _ => false
  | Success _ => true
  end.

Section Engine.

Variable np_sqrt : Q -> pyfloat.
Variable np_power : pyfloat -> pyfloat -> pyfloat.

Definition _annualize_return (total_return : pyfloat) (num_days : nat) : pyfloat :=
  let years := (inject_Z (Z.of_nat num_days) / 252)%Q in
  if Qle_bool years 0 then Fin 0
  else fsub (np_power (fadd (Fin 1) total_return) (Fin (1 / years))) (Fin 1).

(** As in the validator, the guard [returns.std() == 0] is decided on the
    exact standard deviation. *)
Definition _calculate_sharpe (returns : series) (risk_free_rate : Q) : pyfloat :=
  if (List.length returns =? 0)%nat || feqb (series_std np_sqrt returns) (Fin 0)
  then Fin 0
  else
    let excess_returns := map (fun r => r - risk_free_rate / 252)%Q returns in
    fdiv (fmul (np_sqrt 252) (series_mean excess_returns))
         (series_std np_sqrt returns).

Definition _calculate_max_drawdown (cumulative_returns : series) : pyfloat :=
  let running_max := cummax cumulative_returns in
  let drawdown :=
    map (fun '(c, m) => fdiv (Fin (c - m)) (Fin m))
        (combine cumulative_returns running_max) in
  series_min drawdown.

(** Line 109: [(portfolio_returns > 0).sum() / len(portfolio_returns)], a
    numpy division. *)
Definition win_rate_of (portfolio_returns : series) : pyfloat :=
  fdiv (Fin (inject_Z (Z.of_nat
          (List.length (filter (fun r => if Qlt_le_dec 0 r then true else false)
                               portfolio_returns)))))
       (Fin (inject_Z (Z.of_nat (List.length portfolio_returns)))).

(** Lines 46-50: the frame of the close prices of the tickers of [weights]
    found in [stock_data]; an entry of [stock_data] is [None] when its
    frame has no ['Close'] column. *)
Fixpoint collect_prices (items : list (string * Q))
    (stock_data : dict (option price_series)) (prices : DataFrame) : DataFrame :=
  match items with
  | [] => prices
  | (ticker, _) :: rest =>
      match dict_get stock_data ticker with
      | Some (Some close) =>
          collect_prices rest stock_data (df_setitem prices ticker close)
      | _ => collect_prices rest stock_data prices
      end
  end.

(** Line 53: the rows whose date lies in the window; on a frame without
    rows the mask is empty. *)
Definition filter_date_range (prices : DataFrame) (start_date end_date : datetime)
  : DataFrame :=
  df_select_rows
    (map (fun d => (start_date <=? d) && (d <=? end_date)) (df_index prices))
    prices.

(** Lines 62 and 65 *)
Definition clean_prices (prices : DataFrame) : DataFrame :=
  let prices :=
    df_dropna_columns (inject_Z (Z.of_nat (df_len prices)) * (7 # 10)) prices in
  df_dropna_rows (df_ffill prices).

(** Line 75: [sum(weights[t] for t in available_tickers if t in weights)] *)
Definition total_weight_of (weights : dict Q) (available_tickers : list string) : Q :=
  fold_left Qplus
    (flat_map (fun t => match dict_get weights t with
                        | Some w => [w]
                        | None => []
                        end) available_tickers)
    0%Q.

(** Line 84: the dictionary comprehension; [total_weight] is not zero. *)
Definition normalize_weights (weights : dict Q) (available_tickers : list string)
    (total_weight : Q) : dict Q :=
  fold_left (fun d t =>
               dict_set d t (match dict_get weights t with
                             | Some w => w
                             | None => 0
                             end / total_weight)%Q)
            available_tickers [].

Definition weights_array (normalized_weights : dict Q) (columns : list string)
  : list Q :=
  map (fun t => match dict_get normalized_weights t with
                | Some w => w
                | None => 0%Q
                end) columns.

Definition backtest_portfolio (initial_capital : Q)
    (weights : dict Q) (stock_data : dict (option price_series))
    (start_date end_date : datetime) : run BacktestDict :=
  let prices := collect_prices weights stock_data (mkDataFrame [] []) in
  let prices := filter_date_range prices start_date end_date in
  if (df_len prices =? 0)%nat then
    Returns (Failure "No data in specified date range")
  else
  let prices := clean_prices prices in
  if (List.length (df_columns prices) =? 0)%nat then
    Returns (Failure "Insufficient data after cleaning")
  else
  let available_tickers := dict_keys (df_columns prices) in
  let total_weight := total_weight_of weights available_tickers in
  if Qeq_bool total_weight 0 then
    Returns (Failure "No valid weights")
  else
  let normalized_weights := normalize_weights weights available_tickers total_weight in
  match finite_columns
          (map (fun c => pct_change (unwrap c)) (dict_values (df_columns prices))) with
  | None => Unmodelled
  | Some returns =>
      let weights_array := weights_array normalized_weights available_tickers in
      let portfolio_returns :=
        map (fun row => dot row weights_array)
            (transpose (pred (df_len prices)) returns) in
      let cumulative_returns :=
        cumprod (map (fun r => 1 + r)%Q portfolio_returns) in
      let portfolio_value :=
        map (fun c => c * initial_capital)%Q cumulative_returns in
      match rev portfolio_value with
      | [] => Raises IndexError
      | last :: _ =>
          let total_return := fsub (fdiv (Fin last) (Fin initial_capital)) (Fin 1) in
          let n := List.length portfolio_returns in
          Returns (Success
            {| start_date := start_date;
               end_date := end_date;
               initial_capital := initial_capital;
               final_value := last;
               total_return := total_return;
               annual_return := _annualize_return total_return n;
               volatility := fmul (series_std np_sqrt portfolio_returns) (np_sqrt 252);
               sharpe_ratio := _calculate_sharpe portfolio_returns default_risk_free_rate;
               max_drawdown := _calculate_max_drawdown cumulative_returns;
               win_rate := win_rate_of portfolio_returns;
               num_days := n;
               portfolio_returns := portfolio_returns;
               portfolio_value := portfolio_value;
               cumulative_returns := cumulative_returns;
               weights_used := normalized_weights |})
      end
  end.

End Engine.
End BacktestEngine.

(** ** module_6_backtest_engine.py: [BacktestEngine.calculate_rolling_sharpe]

    [returns.rolling(window)] on a series without NaN: at each position the
    window of the last [window] observations, once that many have been
    seen ([min_periods] defaults to [window]); a negative [window] is
    refused. *)

Definition rolling (window : nat) (returns : series) : list (option series) :=
  map (fun i => if (window <=? i + 1)%nat
                then Some (firstn window (skipn (i + 1 - window) returns))
                else None)
      (seq 0 (List.length returns)).

Section RollingSharpe.

Variable np_sqrt : Q -> pyfloat.

(** [.mean()] and [.std()] of a rolling window: NaN while the window is
    not full. *)
Definition rolling_mean (w : option series) : pyfloat :=
  match w with
  | Some xs => series_mean xs
  | None => NaN
  end.

Definition rolling_std (w : option series) : pyfloat :=
  match w with
  | Some xs => series_std np_sqrt xs
  | None => NaN
  end.

Definition calculate_rolling_sharpe (returns : series) (window : Z)
  : res (list pyfloat) :=
  if window <? 0 then throw ValueError
  else
    let windows := rolling (Z.to_nat window) returns in
    let rolling_mean := map (fun w => fmul (rolling_mean w) (Fin 252)) windows in
    let rolling_std := map (fun w => fmul (rolling_std w) (np_sqrt 252)) windows in
    ok (map (fun '(m, s) => fdiv (fsub m (Fin (2 # 100))) s)
            (combine rolling_mean rolling_std)).

End RollingSharpe.

(** ** module_6_backtest_engine.py: [BacktestEngine.compare_to_benchmark]

    A Series of floats without NaN, indexed by dates: (date, value) pairs in
    index order.  The indexes are those of trading days, strictly
    increasing. *)
Definition indexed_series := list (datetime * Q).

(** [a.index.intersection(b.index)] on increasing indexes: the dates of [a]
    that [b] has too, in order. *)
Definition index_intersection (a b : list datetime) : list datetime :=
  filter (fun d => existsb (Z.eqb d) b) a.

(** [s.loc[labels]]: the values at the labels, in the order of the labels. *)
Definition loc (s : indexed_series) (labels : list datetime) : series :=
  flat_map (fun d => map snd (filter (fun e => fst e =? d) s)) labels.

(** [np.cov(x, y)[0][1]], the sample covariance ([ddof=1]) of two arrays of
    one length: NaN when there are fewer than two observations. *)
Definition np_cov (xs ys : series) : pyfloat :=
  match xs with
  | [] | [_] => NaN
  | _ =>
      let mx := (Qsum xs / Qlen xs)%Q in
      let my := (Qsum ys / Qlen ys)%Q in
      Fin (Qsum (map (fun '(x, y) => (x - mx) * (y - my))%Q (combine xs ys))
           / (Qlen xs - 1))
  end.

(** [np.var(y)], the population variance ([ddof=0]): NaN on the empty
    array. *)
Definition np_var (ys : series) : pyfloat :=
  match ys with
  | [] => NaN
  | _ =>
      let my := (Qsum ys / Qlen ys)%Q in
      Fin (Qsum (map (fun y => (y - my) * (y - my))%Q ys) / Qlen ys)
  end.

(** The dictionary returned on success; the key ['correlation'] is left
    out. *)
Record BenchmarkComparison : Type := mkBenchmarkComparison {
  portfolio_return : Q;
  benchmark_return : Q;
  alpha : Q;
  beta : pyfloat;
  outperformance : Q
}.

Inductive BenchmarkDict : Type :=
| BenchmarkFailure (message : string)
| BenchmarkSuccess (r : BenchmarkComparison).

(** [benchmark_prices.pct_change().dropna()] on closes without NaN: one
    return per close after the first, at the date of that close; [None]
    when a close of zero makes a return infinite or NaN. *)
Definition benchmark_returns_of (closes : indexed_series) : option indexed_series :=
  match finite_series (pct_change (map snd closes)) with
  | Some rs => Some (combine (tl (map fst closes)) rs)
  | None => None
  end.

(** An entry of [benchmark_data] is [None] when its frame has no ['Close']
    column.  The guard [benchmark_variance != 0] is decided on the exact
    variance: returns that are equal in exact arithmetic but not after
    rounding take the branch of the division in the code and the branch
    of [0] here. *)
Definition compare_to_benchmark (portfolio_returns : indexed_series)
    (benchmark_data : dict (option indexed_series)) (benchmark_ticker : string)
  : run BenchmarkDict :=
  match dict_get benchmark_data benchmark_ticker with
  | None | Some None =>
      Returns (BenchmarkFailure
                 ("Benchmark " ++ benchmark_ticker ++ " not available"))
  | Some (Some benchmark_prices) =>
      match benchmark_returns_of benchmark_prices with
      | None => Unmodelled
      | Some benchmark_returns =>
          let common_dates :=
            index_intersection (map fst portfolio_returns)
                               (map fst benchmark_returns) in
          let portfolio_aligned := loc portfolio_returns common_dates in
          let benchmark_aligned := loc benchmark_returns common_dates in
          let portfolio_cumulative :=
            cumprod (map (fun r => 1 + r)%Q portfolio_aligned) in
          let benchmark_cumulative :=
            cumprod (map (fun r => 1 + r)%Q benchmark_aligned) in
          match rev portfolio_cumulative, rev benchmark_cumulative with
          | plast :: _, blast :: _ =>
              let portfolio_total := (plast - 1)%Q in
              let benchmark_total := (blast - 1)%Q in
              let alpha := (portfolio_total - benchmark_total)%Q in
              let covariance := np_cov portfolio_aligned benchmark_aligned in
              let benchmark_variance := np_var benchmark_aligned in
              let beta :=
                if negb (feqb benchmark_variance (Fin 0))
                then fdiv covariance benchmark_variance
                else Fin 0 in
              Returns (BenchmarkSuccess
                {| portfolio_return := portfolio_total;
                   benchmark_return := benchmark_total;
                   alpha := alpha;
                   beta := beta;
                   outperformance := (alpha * 100)%Q |})
          | _, _ => Raises IndexError
          end
      end
  end.

(** ** Sample collaborators

    Concrete stand-ins for the parameters of the development, used to run
    the embedding on concrete inputs. *)

(** A strategy that always selects the same two instruments. *)
Definition sample_strategy
  : datetime -> datetime -> option (dict pynum) -> M Portfolio :=
  fun _ _ _ =>
    ret {| stocks := Some ["AAPL"; "MSFT"]%string;
           weights := [("AAPL", 6 # 10); ("MSFT", 4 # 10)]%string |}.

(** The square root rounded down to three decimals. *)
Definition sample_sqrt (q : Q) : pyfloat :=
  Fin (Z.sqrt (Qfloor (q * 1000000)) # 1000).

(** A power that is exact when the exponent is an integer (it truncates the
    exponent otherwise). *)
Definition sample_power (b e : pyfloat) : pyfloat :=
  match b, e with
  | Fin x, Fin y => Fin (Qpower x (Qfloor y))
  | _, _ => NaN
  end.

(** A strategy that records the days of the interval it is called on, as
    the names of its two stocks. *)
Definition recording_strategy
  : datetime -> datetime -> option (dict pynum) -> M Portfolio :=
  fun start_date end_date _ =>
    ret {| stocks := Some [string_of_Z (td_days start_date);
                           string_of_Z (td_days end_date)];
           weights := [] |}.

(** A strategy that raises whenever the number of draws taken so far is
    even. *)
Definition flaky_strategy
  : datetime -> datetime -> option (dict pynum) -> M Portfolio :=
  fun start_date end_date params s =>
    if Nat.even s then raise (StrategyError "no data") s
    else sample_strategy start_date end_date params s.

(** Draws that alternate between 1 and -1, and unit draws that cycle
    through the tenths. *)
Definition sample_randn (n : nat) : Q := if Nat.even n then 1%Q else (-1)%Q.
Definition sample_random_sample (n : nat) : Q := Z.of_nat (n mod 10) # 10.

(** The result that [RealPortfolioValidator._run_backtest]
    (run_complete_strategy.py) substitutes for a backtest that failed. *)
Definition failed_backtest (period_name : string) (sd ed : datetime)
  : BacktestResult :=
  {| period := period_name;
     start_date := sd;
     end_date := ed;
     total_return := Fin (-5 # 100);
     sharpe_ratio := Fin (-5 # 10);
     max_drawdown := Fin (-1 # 10);
     win_rate := Fin (3 # 10);
     num_trades := 0;
     stocks_selected := [];
     annual_return := Fin (-5 # 100);
     volatility := Fin (2 # 10) |}.

(** A validation run in which every backtest failed: three timeframes, four
    walk-forward windows, and a Monte Carlo analysis without a positive
    Sharpe ratio. *)
Definition all_failed_timeframes : dict BacktestResult :=
  [("6mo", failed_backtest "6mo" 0 0);
   ("1yr", failed_backtest "1yr" 0 0);
   ("2yr", failed_backtest "2yr" 0 0)]%string.

Definition all_failed_windows : list BacktestResult :=
  map (fun n => failed_backtest ("WF_Window_" ++ string_of_Z n) 0 0) [1; 2; 3; 4].

Definition all_failed_monte_carlo : MCAnalysis :=
  {| num_simulations := 1;
     profitable_pct := Fin 0;
     positive_sharpe_pct := Fin 0;
     avg_sharpe := Fin (-5 # 10);
     avg_return := Fin (-5 # 100);
     all_results :=
       [ {| mc_simulation := 1; mc_params := [];
            mc_sharpe := Fin (-5 # 10); mc_return := Fin (-5 # 100);
            mc_max_dd := Fin (-1 # 10) |} ] |}.

(** A backtest that went well, and a validation run in which everything
    did, but for the longest of three timeframes. *)
Definition passed_backtest (period_name : string) (sd ed : datetime)
  : BacktestResult :=
  {| period := period_name;
     start_date := sd;
     end_date := ed;
     total_return := Fin (30 # 100);
     sharpe_ratio := Fin 2;
     max_drawdown := Fin (-1 # 10);
     win_rate := Fin 0;
     num_trades := 1;
     stocks_selected := ["AAPL"]%string;
     annual_return := Fin (30 # 100);
     volatility := Fin (15 # 100) |}.

Definition mostly_passed_timeframes : dict BacktestResult :=
  [("6mo", passed_backtest "6mo" 0 0);
   ("1yr", passed_backtest "1yr" 0 0);
   ("2yr", failed_backtest "2yr" 0 0)]%string.

Definition all_passed_windows : list BacktestResult :=
  map (fun n => passed_backtest ("WF_Window_" ++ string_of_Z n) 0 0) [1; 2].

Definition all_passed_monte_carlo : MCAnalysis :=
  {| num_simulations := 1;
     profitable_pct := Fin 100;
     positive_sharpe_pct := Fin 100;
     avg_sharpe := Fin 2;
     avg_return := Fin (30 # 100);
     all_results :=
       [ {| mc_simulation := 1; mc_params := [];
            mc_sharpe := Fin 2; mc_return := Fin (30 # 100);
            mc_max_dd := Fin (-1 # 10) |} ] |}.

(** A year-long window in which the only instrument has three closes
    (100, 110, 121), hence two return observations. *)
Definition sparse_year_weights : dict Q := [("AAPL", 1%Q)]%string.
Definition sparse_year_data : dict (option price_series) :=
  [("AAPL", Some [(timedelta_days 0, Some 100%Q);
                  (timedelta_days 100, Some 110%Q);
                  (timedelta_days 365, Some 121%Q)])]%string.

(** The parameter ranges of the demonstration script. *)
Definition demo_parameter_ranges : dict (pynum * pynum) :=
  [("rsi_threshold", (PyInt 25, PyInt 40));
   ("num_stocks", (PyInt 8, PyInt 12));
   ("correlation_cutoff", (PyFloat (3 # 10), PyFloat (5 # 10)))]%string.

(** Three weighted instruments of which one has no data: the two others
    have four and three closes over four days. *)
Definition three_stock_weights : dict Q :=
  [("AAPL", 5 # 10); ("MSFT", 3 # 10); ("TSLA", 2 # 10)]%string.
Definition two_stock_data : dict (option price_series) :=
  [("AAPL", Some [(timedelta_days 1, Some 100%Q); (timedelta_days 2, None);
                  (timedelta_days 3, Some 102%Q); (timedelta_days 4, Some 101%Q)]);
   ("MSFT", Some [(timedelta_days 1, Some 50%Q); (timedelta_days 2, Some 51%Q);
                  (timedelta_days 4, Some 52%Q)])]%string.

(** A timeframe of a single day, as the validator reports it: one return
    observation, hence no standard deviation. *)
Definition one_day_timeframes : dict BacktestResult :=
  [("1d", {| period := "1d"; start_date := 0; end_date := timedelta_days 1;
             total_return := Fin (1 # 100); sharpe_ratio := NaN;
             max_drawdown := Fin 0; win_rate := Fin 0; num_trades := 1;
             stocks_selected := ["AAPL"];
             annual_return := Fin 1; volatility := NaN |})]%string.

(** A benchmark with four closes, hence three returns on the days 2 to 4. *)
Definition spy_closes : indexed_series :=
  [(timedelta_days 1, 100%Q); (timedelta_days 2, 110%Q);
   (timedelta_days 3, 121%Q); (timedelta_days 4, 110%Q)].
Definition spy_data : dict (option indexed_series) :=
  [("SPY", Some spy_closes)]%string.
Definition spy_returns : indexed_series :=
  [(timedelta_days 2, ((110 / 100) + - (1))%Q);
   (timedelta_days 3, ((121 / 110) + - (1))%Q);
   (timedelta_days 4, ((110 / 121) + - (1))%Q)].

(** ** demo_validation.py

    [run_demo] without its printing: the three analyses, with the
    arguments of the script, and the report made of their results.  Each
    analysis reads the clock itself; [now_mt], [now_wf] and [now_mc] are
    the three values read. *)

Definition demo_timeframes : dict Z :=
  [("6mo", 180); ("1yr", 365); ("2yr", 730)]%string.

Section Demo.

Variable strategy_function :
  datetime -> datetime -> option (dict pynum) -> M Portfolio.
Variable np_sqrt : Q -> pyfloat.
Variable np_power : pyfloat -> pyfloat -> pyfloat.
Variable randn : nat -> Q.
Variable random_sample : nat -> Q.

Definition run_demo (fuel : nat) (now_mt now_wf now_mc : datetime) (s : nat)
  : option (res ValidationReport * nat) :=
  match PortfolioValidator.multi_timeframe_backtest strategy_function np_sqrt
          np_power randn now_mt (Some demo_timeframes) s with
  | (inl e, s1) => Some (throw e, s1)
  | (inr mt_results, s1) =>
      match PortfolioValidator.walk_forward_analysis strategy_function np_sqrt
              np_power randn fuel now_wf 365 90 90 730 s1 with
      | None => None
      | Some (inl e, s2) => Some (throw e, s2)
      | Some (inr wf_results, s2) =>
          match PortfolioValidator.monte_carlo_parameter_sensitivity
                  strategy_function np_sqrt np_power randn random_sample
                  now_mc demo_parameter_ranges 50 365 s2 with
          | (inl e, s3) => Some (throw e, s3)
          | (inr mc_results, s3) =>
              Some (PortfolioValidator.generate_validation_report
                      mt_results wf_results mc_results, s3)
          end
      end
  end.

End Demo.

(** ** run_complete_strategy.py

    [RealPortfolioValidator._run_backtest], the override that backtests
    with [BacktestEngine].  The portfolio dictionary holds the keys
    ['weights'] and ['stock_data'], as every portfolio built by
    [strategy_function_for_validation] does; ['stocks'] is [None] when the
    key is absent. *)

Record RealPortfolio : Type := mkRealPortfolio {
  rp_stocks : option (list string);
  rp_weights : dict Q;
  rp_stock_data : dict (option price_series)
}.

Module RealPortfolioValidator.
Section Real.

Variable strategy_function :
  datetime -> datetime -> option (dict pynum) -> M RealPortfolio.
Variable np_sqrt : Q -> pyfloat.
Variable np_power : pyfloat -> pyfloat -> pyfloat.

(** The outcome is paired with the position reached in the stream of
    draws, which only the strategy advances. *)
Definition _run_backtest (start_date end_date : datetime) (period_name : string)
    (predefined_portfolio : option RealPortfolio) (s : nat)
  : run BacktestResult * nat :=
  match (match predefined_portfolio with
         | None => strategy_function start_date end_date None s
         | Some p => (ok p, s)
         end) with
  | (inl e, s') => (Raises e, s')
  | (inr portfolio, s') =>
      let stocks := match rp_stocks portfolio with
                    | Some l => l
                    | None => []
                    end in
      if (List.length stocks =? 0)%nat then
        (Returns (failed_backtest period_name start_date end_date), s')
      else
        (* [BacktestEngine()]: the default initial capital *)
        match BacktestEngine.backtest_portfolio np_sqrt np_power 100000
                (rp_weights portfolio) (rp_stock_data portfolio)
                start_date end_date with
        | Unmodelled => (Unmodelled, s')
        | Raises e => (Raises e, s')
        | Returns (BacktestEngine.Failure _) =>
            (Returns (failed_backtest period_name start_date end_date), s')
        | Returns (BacktestEngine.Success result) =>
            (Returns {| period := period_name;
                        start_date := start_date;
                        end_date := end_date;
                        total_return := BacktestEngine.total_return result;
                        sharpe_ratio := BacktestEngine.sharpe_ratio result;
                        max_drawdown := BacktestEngine.max_drawdown result;
                        win_rate := BacktestEngine.win_rate result;
                        num_trades := List.length stocks;
                        stocks_selected := stocks;
                        annual_return := BacktestEngine.annual_return result;
                        volatility := BacktestEngine.volatility result |}, s')
        end
  end.

End Real.
End RealPortfolioValidator.

(** ** Predicates of the statements *)

(** The windows appended by the loop started at [cur] with number [num]:
    each trains on [train] days from its start, is tested on the [test]
    days that follow, ends no later than [now], and starts [step] days
    after the window before it. *)
Inductive wf_chain (now : datetime) (train test step : Z)
  : datetime -> Z -> list WFWindow -> Prop :=
| wf_chain_nil cur num : wf_chain now train test step cur num []
| wf_chain_cons cur num w ws :
    wf_window_num w = num ->
    wf_train_start w = cur ->
    wf_train_end w = cur + timedelta_days train ->
    start_date (wf_result w) = wf_train_end w ->
    end_date (wf_result w) = wf_train_end w + timedelta_days test ->
    end_date (wf_result w) <= now ->
    wf_chain now train test step (cur + timedelta_days step) (num + 1) ws ->
    wf_chain now train test step cur num (w :: ws).

(** [x] does not exceed the bound [b]: it is NaN, minus infinity, or a
    number that is at most [b]. *)
Definition at_most (b : Q) (x : pyfloat) : Prop :=
  match x with
  | NaN => True
  | Inf negative => negative = true
  | Fin q => (q <= b)%Q
  end.


(** The value [v] drawn for the range [(lo, hi)]: an integer of [lo .. hi]
    when both bounds are integers, a float of [[lo, hi]] otherwise. *)
Definition in_range (lo hi v : pynum) : Prop :=
  match lo, hi with
  | PyInt a, PyInt b => exists z, v = PyInt z /\ a <= z <= b
  | _, _ => exists q, v = PyFloat q /\ (to_Q lo <= q <= to_Q hi)%Q
  end.





(** The result of one timeframe: keyed and labelled by the name of the
    timeframe, over the window of that many days that ends at [now]. *)
Definition timeframe_result (now : datetime) (tf : string * Z)
    (entry : string * BacktestResult) : Prop :=
  fst entry = fst tf
  /\ period (snd entry) = fst tf
  /\ start_date (snd entry) = now - timedelta_days (snd tf)
  /\ end_date (snd entry) = now.

(** [l1] is [l2] with some of its elements left out. *)
Inductive subsequence {A : Type} : list A -> list A -> Prop :=
| subsequence_nil : subsequence [] []
| subsequence_skip x l1 l2 : subsequence l1 l2 -> subsequence l1 (x :: l2)
| subsequence_take x l1 l2 : subsequence l1 l2 -> subsequence (x :: l1) (x :: l2).

(** The exception that the draw from the range [(lo, hi)] raises, if any:
    a range of integers must lie within [int64] and be in order, and any
    other range must have bounds and a width that fit a double. *)
Definition range_error (lo hi : pynum) : option exn :=
  match lo, hi with
  | PyInt a, PyInt b =>
      if (a <? int64_min) || (int64_max <? b) || (b <? a)
      then Some ValueError else None
  | _, _ =>
      if float_overflows (to_Q lo) || float_overflows (to_Q hi)
         || float_overflows (to_Q hi - to_Q lo)
      then Some OverflowError else None
  end.

(** Every range can be drawn from. *)
Definition ranges_ok (ranges : dict (pynum * pynum)) : Prop :=
  forall name lo hi, In (name, (lo, hi)) ranges -> range_error lo hi = None.

(** The value that the unit variate [u] yields for the range [(lo, hi)]:
    the integer [lo + floor(u * (hi + 1 - lo))] when both bounds are
    integers, the float [lo + (hi - lo) * u] otherwise. *)
Definition drawn_from (u : Q) (lo hi v : pynum) : Prop :=
  match lo, hi with
  | PyInt a, PyInt b => v = PyInt (a + Qfloor (u * inject_Z (b + 1 - a)))
  | _, _ => v = PyFloat (to_Q lo + (to_Q hi - to_Q lo) * u)
  end.

(** [params] holds one parameter per range, under the name of the range
    and in the order of the ranges; the parameter of the [k]-th range is
    the value that the [k]-th unit variate after position [s] yields for
    it, and lies in the range. *)
Fixpoint sampled_from (random_sample : nat -> Q) (s : nat)
    (ranges : dict (pynum * pynum)) (params : dict pynum) : Prop :=
  match ranges, params with
  | [], [] => True
  | (name, (lo, hi)) :: ranges', (name', v) :: params' =>
      name' = name
      /\ drawn_from (random_sample s) lo hi v
      /\ in_range lo hi v
      /\ sampled_from random_sample (S s) ranges' params'
  | _, _ => False
  end.

Section Traces.

Variable strategy_function :
  datetime -> datetime -> option (dict pynum) -> M Portfolio.
Variable _run_backtest :
  datetime -> datetime -> string -> option Portfolio -> M BacktestResult.

(** The results of a walk-forward run that starts its next window at
    [cur], with the number [num], in the state [s]: while a window fits
    before [now], the strategy is called on the train interval
    [[cur, cur + train]], the portfolio it returns is backtested on the
    test interval [[cur + train, cur + train + test]] that follows, and
    the next window starts [step] days later. *)
Inductive wf_trace (now : datetime) (train test step : Z)
  : datetime -> Z -> nat -> list BacktestResult -> nat -> Prop :=
| wf_trace_stop cur num s :
    now < cur + timedelta_days train + timedelta_days test ->
    wf_trace now train test step cur num s [] s
| wf_trace_window cur num s p s1 r s2 rs s' :
    cur + timedelta_days train + timedelta_days test <= now ->
    strategy_function cur (cur + timedelta_days train) None s = (ok p, s1) ->
    _run_backtest (cur + timedelta_days train)
      (cur + timedelta_days train + timedelta_days test)
      ("WF_Window_" ++ string_of_Z num) (Some p) s1 = (ok r, s2) ->
    wf_trace now train test step (cur + timedelta_days step) (num + 1) s2 rs s' ->
    wf_trace now train test step cur num s (r :: rs) s'.

Variable draw : M (dict pynum).

(** The samples of a Monte Carlo run over the simulations [indices], from
    the state [s]: each simulation draws its parameters; when the strategy
    and the backtest both return, the simulation contributes the sample of
    its result, and when either raises it contributes nothing. *)
Inductive mc_trace (start_date end_date : datetime)
  : list nat -> nat -> list MCSample -> nat -> Prop :=
| mc_trace_done s : mc_trace start_date end_date [] s [] s
| mc_trace_kept i rest s params s1 p s2 r s3 samples s' :
    draw s = (ok params, s1) ->
    strategy_function start_date end_date (Some params) s1 = (ok p, s2) ->
    _run_backtest start_date end_date ("MC_" ++ string_of_Z (Z.of_nat i + 1))
      (Some p) s2 = (ok r, s3) ->
    mc_trace start_date end_date rest s3 samples s' ->
    mc_trace start_date end_date (i :: rest) s
      ({| mc_simulation := Z.of_nat i + 1;
          mc_params := params;
          mc_sharpe := sharpe_ratio r;
          mc_return := total_return r;
          mc_max_dd := max_drawdown r |} :: samples) s'
| mc_trace_strategy_raised i rest s params s1 e s2 samples s' :
    draw s = (ok params, s1) ->
    strategy_function start_date end_date (Some params) s1 = (throw e, s2) ->
    mc_trace start_date end_date rest s2 samples s' ->
    mc_trace start_date end_date (i :: rest) s samples s'
| mc_trace_backtest_raised i rest s params s1 p s2 e s3 samples s' :
    draw s = (ok params, s1) ->
    strategy_function start_date end_date (Some params) s1 = (ok p, s2) ->
    _run_backtest start_date end_date ("MC_" ++ string_of_Z (Z.of_nat i + 1))
      (Some p) s2 = (throw e, s3) ->
    mc_trace start_date end_date rest s3 samples s' ->
    mc_trace start_date end_date (i :: rest) s samples s'.

End Traces.

(** Every column of the frame is as long as its index. *)
Definition df_wf (df : DataFrame) : Prop :=
  Forall (fun c => List.length c = df_len df) (dict_values (df_columns df)).

(** * Properties *)

(** ** Dates *)

Lemma usec_per_day_pos : 0 < usec_per_day.
Proof. reflexivity. Qed.

Lemma td_days_timedelta_days d : td_days (timedelta_days d) = d.
Proof. unfold td_days, timedelta_days. apply Z.div_mul. discriminate. Qed.

Lemma py_truediv_ok a b : b <> 0 -> py_truediv a b = ok (inject_Z a / inject_Z b)%Q.
Proof.
  intros Hb. unfold py_truediv.
  destruct (Z.eqb_spec b 0); [contradiction | reflexivity].
Qed.

(** ** Walk-forward scheduling *)

Section WalkForward.

Variable strategy_function :
  datetime -> datetime -> option (dict pynum) -> M Portfolio.
Variable np_sqrt : Q -> pyfloat.
Variable np_power : pyfloat -> pyfloat -> pyfloat.
Variable randn : nat -> Q.

Local Abbreviation run_backtest :=
  (PortfolioValidator._run_backtest strategy_function np_sqrt np_power randn).
Local Abbreviation wf_loop :=
  (PortfolioValidator.walk_forward_loop strategy_function np_sqrt np_power randn).
Local Abbreviation wf_windows :=
  (PortfolioValidator.walk_forward_windows strategy_function np_sqrt np_power randn).
Local Abbreviation wf_analysis :=
  (PortfolioValidator.walk_forward_analysis strategy_function np_sqrt np_power randn).

(** A successful [_run_backtest] records the interval it was given. *)
Lemma run_backtest_interval sd ed name pp s r s' :
  run_backtest sd ed name pp s = (inr r, s') ->
  start_date r = sd /\ end_date r = ed.
Proof.
  unfold PortfolioValidator._run_backtest, bind, lift, ret.
  destruct pp as [p|].
  - destruct (PortfolioValidator._calculate_portfolio_returns randn p sd ed s)
      as [[e|rs] s1]; [discriminate|].
    destruct (py_truediv 365 (td_days (ed - sd))) as [e|x]; [discriminate|].
    intros H. inversion H. split; reflexivity.
  - destruct (strategy_function sd ed None s) as [[e|p] s0]; [discriminate|].
    destruct (PortfolioValidator._calculate_portfolio_returns randn p sd ed s0)
      as [[e|rs] s1]; [discriminate|].
    destruct (py_truediv 365 (td_days (ed - sd))) as [e|x]; [discriminate|].
    intros H. inversion H. split; reflexivity.
Qed.

(** With a predefined portfolio and a window of a positive number of days
    [_run_backtest] returns. *)
Lemma run_backtest_returns sd ed name p s :
  0 < td_days (ed - sd) ->
  exists r s', run_backtest sd ed name (Some p) s = (inr r, s').
Proof.
  intros Hd.
  unfold PortfolioValidator._run_backtest, bind, lift, ret,
    PortfolioValidator._calculate_portfolio_returns,
    PortfolioValidator.np_random_randn, bind, ret.
  destruct (Z.ltb_spec (td_days (ed - sd)) 0) as [Hneg|_]; [lia|].
  unfold ok. rewrite py_truediv_ok by lia. unfold ok.
  eexists. eexists. reflexivity.
Qed.

Lemma wf_loop_chain fuel now train test step :
  forall cur num results s ws s',
    wf_loop fuel now train test step cur num results s = Some (inr ws, s') ->
    exists new, ws = results ++ new /\ wf_chain now train test step cur num new.
Proof.
  induction fuel as [|fuel IH]; intros cur num results s ws s' H; [discriminate|].
  cbn [PortfolioValidator.walk_forward_loop] in H.
  destruct (Z.gtb_spec (cur + timedelta_days train + timedelta_days test) now)
    as [Hgt|Hle].
  - inversion H; subst. exists []. rewrite app_nil_r. split; [reflexivity|constructor].
  - unfold bind at 1 in H.
    destruct (strategy_function cur (cur + timedelta_days train) None s)
      as [[e|p] s0]; [discriminate|].
    destruct (run_backtest (cur + timedelta_days train)
                (cur + timedelta_days train + timedelta_days test)
                ("WF_Window_" ++ string_of_Z num) (Some p) s0)
      as [[e|r] s1] eqn:Hr; [discriminate|].
    apply run_backtest_interval in Hr. destruct Hr as [Hsd Hed].
    apply IH in H. destruct H as [new [Hws Hch]].
    eexists (_ :: new). split.
    + rewrite Hws, <- app_assoc. reflexivity.
    + constructor; cbn; try reflexivity; try assumption; rewrite ?Hsd, ?Hed; try reflexivity.
      lia.
Qed.


(** The loop leaves as soon as its fuel exceeds the number of windows that
    fit, whatever it has accumulated, provided the strategy returns. *)
Lemma wf_loop_total now train test step :
  0 < test -> 0 < step ->
  (forall sd ed s, exists p s', strategy_function sd ed None s = (ok p, s')) ->
  forall n cur num results s,
    now - (cur + timedelta_days train + timedelta_days test)
      < Z.of_nat n * timedelta_days step ->
    forall fuel, (S n <= fuel)%nat ->
      exists ws s',
        wf_loop fuel now train test step cur num results s = Some (inr ws, s')
        /\ Z.of_nat (List.length ws)
           = Z.of_nat (List.length results)
             + Z.max 0 ((now - (cur + timedelta_days train + timedelta_days test))
                        / timedelta_days step + 1).
Proof.
  intros Htest Hstep Hstrat.
  assert (Htds : 0 < timedelta_days step)
    by (unfold timedelta_days; pose proof usec_per_day_pos; nia).
  induction n as [|n IH]; intros cur num results s Hslack fuel Hfuel;
    (destruct fuel as [|fuel]; [lia|]);
    cbn [PortfolioValidator.walk_forward_loop];
    set (slack := now - (cur + timedelta_days train + timedelta_days test)) in *;
    destruct (Z.gtb_spec (cur + timedelta_days train + timedelta_days test) now)
      as [Hgt|Hle].
  1, 3: exists results, s; split; [reflexivity|];
        assert (slack / timedelta_days step < 0)
          by (apply Z.div_lt_upper_bound; subst slack; lia); lia.
  - subst slack. lia.
  - unfold bind at 1.
    destruct (Hstrat cur (cur + timedelta_days train) s) as [p [s0 ->]]. unfold ok.
    destruct (run_backtest_returns (cur + timedelta_days train)
                (cur + timedelta_days train + timedelta_days test)
                ("WF_Window_" ++ string_of_Z num) p s0) as [r [s1 Hr]].
    { replace (cur + timedelta_days train + timedelta_days test
               - (cur + timedelta_days train)) with (timedelta_days test) by lia.
      rewrite td_days_timedelta_days. assumption. }
    rewrite Hr.
    match goal with
    | |- context [wf_loop fuel now train test step ?c ?k ?rs s1] =>
        destruct (IH c k rs s1) with (fuel := fuel) as [ws [s' [Hrun Hlen]]];
          [subst slack; lia | lia | ]
    end.
    exists ws, s'. split; [exact Hrun|].
    rewrite Hlen, length_app. cbn [List.length].
    replace (now - (cur + timedelta_days step + timedelta_days train
                    + timedelta_days test))
      with (slack + (-1) * timedelta_days step) by (subst slack; lia).
    rewrite Z.div_add by lia.
    assert (0 <= slack / timedelta_days step)
      by (apply Z.div_pos; subst slack; lia).
    lia.
Qed.

Lemma wf_loop_trace fuel now train test step :
  forall cur num results s ws s',
    wf_loop fuel now train test step cur num results s = Some (inr ws, s') ->
    exists new,
      ws = results ++ new
      /\ wf_trace strategy_function run_backtest now train test step cur num s
           (map wf_result new) s'.
Proof.
  induction fuel as [|fuel IH]; intros cur num results s ws s' H; [discriminate|].
  cbn [PortfolioValidator.walk_forward_loop] in H.
  destruct (Z.gtb_spec (cur + timedelta_days train + timedelta_days test) now)
    as [Hgt|Hle].
  - inversion H; subst. exists []. rewrite app_nil_r.
    split; [reflexivity|]. constructor. lia.
  - unfold bind at 1 in H.
    destruct (strategy_function cur (cur + timedelta_days train) None s)
      as [[e|p] s0] eqn:Hs; [discriminate|].
    destruct (run_backtest (cur + timedelta_days train)
                (cur + timedelta_days train + timedelta_days test)
                ("WF_Window_" ++ string_of_Z num) (Some p) s0)
      as [[e|r] s1] eqn:Hr; [discriminate|].
    apply IH in H. destruct H as [new [Hws Htr]].
    eexists (_ :: new). split.
    + rewrite Hws, <- app_assoc. reflexivity.
    + cbn [map wf_result]. eapply wf_trace_window; eassumption.
Qed.

Lemma wf_chain_nth now train test step cur num ws :
  wf_chain now train test step cur num ws ->
  forall i w, nth_error ws i = Some w ->
    start_date (wf_result w)
    = cur + Z.of_nat i * timedelta_days step + timedelta_days train
    /\ end_date (wf_result w) = start_date (wf_result w) + timedelta_days test
    /\ end_date (wf_result w) <= now.
Proof.
  induction 1 as [|cur num w ws Hn Hs He Hsd Hed Hle Hch IH]; intros i w0 Hi.
  - destruct i; discriminate.
  - destruct i as [|i].
    + cbn in Hi. inversion Hi; subst w0. repeat split; [|congruence|exact Hle].
      rewrite Hsd, He. cbn. lia.
    + cbn [nth_error] in Hi. destruct (IH i w0 Hi) as [H1 [H2 H3]].
      repeat split; [|exact H2|exact H3].
      rewrite H1. unfold timedelta_days. lia.
Qed.

(** C1. Whenever [walk_forward_analysis] returns its list of results, the
    results are those of a walk-forward run from the start of the history:
    for each window the strategy is called on the train interval
    [[train_start, train_start + train]], the portfolio it returns is
    backtested on the test interval that starts exactly where the train
    interval ends, and the next window starts exactly [step_size_days]
    days later.  The i-th result therefore records a test interval that
    starts at [train_end = start + i * step + train] and does not end
    after [now]. *)
Theorem walk_forward_test_follows_train
    fuel now train test step total s rs s' :
  wf_analysis fuel now train test step total s = Some (inr rs, s') ->
  wf_trace strategy_function run_backtest now train test step
    (now - timedelta_days total) 1 s rs s'
  /\ (forall i r,
        nth_error rs i = Some r ->
        let train_start :=
          now - timedelta_days total + Z.of_nat i * timedelta_days step in
        let train_end := train_start + timedelta_days train in
        start_date r = train_end
        /\ end_date r = train_end + timedelta_days test
        /\ end_date r <= now).
Proof.
  unfold PortfolioValidator.walk_forward_analysis.
  destruct (wf_windows fuel now train test step total s)
    as [[[e|ws] s1]|] eqn:Hw; try discriminate.
  intros H. inversion H; subst.
  unfold PortfolioValidator.walk_forward_windows in Hw.
  pose proof (wf_loop_trace _ _ _ _ _ _ _ _ _ _ _ Hw) as [new [Hnew Htr]].
  apply wf_loop_chain in Hw. destruct Hw as [new' [-> Hch]].
  cbn [app] in *. subst new. split; [exact Htr|].
  intros i r Hi. cbv zeta. rewrite nth_error_map in Hi.
  destruct (nth_error new' i) as [w|] eqn:Hw; [|discriminate].
  cbn in Hi. inversion Hi; subst r.
  destruct (wf_chain_nth _ _ _ _ _ _ _ Hch i w Hw) as [H1 [H2 H3]].
  split; [exact H1|]. split; [rewrite H2, H1; reflexivity|exact H3].
Qed.


End WalkForward.

Lemma walk_forward_test_follows_train_witness :
  exists rs s',
    PortfolioValidator.walk_forward_analysis sample_strategy sample_sqrt sample_power
      sample_randn 10 (timedelta_days 20000) 5 3 3 20 0 = Some (inr rs, s')
    /\ List.length rs = 5%nat
    /\ wf_trace sample_strategy
         (PortfolioValidator._run_backtest sample_strategy sample_sqrt sample_power
            sample_randn)
         (timedelta_days 20000) 5 3 3 (timedelta_days 20000 - timedelta_days 20) 1
         0 rs s'
    /\ (forall i r,
          nth_error rs i = Some r ->
          let train_start :=
            timedelta_days 20000 - timedelta_days 20
            + Z.of_nat i * timedelta_days 3 in
          let train_end := train_start + timedelta_days 5 in
          start_date r = train_end
          /\ end_date r = train_end + timedelta_days 3
          /\ end_date r <= timedelta_days 20000).
Proof.
  eexists. eexists. split; [vm_compute; reflexivity|].
  split; [reflexivity|].
  apply (walk_forward_test_follows_train sample_strategy sample_sqrt sample_power
           sample_randn 10 (timedelta_days 20000) 5 3 3 20 0).
  vm_compute. reflexivity.
Defined.

(** A strategy that records the interval it is given shows which dates it
    sees: in every window the second date it recorded, the end of its
    train interval, is the day on which the test of that window starts. *)
Example walk_forward_strategy_sees_train_interval :
  exists rs s',
    PortfolioValidator.walk_forward_analysis recording_strategy sample_sqrt
      sample_power sample_randn 10 (timedelta_days 20000) 5 3 3 20 0
    = Some (inr rs, s')
    /\ map stocks_selected rs
       = [["19980"; "19985"]; ["19983"; "19988"]; ["19986"; "19991"];
          ["19989"; "19994"]; ["19992"; "19997"]]%string
    /\ map (fun r => td_days (start_date r)) rs
       = [19985; 19988; 19991; 19994; 19997].
Proof.
  eexists. eexists. split; [vm_compute; reflexivity|].
  split; vm_compute; reflexivity.
Qed.


(** ** Report aggregation *)

Lemma at_most_fgt b x : at_most b x <-> fgt x (Fin b) = false.
Proof.
  unfold fgt, flt, at_most. destruct x as [|[|]|q]; cbn [negb]; try tauto.
  - split; [discriminate|intros; discriminate].
  - destruct (Qlt_le_dec b q) as [Hlt|Hle].
    + split; [intros H; exfalso; apply (Qlt_not_le _ _ Hlt H) | discriminate].
    + tauto.
Qed.

Lemma at_most_not_fge b c x : at_most b x -> (b < c)%Q -> fge x (Fin c) = false.
Proof.
  unfold fge, fle, flt, feqb, at_most.
  destruct x as [|[|]|q]; intros Hq Hbc; try reflexivity; try discriminate.
  destruct (Qlt_le_dec c q) as [Hlt|Hle]; [exfalso; lra|].
  cbn [orb]. destruct (Qeq_bool c q) eqn:E; [|reflexivity].
  apply Qeq_bool_eq in E. exfalso. lra.
Qed.

Lemma Qratio_unit (a b : Z) :
  0 <= a <= b -> 0 < b -> (0 <= inject_Z a / inject_Z b <= 1)%Q.
Proof.
  intros Hab Hb.
  assert (Hb' : (inject_Z 0 < inject_Z b)%Q) by (rewrite <- Zlt_Qlt; exact Hb).
  assert (Ha' : (inject_Z 0 <= inject_Z a)%Q) by (rewrite <- Zle_Qle; lia).
  assert (Hab' : (inject_Z a <= inject_Z b)%Q) by (rewrite <- Zle_Qle; lia).
  change (inject_Z 0) with 0%Q in Hb', Ha'.
  split.
  - apply Qle_shift_div_l; [exact Hb'|lra].
  - apply Qle_shift_div_r; [exact Hb'|lra].
Qed.

Lemma filter_length_le {A} (f : A -> bool) (l : list A) :
  (List.length (filter f l) <= List.length l)%nat.
Proof.
  induction l as [|x l IH]; cbn; [lia|]. destruct (f x); cbn; lia.
Qed.

(** The percentage of positive entries of a non-empty list is a number of
    [0, 100]. *)
Lemma positive_pct_range xs :
  xs <> [] ->
  exists p, PortfolioValidator.positive_pct xs (List.length xs) = ok (Fin p)
            /\ (0 <= p <= 100)%Q.
Proof.
  intros Hne. unfold PortfolioValidator.positive_pct, res_bind.
  assert (Hlen : 0 < Z.of_nat (List.length xs))
    by (destruct xs; [contradiction | cbn [List.length]; lia]).
  rewrite py_truediv_ok by lia. unfold ok.
  eexists. split; [reflexivity|].
  pose proof (filter_length_le (fun x => fgt x (Fin 0)) xs) as Hle.
  pose proof (Qratio_unit (Z.of_nat (List.length (filter (fun x => fgt x (Fin 0)) xs)))
                (Z.of_nat (List.length xs))) as Hq.
  destruct Hq as [H0 H1]; [lia | lia |]. lra.
Qed.

Lemma positive_pct_empty xs :
  PortfolioValidator.positive_pct xs 0 = throw ZeroDivisionError.
Proof. reflexivity. Qed.

(** [min(x * 50, 50)] does not exceed 50, whatever [x] is. *)
Lemma sharpe_score_at_most x : at_most 50 (py_min (fmul x (Fin 50)) (Fin 50)).
Proof.
  destruct x as [|[|]|q]; try exact I; try reflexivity.
  - unfold py_min, fmul, flt, at_most. cbn. discriminate.
  - unfold py_min, fmul, flt, at_most.
    destruct (Qlt_le_dec 50 (q * 50)) as [Hlt|Hle]; lra.
Qed.

Lemma positive_pct_inv xs r :
  PortfolioValidator.positive_pct xs (List.length xs) = ok r ->
  exists p, r = Fin p /\ (0 <= p <= 100)%Q.
Proof.
  destruct xs as [|x xs]; [discriminate|].
  destruct (positive_pct_range (x :: xs)) as [p [E Hp]]; [discriminate|].
  rewrite E. intros H. inversion H. exists p. split; [reflexivity|exact Hp].
Qed.

(** The score and the recommendation of a report that was returned, in
    terms of the two percentages the function computes. *)
Lemma report_shape mt wf mc r :
  PortfolioValidator.generate_validation_report mt wf mc = ok r ->
  exists pm pw x,
    (0 <= pm <= 100)%Q /\ (0 <= pw <= 100)%Q
    /\ robustness_score r
       = fadd (fadd (fadd (Fin (pm * (1 # 2) * (25 # 100)))
                          (Fin (pw * (1 # 2) * (35 # 100))))
                    (fmul (fmul (positive_sharpe_pct mc) (Fin (1 # 2)))
                          (Fin (25 # 100))))
              (fmul (py_min (fmul x (Fin 50)) (Fin 50)) (Fin (15 # 100)))
    /\ recommendation r
       = (if fge (robustness_score r) (Fin 70) then REC_STRONG
          else if fge (robustness_score r) (Fin 50) then REC_MODERATE
          else if fge (robustness_score r) (Fin 30) then REC_WEAK
          else REC_FAIL).
Proof.
  unfold PortfolioValidator.generate_validation_report.
  destruct (PortfolioValidator.positive_pct (map sharpe_ratio (dict_values mt))
              (List.length (map sharpe_ratio (dict_values mt)))) as [e|m] eqn:Em;
    [discriminate|].
  destruct (PortfolioValidator.positive_pct (map sharpe_ratio wf)
              (List.length (map sharpe_ratio wf))) as [e|w] eqn:Ew;
    [discriminate|].
  apply positive_pct_inv in Em. destruct Em as [pm [-> Hm]].
  apply positive_pct_inv in Ew. destruct Ew as [pw [-> Hw]].
  cbn [res_bind]. intros H. inversion H; subst r; clear H.
  exists pm, pw, (np_mean (map sharpe_ratio (dict_values mt) ++ map sharpe_ratio wf)).
  cbn [robustness_score recommendation].
  repeat split; try tauto.
Qed.

Lemma report_returns mt wf mc :
  mt <> [] -> wf <> [] ->
  exists r, PortfolioValidator.generate_validation_report mt wf mc = ok r.
Proof.
  intros Hmt Hwf. unfold PortfolioValidator.generate_validation_report.
  destruct (positive_pct_range (map sharpe_ratio (dict_values mt))) as [pm [Em _]].
  { unfold dict_values. destruct mt; [contradiction|discriminate]. }
  destruct (positive_pct_range (map sharpe_ratio wf)) as [pw [Ew _]].
  { destruct wf; [contradiction|discriminate]. }
  rewrite Em. cbn [res_bind ok]. rewrite Ew. cbn [res_bind ok].
  eexists. reflexivity.
Qed.

(** C4. When the Monte Carlo positive-Sharpe percentage lies in [0, 100]
    (the two other percentages are computed by the function and always do),
    [generate_validation_report] returns a report for non-empty inputs, and
    no report it returns has a robustness score above 50 or the
    recommendation "STRONG". *)
Theorem robustness_score_never_exceeds_50 mt wf mc p :
  positive_sharpe_pct mc = Fin p -> (0 <= p <= 100)%Q ->
  (mt <> [] -> wf <> [] ->
   exists r, PortfolioValidator.generate_validation_report mt wf mc = ok r)
  /\ (forall r,
        PortfolioValidator.generate_validation_report mt wf mc = ok r ->
        fgt (robustness_score r) (Fin 50) = false
        /\ recommendation r <> REC_STRONG).
Proof.
  intros Hmc Hp. split; [apply report_returns|].
  intros r Hr. apply report_shape in Hr.
  destruct Hr as [pm [pw [x [Hm [Hw [Hscore Hrec]]]]]].
  assert (Hbound : at_most 50 (robustness_score r)).
  { rewrite Hscore, Hmc. pose proof (sharpe_score_at_most x) as Hs.
    destruct (py_min (fmul x (Fin 50)) (Fin 50)) as [|[|]|q].
    - exact I.
    - reflexivity.
    - discriminate Hs.
    - unfold at_most, fadd, fmul in *. lra. }
  split; [apply at_most_fgt; exact Hbound|].
  rewrite Hrec, (at_most_not_fge 50 70 _ Hbound) by reflexivity.
  destruct (fge (robustness_score r) (Fin 50));
    [|destruct (fge (robustness_score r) (Fin 30))]; discriminate.
Qed.

Lemma robustness_score_never_exceeds_50_witness :
  (all_failed_timeframes <> [] -> all_failed_windows <> [] ->
   exists r, PortfolioValidator.generate_validation_report
               all_failed_timeframes all_failed_windows all_failed_monte_carlo = ok r)
  /\ (forall r,
        PortfolioValidator.generate_validation_report
          all_failed_timeframes all_failed_windows all_failed_monte_carlo = ok r ->
        fgt (robustness_score r) (Fin 50) = false
        /\ recommendation r <> REC_STRONG).
Proof.
  apply (robustness_score_never_exceeds_50 all_failed_timeframes all_failed_windows
           all_failed_monte_carlo 0).
  - reflexivity.
  - split; [apply Qle_refl | discriminate].
Defined.

(** C3. The score is not confined to [0, 100] from below: on a run in which
    every backtest failed (every Sharpe ratio is -0.5 and no percentage is
    positive) the report is returned with the robustness score -3.75, since
    [min(avg_sharpe * 50, 50)] has no lower cap. *)
Theorem robustness_score_below_zero :
  exists r,
    PortfolioValidator.generate_validation_report
      all_failed_timeframes all_failed_windows all_failed_monte_carlo = ok r
    /\ feqb (robustness_score r) (Fin (-375 # 100)) = true
    /\ flt (robustness_score r) (Fin 0) = true
    /\ recommendation r = REC_FAIL.
Proof.
  eexists. split; [reflexivity|].
  repeat split; vm_compute; reflexivity.
Qed.

(** ** Performance metrics *)

Lemma fmul_nan_r a : fmul a NaN = NaN.
Proof. destruct a; reflexivity. Qed.

Lemma fdiv_nan_r a : fdiv a NaN = NaN.
Proof. destruct a; reflexivity. Qed.








Section Metrics.

Variable np_sqrt : Q -> pyfloat.
Variable np_power : pyfloat -> pyfloat -> pyfloat.
Variable strategy_function :
  datetime -> datetime -> option (dict pynum) -> M Portfolio.
Variable randn : nat -> Q.

Local Abbreviation validator_backtest :=
  (PortfolioValidator._run_backtest strategy_function np_sqrt np_power randn).

(** Both implementations return the literal [0.0] when the standard
    deviation compares equal to zero. *)
Lemma sharpe_zero_std returns rf :
  feqb (series_std np_sqrt returns) (Fin 0) = true ->
  PortfolioValidator._calculate_sharpe np_sqrt returns rf = Fin 0
  /\ BacktestEngine._calculate_sharpe np_sqrt returns rf = Fin 0.
Proof.
  intros H.
  unfold PortfolioValidator._calculate_sharpe, BacktestEngine._calculate_sharpe.
  rewrite H, orb_true_r. split; reflexivity.
Qed.

(** The engine guards the empty series. *)
Lemma engine_sharpe_empty rf : BacktestEngine._calculate_sharpe np_sqrt [] rf = Fin 0.
Proof. reflexivity. Qed.

(** C5. On the empty series the Sharpe ratio of [BacktestEngine] is [0.0],
    but the one of [PortfolioValidator] is NaN: the standard deviation of an
    empty series is NaN, which does not compare equal to zero, and the
    validator has no guard on the length. *)
Theorem validator_sharpe_empty_is_nan rf :
  BacktestEngine._calculate_sharpe np_sqrt [] rf = Fin 0
  /\ PortfolioValidator._calculate_sharpe np_sqrt [] rf = NaN.
Proof.
  split; [reflexivity|].
  unfold PortfolioValidator._calculate_sharpe. cbn.
  rewrite fmul_nan_r. reflexivity.
Qed.

Local Abbreviation engine_backtest :=
  (BacktestEngine.backtest_portfolio np_sqrt np_power).

(** What a successful [backtest_portfolio] has computed. *)
Lemma backtest_success_inv capital weights stock_data sd ed r :
  engine_backtest capital weights stock_data sd ed
  = Returns (BacktestEngine.Success r) ->
  let prices :=
    BacktestEngine.clean_prices
      (BacktestEngine.filter_date_range
         (BacktestEngine.collect_prices weights stock_data (mkDataFrame [] [])) sd ed) in
  let available := dict_keys (df_columns prices) in
  let total := BacktestEngine.total_weight_of weights available in
  let rs := BacktestEngine.portfolio_returns r in
  available <> []
  /\ ~ (total == 0)%Q
  /\ BacktestEngine.weights_used r
     = BacktestEngine.normalize_weights weights available total
  /\ rs <> []
  /\ BacktestEngine.num_days r = List.length rs
  /\ BacktestEngine.cumulative_returns r = cumprod (map (fun x => 1 + x)%Q rs)
  /\ BacktestEngine.annual_return r
     = BacktestEngine._annualize_return np_power (BacktestEngine.total_return r)
         (List.length rs)
  /\ BacktestEngine.max_drawdown r
     = BacktestEngine._calculate_max_drawdown (BacktestEngine.cumulative_returns r)
  /\ BacktestEngine.sharpe_ratio r
     = BacktestEngine._calculate_sharpe np_sqrt rs default_risk_free_rate
  /\ BacktestEngine.win_rate r = BacktestEngine.win_rate_of rs.
Proof.
  intros H. cbv zeta. revert H.
  unfold BacktestEngine.backtest_portfolio.
  set (filtered := BacktestEngine.filter_date_range _ sd ed).
  destruct (df_len filtered =? 0)%nat; [discriminate|].
  set (prices := BacktestEngine.clean_prices filtered).
  destruct (List.length (df_columns prices) =? 0)%nat eqn:Ecols; [discriminate|].
  destruct (Qeq_bool (BacktestEngine.total_weight_of weights (dict_keys (df_columns prices))) 0)
    eqn:Etot; [discriminate|].
  destruct (finite_columns _) as [returns|]; [|discriminate].
  set (rs := map _ (transpose _ returns)).
  destruct (rev (map (fun c => (c * capital)%Q) (cumprod (map (fun x => (1 + x)%Q) rs))))
    as [|last tl] eqn:Erev; [discriminate|].
  intros H. inversion H; subst r; clear H.
  cbn [BacktestEngine.portfolio_returns BacktestEngine.weights_used
       BacktestEngine.num_days BacktestEngine.cumulative_returns
       BacktestEngine.annual_return BacktestEngine.total_return
       BacktestEngine.max_drawdown BacktestEngine.sharpe_ratio
       BacktestEngine.win_rate].
  fold rs.
  repeat split; try reflexivity.
  - unfold dict_keys. destruct (df_columns prices); cbn in Ecols |- *; discriminate.
  - intros Hz. apply Qeq_eq_bool in Hz. congruence.
  - intros Hrs. rewrite Hrs in Erev. discriminate Erev.
Qed.






(** C6 (as amended). Over a window of a positive number of whole days,
    [PortfolioValidator._run_backtest] annualizes by the calendar span:
    [annual_return = (1 + total_return) ** (365 / days) - 1] with
    [days = (end_date - start_date).days].  [BacktestEngine.backtest_portfolio]
    annualizes by the number [n] of return observations instead:
    [annual_return = (1 + total_return) ** (1 / (n / 252)) - 1]. *)
Theorem annual_return_exponents sd ed name p s :
  0 < td_days (ed - sd) ->
  (exists res s' tr,
      validator_backtest sd ed name (Some p) s = (inr res, s')
      /\ total_return res = Fin tr
      /\ annual_return res
         = fsub (np_power (Fin (1 + tr))
                          (Fin (inject_Z 365 / inject_Z (td_days (ed - sd)))))
                (Fin 1))
  /\ (forall capital weights stock_data res,
        engine_backtest capital weights stock_data sd ed
        = Returns (BacktestEngine.Success res) ->
        BacktestEngine.annual_return res
        = fsub (np_power
                  (fadd (Fin 1) (BacktestEngine.total_return res))
                  (Fin (1 / (inject_Z (Z.of_nat
                               (List.length (BacktestEngine.portfolio_returns res)))
                             / 252))))
               (Fin 1)).
Proof.
  intros Hd. split.
  - unfold PortfolioValidator._run_backtest, bind, lift, ret,
      PortfolioValidator._calculate_portfolio_returns,
      PortfolioValidator.np_random_randn, bind, ret.
    destruct (Z.ltb_spec (td_days (ed - sd)) 0) as [Hneg|_]; [lia|].
    unfold ok. rewrite py_truediv_ok by lia. unfold ok.
    eexists. eexists. eexists. split; [reflexivity|]. split; reflexivity.
  - intros capital weights stock_data res H.
    apply backtest_success_inv in H. cbv zeta in H.
    destruct H as (_ & _ & _ & Hrs & _ & _ & Hann & _).
    rewrite Hann. unfold BacktestEngine._annualize_return.
    destruct (Qle_bool (inject_Z (Z.of_nat (List.length (BacktestEngine.portfolio_returns res)))
                        / 252) 0) eqn:E; [|reflexivity].
    exfalso. apply Qle_bool_iff in E.
    assert (Hn : (inject_Z 0 < inject_Z (Z.of_nat
                    (List.length (BacktestEngine.portfolio_returns res))))%Q).
    { rewrite <- Zlt_Qlt.
      destruct (BacktestEngine.portfolio_returns res);
        [contradiction | cbn [List.length]; lia]. }
    change (inject_Z 0) with 0%Q in Hn.
    unfold Qdiv in E. change (/ 252)%Q with (1 # 252)%Q in E. lra.
Qed.

End Metrics.

Lemma annual_return_exponents_witness :
  (exists res s' tr,
      PortfolioValidator._run_backtest sample_strategy sample_sqrt sample_power
        sample_randn 0 (timedelta_days 2) "2d"
        (Some {| stocks := Some ["AAPL"%string]; weights := [] |}) 0%nat
      = (inr res, s')
      /\ total_return res = Fin tr
      /\ annual_return res
         = fsub (sample_power (Fin (1 + tr))
                   (Fin (inject_Z 365 / inject_Z (td_days (timedelta_days 2 - 0)))))
                (Fin 1))
  /\ (forall capital weights stock_data res,
        BacktestEngine.backtest_portfolio sample_sqrt sample_power
          capital weights stock_data 0 (timedelta_days 2)
        = Returns (BacktestEngine.Success res) ->
        BacktestEngine.annual_return res
        = fsub (sample_power
                  (fadd (Fin 1) (BacktestEngine.total_return res))
                  (Fin (1 / (inject_Z (Z.of_nat
                               (List.length (BacktestEngine.portfolio_returns res)))
                             / 252))))
               (Fin 1)).
Proof.
  apply (annual_return_exponents sample_sqrt sample_power sample_strategy sample_randn
           0 (timedelta_days 2) "2d"%string
           {| stocks := Some ["AAPL"%string]; weights := [] |} 0%nat).
  reflexivity.
Defined.

(** C6 fails for the engine: over a window of 365 calendar days in which
    the data yield two return observations (total return 21%),
    [backtest_portfolio] reports [1.21 ** 126 - 1], not
    [1.21 ** (365 / 365) - 1 = 0.21].  Both exponents are integers, where
    [sample_power] is exact. *)
Lemma engine_annualizes_by_observation_count :
  exists res,
    BacktestEngine.backtest_portfolio sample_sqrt sample_power 100000
      sparse_year_weights sparse_year_data (timedelta_days 0) (timedelta_days 365)
    = Returns (BacktestEngine.Success res)
    /\ td_days (timedelta_days 365 - timedelta_days 0) = 365
    /\ List.length (BacktestEngine.portfolio_returns res) = 2%nat
    /\ feqb (BacktestEngine.total_return res) (Fin (21 # 100)) = true
    /\ feqb (BacktestEngine.annual_return res)
            (fsub (sample_power (fadd (Fin 1) (BacktestEngine.total_return res))
                                (Fin (inject_Z 365 / inject_Z 365)))
                  (Fin 1)) = false
    /\ feqb (BacktestEngine.annual_return res)
            (fsub (sample_power (Fin (121 # 100)) (Fin 126)) (Fin 1)) = true.
Proof.
  eexists. split; [vm_compute; reflexivity|].
  repeat split; vm_compute; reflexivity.
Qed.



(** ** Monte Carlo parameter sampling *)


Lemma dict_set_fresh {V} (d : dict V) k v :
  ~ In k (dict_keys d) -> dict_set d k v = d ++ [(k, v)].
Proof.
  unfold dict_keys. induction d as [|[k0 v0] d IH]; cbn [dict_set map fst In app];
    intros H; [reflexivity|].
  destruct (String.eqb_spec k k0) as [->|Hne]; [exfalso; apply H; left; reflexivity|].
  rewrite IH; [reflexivity|]. intros Hin. apply H. right. exact Hin.
Qed.



Section MonteCarlo.

Variable random_sample : nat -> Q.

Local Abbreviation randint := (PortfolioValidator.np_random_randint random_sample).
Local Abbreviation uniform := (PortfolioValidator.np_random_uniform random_sample).
Local Abbreviation draw := (PortfolioValidator.draw_params random_sample).

(** One step of [draw_params]: what is drawn for one range. *)
Local Abbreviation draw_one lo hi :=
  (match lo, hi with
   | PyInt a, PyInt b => bind (randint a (b + 1)) (fun z => ret (PyInt z))
   | _, _ =>
       bind (lift (to_float lo)) (fun low =>
       bind (lift (to_float hi)) (fun high =>
       bind (uniform low high) (fun q => ret (PyFloat q))))
   end).

(** The draw for one range raises the exception of the range, or takes
    one unit variate and returns the value that it yields. *)
Lemma draw_one_spec lo hi s :
  match range_error lo hi with
  | Some e => draw_one lo hi s = (inl e, s)
  | None =>
      exists v, draw_one lo hi s = (inr v, S s)
                /\ drawn_from (random_sample s) lo hi v
  end.
Proof.
  assert (Hfloat :
    match (if float_overflows (to_Q lo) || float_overflows (to_Q hi)
              || float_overflows (to_Q hi - to_Q lo)
           then Some OverflowError else None) with
    | Some e =>
        bind (lift (to_float lo)) (fun low =>
        bind (lift (to_float hi)) (fun high =>
        bind (uniform low high) (fun q => ret (PyFloat q)))) s = (inl e, s)
    | None =>
        exists v,
          bind (lift (to_float lo)) (fun low =>
          bind (lift (to_float hi)) (fun high =>
          bind (uniform low high) (fun q => ret (PyFloat q)))) s = (inr v, S s)
          /\ v = PyFloat (to_Q lo + (to_Q hi - to_Q lo) * random_sample s)
    end).
  { unfold bind, lift, ret, to_float, PortfolioValidator.np_random_uniform.
    destruct (float_overflows (to_Q lo)); [reflexivity|].
    destruct (float_overflows (to_Q hi)); [reflexivity|].
    destruct (float_overflows (to_Q hi - to_Q lo)); [reflexivity|].
    cbn [orb]. eexists. split; reflexivity. }
  destruct lo as [a|a], hi as [b|b]; try exact Hfloat.
  unfold range_error, drawn_from, bind, ret, PortfolioValidator.np_random_randint.
  replace (b + 1 - 1) with b by lia.
  replace (b + 1 <=? a) with (b <? a)
    by (destruct (Z.ltb_spec b a), (Z.leb_spec (b + 1) a); lia || reflexivity).
  destruct ((a <? int64_min) || (int64_max <? b) || (b <? a)); [reflexivity|].
  eexists. split; reflexivity.
Qed.

(** [draw_params] raises nothing but the exception of one of its
    ranges. *)
Lemma draw_params_raises items : forall params s e s',
  draw items params s = (inl e, s') ->
  exists name lo hi, In (name, (lo, hi)) items /\ range_error lo hi = Some e.
Proof.
  induction items as [|[name [lo hi]] items IH]; intros params s e s';
    [discriminate|].
  cbn [PortfolioValidator.draw_params]. unfold bind at 1.
  pose proof (draw_one_spec lo hi s) as Hone.
  destruct (range_error lo hi) as [e0|] eqn:Herr.
  - rewrite Hone. intros H. inversion H; subst.
    exists name, lo, hi. split; [left; reflexivity|exact Herr].
  - destruct Hone as [v [-> _]]. intros H. apply IH in H.
    destruct H as [n [l [h [Hin He]]]]. exists n, l, h.
    split; [right; exact Hin|exact He].
Qed.


(** When [draw_params] returns it has taken one draw per range; on
    distinct names that are not yet in [params] it has added one entry per
    range, in the order of the ranges. *)
Lemma draw_params_keys items : forall params s params' s',
  draw items params s = (inr params', s') ->
  s' = Nat.add s (List.length items)
  /\ (NoDup (dict_keys params ++ dict_keys items) ->
      dict_keys params' = dict_keys params ++ dict_keys items).
Proof.
  induction items as [|[name [lo hi]] items IH]; intros params s params' s'.
  - cbn. intros H. inversion H; subst. rewrite Nat.add_0_r.
    split; [reflexivity|]. intros _. rewrite app_nil_r. reflexivity.
  - cbn [PortfolioValidator.draw_params]. unfold bind at 1.
    pose proof (draw_one_spec lo hi s) as Hone.
    destruct (range_error lo hi) as [e0|]; [rewrite Hone; discriminate|].
    destruct Hone as [v [-> _]].
    intros H. apply IH in H. destruct H as [-> Hkeys]. split.
    + cbn [List.length]. lia.
    + intros Hnd. unfold dict_keys in *. cbn [map fst] in *.
      assert (Hfresh : ~ In name (map fst params)).
      { apply NoDup_remove_2 in Hnd. intros Hin. apply Hnd.
        apply in_or_app. left. exact Hin. }
      rewrite (dict_set_fresh params name v Hfresh) in Hkeys.
      rewrite map_app in Hkeys. cbn [map fst] in Hkeys.
      rewrite <- app_assoc in Hkeys. apply Hkeys. exact Hnd.
Qed.

(** When every range can be drawn from, [draw_params] returns. *)
Lemma draw_params_returns items :
  ranges_ok items ->
  forall params s, exists params' s', draw items params s = (inr params', s').
Proof.
  induction items as [|[name [lo hi]] items IH]; intros Hok params s.
  - exists params, s. reflexivity.
  - cbn [PortfolioValidator.draw_params]. unfold bind at 1.
    pose proof (draw_one_spec lo hi s) as Hone.
    rewrite (Hok name lo hi (or_introl eq_refl)) in Hone.
    destruct Hone as [v [-> _]].
    apply IH. intros n l h H. apply (Hok n l h). right. exact H.
Qed.

(** The unit variates lie in [[0, 1)]. *)
Hypothesis random_sample_unit : forall n, (0 <= random_sample n < 1)%Q.



End MonteCarlo.

Section MonteCarloLoop.

Variable strategy_function :
  datetime -> datetime -> option (dict pynum) -> M Portfolio.
Variable np_sqrt : Q -> pyfloat.
Variable np_power : pyfloat -> pyfloat -> pyfloat.
Variable randn : nat -> Q.
Variable random_sample : nat -> Q.

Local Abbreviation draw := (PortfolioValidator.draw_params random_sample).
Local Abbreviation run_backtest :=
  (PortfolioValidator._run_backtest strategy_function np_sqrt np_power randn).
Local Abbreviation mc_loop :=
  (PortfolioValidator.monte_carlo_loop strategy_function np_sqrt np_power randn
     random_sample).
Local Abbreviation mc_sensitivity :=
  (PortfolioValidator.monte_carlo_parameter_sensitivity strategy_function np_sqrt
     np_power randn random_sample).
Local Abbreviation trace ranges :=
  (mc_trace strategy_function run_backtest (draw ranges [])).

(** The loop over the simulations raises nothing but the exception of a
    draw; when it returns, it has appended the samples of the run: those
    of the simulations whose strategy and backtest returned. *)
Lemma monte_carlo_loop_trace ranges sd ed indices :
  forall results s,
    match mc_loop indices ranges sd ed results s with
    | (inl e, _) =>
        exists name lo hi,
          In (name, (lo, hi)) ranges /\ range_error lo hi = Some e
    | (inr results', s') =>
        exists new, results' = results ++ new
                    /\ trace ranges sd ed indices s new s'
    end.
Proof.
  induction indices as [|i indices IH]; intros results s.
  - cbn. exists []. rewrite app_nil_r. split; [reflexivity|constructor].
  - cbn [PortfolioValidator.monte_carlo_loop]. unfold bind at 1.
    destruct (draw ranges [] s) as [[e|params] s1] eqn:Ed.
    { apply (draw_params_raises random_sample) in Ed. exact Ed. }
    unfold bind at 1, try_except, bind at 1.
    destruct (strategy_function sd ed (Some params) s1) as [[e|p] s2] eqn:Es.
    { cbn [ret]. specialize (IH results s2).
      destruct (mc_loop indices ranges sd ed results s2) as [[e'|results'] s3];
        [exact IH|].
      destruct IH as [new [-> Htr]]. exists new. split; [reflexivity|].
      eapply mc_trace_strategy_raised; eassumption. }
    unfold bind at 1.
    destruct (run_backtest sd ed ("MC_" ++ string_of_Z (Z.of_nat i + 1)) (Some p) s2)
      as [[e|r] s3] eqn:Er.
    { cbn [ret]. specialize (IH results s3).
      destruct (mc_loop indices ranges sd ed results s3) as [[e'|results'] s4];
        [exact IH|].
      destruct IH as [new [-> Htr]]. exists new. split; [reflexivity|].
      eapply mc_trace_backtest_raised; eassumption. }
    cbn [ret].
    match goal with
    | |- context [mc_loop indices ranges sd ed (results ++ [?smp]) s3] =>
        specialize (IH (results ++ [smp]) s3);
        destruct (mc_loop indices ranges sd ed (results ++ [smp]) s3)
          as [[e'|results'] s4]; [exact IH|];
        destruct IH as [new [-> Htr]]; exists (smp :: new)
    end.
    split; [rewrite <- app_assoc; reflexivity|].
    eapply mc_trace_kept; eassumption.
Qed.

(** Every sample of a run carries parameters that a draw returned. *)
Lemma mc_trace_params ranges sd ed (P : dict pynum -> Prop) indices s samples s' :
  trace ranges sd ed indices s samples s' ->
  (forall s0 params s1, draw ranges [] s0 = (ok params, s1) -> P params) ->
  Forall (fun smp => P (mc_params smp)) samples.
Proof.
  intros Htr HP. induction Htr; [constructor| |assumption|assumption].
  constructor; [|assumption]. cbn [mc_params]. eapply HP. eassumption.
Qed.

Lemma mc_sensitivity_loop_raises now ranges n days s e s1 :
  mc_loop (seq 0 (Z.to_nat n)) ranges (now - timedelta_days days) now [] s
  = (inl e, s1) ->
  mc_sensitivity now ranges n days s = (inl e, s1).
Proof.
  intros Hloop. unfold PortfolioValidator.monte_carlo_parameter_sensitivity.
  unfold bind at 1. rewrite Hloop. reflexivity.
Qed.

(** What [monte_carlo_parameter_sensitivity] makes of the samples that its
    loop returns. *)
Lemma mc_sensitivity_after_loop now ranges n days s results s1 :
  mc_loop (seq 0 (Z.to_nat n)) ranges (now - timedelta_days days) now [] s
  = (inr results, s1) ->
  (results = [] ->
   mc_sensitivity now ranges n days s = (throw ZeroDivisionError, s1))
  /\ (results <> [] ->
      exists a pr ps,
        mc_sensitivity now ranges n days s = (inr a, s1)
        /\ all_results a = results
        /\ num_simulations a = List.length results
        /\ profitable_pct a = Fin pr /\ (0 <= pr <= 100)%Q
        /\ positive_sharpe_pct a = Fin ps /\ (0 <= ps <= 100)%Q).
Proof.
  intros Hloop. unfold PortfolioValidator.monte_carlo_parameter_sensitivity.
  split.
  - intros ->. unfold bind at 1. rewrite Hloop. reflexivity.
  - intros Hne. unfold bind at 1. rewrite Hloop. unfold bind, lift, ret.
    destruct (positive_pct_range (map mc_return results)) as [pr [Er Hr]].
    { destruct results; [contradiction|discriminate]. }
    destruct (positive_pct_range (map mc_sharpe results)) as [ps [Es Hs]].
    { destruct results; [contradiction|discriminate]. }
    rewrite length_map in Er. rewrite Er, Es. unfold ok.
    eexists. exists pr, ps. split; [reflexivity|]. cbn. tauto.
Qed.

(** The samples of an analysis that was returned are those of a run. *)
Lemma mc_sensitivity_trace now ranges n days s a s' :
  mc_sensitivity now ranges n days s = (inr a, s') ->
  all_results a <> []
  /\ num_simulations a = List.length (all_results a)
  /\ trace ranges (now - timedelta_days days) now (seq 0 (Z.to_nat n)) s
       (all_results a) s'
  /\ (exists p, profitable_pct a = Fin p /\ (0 <= p <= 100)%Q)
  /\ (exists p, positive_sharpe_pct a = Fin p /\ (0 <= p <= 100)%Q).
Proof.
  intros Hrun.
  pose proof (monte_carlo_loop_trace ranges (now - timedelta_days days) now
                (seq 0 (Z.to_nat n)) [] s) as Htr.
  destruct (mc_loop (seq 0 (Z.to_nat n)) ranges (now - timedelta_days days) now [] s)
    as [[e|results] s1] eqn:Hloop.
  - rewrite (mc_sensitivity_loop_raises _ _ _ _ _ _ _ Hloop) in Hrun.
    discriminate Hrun.
  - destruct Htr as [new [Hres Htr]]. cbn [app] in Hres. subst new.
    destruct (mc_sensitivity_after_loop now ranges n days s results s1 Hloop)
      as [Hempty Hfull].
    destruct results as [|smp results].
    { rewrite Hempty in Hrun by reflexivity. discriminate Hrun. }
    destruct Hfull as [a' [pr [ps [Ha [Hall [Hnum [Hpr [Hr [Hps Hs]]]]]]]]];
      [discriminate|].
    rewrite Ha in Hrun. inversion Hrun; subst a' s1. rewrite Hall.
    split; [discriminate|]. split; [exact Hnum|]. split; [exact Htr|].
    split; [exists pr|exists ps]; split; assumption.
Qed.

End MonteCarloLoop.



Lemma sampled_from_keys random_sample ranges : forall s params,
  sampled_from random_sample s ranges params ->
  dict_keys params = dict_keys ranges.
Proof.
  induction ranges as [|[n0 [l0 h0]] ranges IH]; intros s [|[n1 v1] params] Hs;
    try contradiction; [reflexivity|].
  cbn [sampled_from] in Hs. destruct Hs as [-> [_ [_ Hrest]]].
  unfold dict_keys in *. cbn [map fst]. rewrite (IH _ _ Hrest). reflexivity.
Qed.



Example draw_params_demo :
  PortfolioValidator.draw_params sample_random_sample demo_parameter_ranges [] 0%nat
  = (inr [("rsi_threshold", PyInt 25); ("num_stocks", PyInt 8);
          ("correlation_cutoff",
           PyFloat ((3 # 10) + ((5 # 10) - (3 # 10)) * (2 # 10)))]%string, 3%nat).
Proof. vm_compute. reflexivity. Qed.

(** A bound beyond [int64] is refused, although the range is in order. *)
Example draw_params_beyond_int64 :
  PortfolioValidator.draw_params sample_random_sample
    [("n", (PyInt 0, PyInt (2 ^ 63)))]%string [] 0%nat
  = (throw ValueError, 0%nat).
Proof. vm_compute. reflexivity. Qed.

Lemma demo_ranges_ok : ranges_ok demo_parameter_ranges.
Proof.
  intros name lo hi [H|[H|[H|[]]]]; inversion H; subst; vm_compute; reflexivity.
Qed.


(** Two simulations on the ranges of the demonstration: with the unit
    variates 0 and 0.1 the first draws 25 from [25 .. 40] and 8 from
    [8 .. 12]; with 0.6 and 0.7 the second draws 34 and 11. *)
Example monte_carlo_params_demo :
  exists a s',
    PortfolioValidator.monte_carlo_parameter_sensitivity sample_strategy sample_sqrt
      sample_power sample_randn sample_random_sample
      (timedelta_days 100) demo_parameter_ranges 2 3 0%nat = (inr a, s')
    /\ map (fun smp => (dict_get (mc_params smp) "rsi_threshold",
                        dict_get (mc_params smp) "num_stocks"))
           (all_results a)
       = [(Some (PyInt 25), Some (PyInt 8)); (Some (PyInt 34), Some (PyInt 11))].
Proof. eexists. eexists. split; vm_compute; reflexivity. Qed.

(** ** Backtest engine: data cleaning and weights *)















Section EngineProperties.

Variable np_sqrt : Q -> pyfloat.
Variable np_power : pyfloat -> pyfloat -> pyfloat.

Local Abbreviation engine_backtest :=
  (BacktestEngine.backtest_portfolio np_sqrt np_power).

(** C7. If the window holds no row of prices, if no instrument survives
    the cleaning of the prices, or if the weights of the surviving
    instruments sum to zero, [backtest_portfolio] returns (it does not
    raise) a dictionary whose ['success'] is [False] and that holds a
    message and no metric. *)
Theorem backtest_failure_record capital weights stock_data sd ed :
  let in_window :=
    BacktestEngine.filter_date_range
      (BacktestEngine.collect_prices weights stock_data (mkDataFrame [] [])) sd ed in
  let prices := BacktestEngine.clean_prices in_window in
  let available_tickers := dict_keys (df_columns prices) in
  df_len in_window = 0%nat
  \/ available_tickers = []
  \/ (BacktestEngine.total_weight_of weights available_tickers == 0)%Q ->
  exists message,
    engine_backtest capital weights stock_data sd ed
    = Returns (BacktestEngine.Failure message)
    /\ BacktestEngine.success (BacktestEngine.Failure message) = false.
Proof.
  cbv zeta. intros H. unfold BacktestEngine.backtest_portfolio.
  set (filtered := BacktestEngine.filter_date_range _ sd ed) in *.
  destruct (df_len filtered =? 0)%nat eqn:Erows; [eexists; split; reflexivity|].
  set (prices := BacktestEngine.clean_prices filtered) in *.
  destruct (List.length (df_columns prices) =? 0)%nat eqn:Ecols;
    [eexists; split; reflexivity|].
  destruct H as [Hrows|[Hnone|Hzero]].
  - exfalso. rewrite Hrows in Erows. discriminate Erows.
  - exfalso. unfold dict_keys in Hnone.
    destruct (df_columns prices); [discriminate Ecols|discriminate Hnone].
  - apply Qeq_eq_bool in Hzero. rewrite Hzero. eexists; split; reflexivity.
Qed.


End EngineProperties.

Lemma backtest_failure_record_witness :
  exists message,
    BacktestEngine.backtest_portfolio sample_sqrt sample_power 100000
      [("AAPL", 6 # 10); ("MSFT", 4 # 10)]%string
      [("AAPL", Some [(timedelta_days 1, None); (timedelta_days 2, None)]);
       ("MSFT", None)]%string
      (timedelta_days 0) (timedelta_days 30)
    = Returns (BacktestEngine.Failure message)
    /\ BacktestEngine.success (BacktestEngine.Failure message) = false.
Proof.
  apply (backtest_failure_record sample_sqrt sample_power 100000
           [("AAPL", 6 # 10); ("MSFT", 4 # 10)]%string
           [("AAPL", Some [(timedelta_days 1, None); (timedelta_days 2, None)]);
            ("MSFT", None)]%string
           (timedelta_days 0) (timedelta_days 30)).
  right. left. reflexivity.
Defined.

Example backtest_no_data :
  BacktestEngine.backtest_portfolio sample_sqrt sample_power 100000
    [("AAPL", 6 # 10); ("MSFT", 4 # 10)]%string
    [("AAPL", Some [(timedelta_days 1, None); (timedelta_days 2, None)]);
     ("MSFT", None)]%string
    (timedelta_days 0) (timedelta_days 30)
  = Returns (BacktestEngine.Failure "Insufficient data after cleaning").
Proof. reflexivity. Qed.


(** ** Further runs of the embedding *)

(** The best case of the report: every Sharpe ratio is 2 and every
    percentage is 100; the score is 50 and the recommendation "MODERATE". *)
Example report_best_case :
  let good name :=
    {| period := name; start_date := 0; end_date := 0;
       total_return := Fin (1 # 10); sharpe_ratio := Fin 2;
       max_drawdown := Fin (-1 # 10); win_rate := Fin 0; num_trades := 1;
       stocks_selected := ["AAPL"%string];
       annual_return := Fin (1 # 10); volatility := Fin (2 # 10) |} in
  let mc := {| num_simulations := 1; profitable_pct := Fin 100;
               positive_sharpe_pct := Fin 100; avg_sharpe := Fin 2;
               avg_return := Fin (1 # 10); all_results := [] |} in
  exists r,
    PortfolioValidator.generate_validation_report
      [("6mo", good "6mo"); ("1yr", good "1yr")]%string
      [good "WF_Window_1"%string] mc = ok r
    /\ feqb (robustness_score r) (Fin 50) = true
    /\ recommendation r = REC_MODERATE
    /\ warnings r = [].
Proof.
  cbv zeta. eexists. split; [reflexivity|].
  repeat split; vm_compute; reflexivity.
Qed.

(** An empty dictionary of timeframes makes the report raise. *)
Example report_without_timeframes :
  PortfolioValidator.generate_validation_report [] all_failed_windows
    all_failed_monte_carlo = throw ZeroDivisionError.
Proof. reflexivity. Qed.

(** A series of one observation has no sample standard deviation: both
    Sharpe ratios are NaN. *)
Example sharpe_single_observation :
  PortfolioValidator._calculate_sharpe sample_sqrt [1 # 100]%Q default_risk_free_rate = NaN
  /\ BacktestEngine._calculate_sharpe sample_sqrt [1 # 100]%Q default_risk_free_rate = NaN.
Proof. split; reflexivity. Qed.

(** Returns of +10%, -50%, +20%: the drawdown bottoms at -50%. *)
Example max_drawdown_example :
  feqb (PortfolioValidator._calculate_max_drawdown [1 # 10; -1 # 2; 2 # 10]%Q)
       (Fin (-1 # 2)) = true.
Proof. reflexivity. Qed.

(** A window of zero days: the backtest of the validator raises. *)
Example run_backtest_zero_days :
  fst (PortfolioValidator._run_backtest sample_strategy sample_sqrt sample_power
         sample_randn 0 0 "now" None 0%nat) = throw ZeroDivisionError.
Proof. reflexivity. Qed.

(** A step of zero days: the loop of the walk-forward analysis spends any
    fuel it is given. *)
Example walk_forward_zero_step :
  PortfolioValidator.walk_forward_analysis sample_strategy sample_sqrt sample_power
    sample_randn 25 (timedelta_days 20000) 2 1 0 5 0%nat = None.
Proof. vm_compute. reflexivity. Qed.

(** A single row of prices leaves no return observation: the engine
    raises. *)
Example backtest_single_row :
  BacktestEngine.backtest_portfolio sample_sqrt sample_power 100000
    [("AAPL", 1%Q)]%string
    [("AAPL", Some [(timedelta_days 1, Some 100%Q)])]%string
    (timedelta_days 0) (timedelta_days 30)
  = Raises IndexError.
Proof. reflexivity. Qed.

(** Weights that cancel out: the engine reports a failure. *)
Example backtest_zero_total_weight :
  BacktestEngine.backtest_portfolio sample_sqrt sample_power 100000
    [("AAPL", 5 # 10); ("MSFT", -5 # 10)]%string two_stock_data
    (timedelta_days 0) (timedelta_days 30)
  = Returns (BacktestEngine.Failure "No valid weights").
Proof. reflexivity. Qed.

(** ** The engine stays within the embedding when no close is zero *)

















(** * Further properties of the embedded code *)

(** ** validation_framework.py: a single backtest and the timeframes *)


Section ValidatorRuns.

Variable strategy_function :
  datetime -> datetime -> option (dict pynum) -> M Portfolio.
Variable np_sqrt : Q -> pyfloat.
Variable np_power : pyfloat -> pyfloat -> pyfloat.
Variable randn : nat -> Q.

Local Abbreviation run_backtest :=
  (PortfolioValidator._run_backtest strategy_function np_sqrt np_power randn).
Local Abbreviation mt_loop :=
  (PortfolioValidator.multi_timeframe_loop strategy_function np_sqrt np_power randn).
Local Abbreviation mt_backtest :=
  (PortfolioValidator.multi_timeframe_backtest strategy_function np_sqrt np_power randn).

(** X1. With a predefined portfolio, what [_run_backtest] does is decided by
    the number of whole days of its window: a negative number raises
    [ValueError] (from [np.random.randn]), zero raises [ZeroDivisionError]
    (from [365 / days]), and a positive number [d] returns a result that
    records the window, the label and the stocks of the portfolio, after
    exactly [d] draws. *)
Theorem run_backtest_by_window_length sd ed name p s :
  match td_days (ed - sd) ?= 0 with
  | Lt => run_backtest sd ed name (Some p) s = (throw ValueError, s)
  | Eq => run_backtest sd ed name (Some p) s = (throw ZeroDivisionError, s)
  | Gt =>
      exists r,
        run_backtest sd ed name (Some p) s
        = (inr r, Nat.add s (Z.to_nat (td_days (ed - sd))))
        /\ period r = name /\ start_date r = sd /\ end_date r = ed
        /\ stocks_selected r = get_stocks p
        /\ num_trades r = List.length (stocks_selected r)
        /\ win_rate r = Fin 0
        /\ exists q, total_return r = Fin q
  end.
Proof.
  unfold PortfolioValidator._run_backtest, bind, lift, ret,
    PortfolioValidator._calculate_portfolio_returns,
    PortfolioValidator.np_random_randn, bind, ret.
  destruct (Z.compare_spec (td_days (ed - sd)) 0) as [E|Hlt|Hgt].
  - rewrite E. cbn. rewrite Nat.add_0_r. reflexivity.
  - destruct (Z.ltb_spec (td_days (ed - sd)) 0) as [_|Hge]; [reflexivity|lia].
  - destruct (Z.ltb_spec (td_days (ed - sd)) 0) as [Hneg|_]; [lia|].
    unfold ok. rewrite py_truediv_ok by lia. unfold ok.
    eexists. split; [reflexivity|]. cbn. repeat split. eexists. reflexivity.
Qed.

Lemma run_backtest_period sd ed name pp s r s' :
  run_backtest sd ed name pp s = (inr r, s') -> period r = name.
Proof.
  unfold PortfolioValidator._run_backtest, bind, lift, ret.
  destruct pp as [p|];
    [|destruct (strategy_function sd ed None s) as [[e|p] s0]; [discriminate|]];
    (match goal with
     | |- context [PortfolioValidator._calculate_portfolio_returns randn p sd ed ?st] =>
         destruct (PortfolioValidator._calculate_portfolio_returns randn p sd ed st)
           as [[e'|rs] s1]; [discriminate|]
     end);
    (destruct (py_truediv 365 (td_days (ed - sd))) as [e'|x]; [discriminate|]);
    intros H; inversion H; reflexivity.
Qed.

Lemma run_backtest_none sd ed name s :
  run_backtest sd ed name None s
  = match strategy_function sd ed None s with
    | (inl e, s') => (inl e, s')
    | (inr p, s') => run_backtest sd ed name (Some p) s'
    end.
Proof.
  unfold PortfolioValidator._run_backtest, bind, ret.
  destruct (strategy_function sd ed None s) as [[e|p] s0]; reflexivity.
Qed.

Lemma mt_loop_results now items :
  (forall name d, In (name, d) items -> 0 < d) ->
  (forall sd ed s0, exists p s1, strategy_function sd ed None s0 = (ok p, s1)) ->
  forall results s,
    NoDup (dict_keys results ++ dict_keys items) ->
    exists new s',
      mt_loop items now results s = (inr (results ++ new), s')
      /\ Forall2 (timeframe_result now) items new.
Proof.
  intros Hpos Hstrat. induction items as [|[name d] items IH]; intros results s Hnd.
  - exists [], s. rewrite app_nil_r. split; [reflexivity|constructor].
  - cbn [PortfolioValidator.multi_timeframe_loop]. unfold bind at 1.
    rewrite run_backtest_none.
    destruct (Hstrat (now - timedelta_days d) now s) as [p [s0 ->]]. unfold ok.
    destruct (run_backtest_returns strategy_function np_sqrt np_power randn
                (now - timedelta_days d) now name p s0) as [r [s1 Hr]].
    { replace (now - (now - timedelta_days d)) with (timedelta_days d) by lia.
      rewrite td_days_timedelta_days. apply (Hpos name d). left. reflexivity. }
    rewrite Hr.
    assert (Hfresh : ~ In name (dict_keys results)).
    { intros Hin. unfold dict_keys in Hnd. cbn [map fst] in Hnd.
      apply NoDup_remove_2 in Hnd. apply Hnd. apply in_or_app. left. exact Hin. }
    rewrite (dict_set_fresh results name r Hfresh).
    destruct (IH (fun n d0 H => Hpos n d0 (or_intror H)) (results ++ [(name, r)]) s1)
      as [new [s' [Hrun Hall]]].
    { unfold dict_keys in *. rewrite map_app. cbn [map fst] in *.
      rewrite <- app_assoc. exact Hnd. }
    exists ((name, r) :: new), s'. split.
    + rewrite Hrun, <- app_assoc. reflexivity.
    + constructor; [|exact Hall].
      destruct (run_backtest_interval strategy_function np_sqrt np_power randn
                  _ _ _ _ _ _ _ Hr) as [Hsd Hed].
      unfold timeframe_result. cbn [fst snd].
      repeat split; try assumption. exact (run_backtest_period _ _ _ _ _ _ _ Hr).
Qed.


End ValidatorRuns.

Lemma run_backtest_by_window_length_witness :
  exists r,
    PortfolioValidator._run_backtest sample_strategy sample_sqrt sample_power
      sample_randn 0 (timedelta_days 3) "3d"
      (Some {| stocks := Some ["AAPL"%string]; weights := [] |}) 4%nat
    = (inr r, 7%nat)
    /\ period r = "3d"%string /\ start_date r = 0 /\ end_date r = timedelta_days 3
    /\ stocks_selected r = ["AAPL"%string]
    /\ num_trades r = List.length (stocks_selected r)
    /\ win_rate r = Fin 0
    /\ exists q, total_return r = Fin q.
Proof.
  exact (run_backtest_by_window_length sample_strategy sample_sqrt sample_power
           sample_randn 0 (timedelta_days 3) "3d"%string
           {| stocks := Some ["AAPL"%string]; weights := [] |} 4%nat).
Defined.


(** ** validation_framework.py: the report *)

(** X3. [generate_validation_report] raises [ZeroDivisionError] exactly when
    the dictionary of timeframe results or the list of walk-forward results
    is empty, whatever the Monte Carlo analysis holds; otherwise it returns
    a report that carries its three inputs unchanged. *)
Theorem report_raises_iff_no_results mt wf mc :
  (mt = [] \/ wf = []
   <-> PortfolioValidator.generate_validation_report mt wf mc
       = throw ZeroDivisionError)
  /\ (mt <> [] /\ wf <> []
      <-> exists r,
            PortfolioValidator.generate_validation_report mt wf mc = ok r
            /\ multi_timeframe_results r = mt
            /\ walk_forward_results r = wf
            /\ monte_carlo_results r = mc).
Proof.
  assert (Hraise : mt = [] \/ wf = [] ->
                   PortfolioValidator.generate_validation_report mt wf mc
                   = throw ZeroDivisionError).
  { intros [->| ->]; [reflexivity|].
    unfold PortfolioValidator.generate_validation_report.
    destruct (PortfolioValidator.positive_pct (map sharpe_ratio (dict_values mt))
                (List.length (map sharpe_ratio (dict_values mt)))) as [e|m] eqn:Em.
    - destruct mt as [|x mt]; [inversion Em; reflexivity|].
      destruct (positive_pct_range (map sharpe_ratio (dict_values (x :: mt))))
        as [p [Ep _]]; [discriminate|]. rewrite Ep in Em. discriminate Em.
    - reflexivity. }
  assert (Hret : mt <> [] -> wf <> [] ->
                 exists r,
                   PortfolioValidator.generate_validation_report mt wf mc = ok r
                   /\ multi_timeframe_results r = mt
                   /\ walk_forward_results r = wf
                   /\ monte_carlo_results r = mc).
  { intros Hmt Hwf. unfold PortfolioValidator.generate_validation_report.
    destruct (positive_pct_range (map sharpe_ratio (dict_values mt))) as [pm [Em _]].
    { unfold dict_values. destruct mt; [contradiction|discriminate]. }
    destruct (positive_pct_range (map sharpe_ratio wf)) as [pw [Ew _]].
    { destruct wf; [contradiction|discriminate]. }
    rewrite Em. cbn [res_bind ok]. rewrite Ew. cbn [res_bind ok].
    eexists. split; [reflexivity|]. repeat split. }
  split; split.
  - exact Hraise.
  - intros H. destruct mt as [|x mt]; [left; reflexivity|].
    destruct wf as [|y wf]; [right; reflexivity|].
    destruct Hret as [r [Hr _]]; [discriminate|discriminate|].
    rewrite Hr in H. discriminate H.
  - intros [Hmt Hwf]. apply Hret; assumption.
  - intros [r [Hr _]]. split; intros ->.
    + rewrite Hraise in Hr by (left; reflexivity). discriminate Hr.
    + rewrite Hraise in Hr by (right; reflexivity). discriminate Hr.
Qed.

Lemma filter_length_all {A} (f : A -> bool) (l : list A) :
  List.length (filter f l) = List.length l <-> Forall (fun x => f x = true) l.
Proof.
  induction l as [|x l IH]; cbn [filter List.length].
  - split; [constructor|reflexivity].
  - pose proof (filter_length_le f l) as Hle. destruct (f x) eqn:E; cbn [List.length].
    + split.
      * intros H. constructor; [exact E|]. apply IH. lia.
      * intros H. inversion H; subst. f_equal. apply IH. assumption.
    + split; [lia|]. intros H. inversion H; subst. congruence.
Qed.

Lemma filter_length_none {A} (f : A -> bool) (l : list A) :
  List.length (filter f l) = 0%nat <-> Forall (fun x => f x = false) l.
Proof.
  induction l as [|x l IH]; cbn [filter List.length].
  - split; [constructor|reflexivity].
  - destruct (f x) eqn:E; cbn [List.length].
    + split; [discriminate|]. intros H. inversion H; subst. congruence.
    + split.
      * intros H. constructor; [exact E|]. apply IH. exact H.
      * intros H. inversion H; subst. apply IH. assumption.
Qed.

Lemma positive_pct_value xs :
  xs <> [] ->
  PortfolioValidator.positive_pct xs (List.length xs)
  = ok (Fin (inject_Z (Z.of_nat (List.length (filter (fun x => fgt x (Fin 0)) xs)))
             / inject_Z (Z.of_nat (List.length xs)) * 100)).
Proof.
  intros Hne. unfold PortfolioValidator.positive_pct, res_bind.
  rewrite py_truediv_ok; [reflexivity|].
  destruct xs; [contradiction|cbn [List.length]; lia].
Qed.

Lemma Qratio_pct (c n : Z) (k : Q) :
  0 < n ->
  (inject_Z c / inject_Z n * 100 == k <-> inject_Z c * 100 == k * inject_Z n)%Q.
Proof.
  intros Hlen.
  assert (Hn : (inject_Z 0 < inject_Z n)%Q) by (rewrite <- Zlt_Qlt; exact Hlen).
  change (inject_Z 0) with 0%Q in Hn.
  assert (E : (inject_Z c == inject_Z c / inject_Z n * inject_Z n)%Q)
    by (field; intros Hz; lra).
  split; intros H.
  - rewrite <- H. rewrite E at 1. ring.
  - assert (E2 : (inject_Z c / inject_Z n * 100
                  == inject_Z c * 100 / inject_Z n)%Q)
      by (field; intros Hz; lra).
    rewrite E2, H. field. intros Hz. lra.
Qed.

(** The percentage computed over a non-empty list is 100 exactly when every
    entry is positive, and 0 exactly when none is. *)
Lemma positive_pct_extremes xs q :
  PortfolioValidator.positive_pct xs (List.length xs) = ok (Fin q) ->
  ((q == 100)%Q <-> Forall (fun x => fgt x (Fin 0) = true) xs)
  /\ ((q == 0)%Q <-> Forall (fun x => fgt x (Fin 0) = false) xs).
Proof.
  intros H.
  assert (Hne : xs <> []) by (intros ->; discriminate H).
  rewrite (positive_pct_value xs Hne) in H.
  assert (Hlen : 0 < Z.of_nat (List.length xs))
    by (destruct xs; [contradiction|cbn [List.length]; lia]).
  rewrite <- filter_length_all, <- filter_length_none.
  remember (List.length (filter (fun x => fgt x (Fin 0)) xs)) as c in *.
  remember (List.length xs) as n in *.
  assert (Hq : (inject_Z (Z.of_nat c) / inject_Z (Z.of_nat n) * 100)%Q = q)
    by (unfold ok in H; congruence).
  rewrite <- Hq. clear H Hq. rewrite !Qratio_pct by exact Hlen. split; split; intros H.
  - assert (E : (inject_Z (Z.of_nat c) == inject_Z (Z.of_nat n))%Q).
    { revert H. generalize (inject_Z (Z.of_nat c)), (inject_Z (Z.of_nat n)).
      intros a b H. lra. }
    rewrite inject_Z_injective in E. lia.
  - rewrite H. ring.
  - assert (E : (inject_Z (Z.of_nat c) == inject_Z 0)%Q).
    { change (inject_Z 0) with 0%Q. revert H.
      generalize (inject_Z (Z.of_nat c)), (inject_Z (Z.of_nat n)).
      intros a b H. lra. }
    rewrite inject_Z_injective in E. lia.
  - rewrite H. change (inject_Z (Z.of_nat 0)) with 0%Q. ring.
Qed.

(** The parts of a report that was returned: the two percentages the
    function computes, the average Sharpe ratio, the score, the
    recommendation and the warnings. *)
Lemma report_parts mt wf mc r :
  PortfolioValidator.generate_validation_report mt wf mc = ok r ->
  let ms := map sharpe_ratio (dict_values mt) in
  let ws := map sharpe_ratio wf in
  exists pm pw,
    PortfolioValidator.positive_pct ms (List.length ms) = ok (Fin pm)
    /\ PortfolioValidator.positive_pct ws (List.length ws) = ok (Fin pw)
    /\ (0 <= pm <= 100)%Q /\ (0 <= pw <= 100)%Q
    /\ robustness_score r
       = fadd (fadd (fadd (Fin (pm * (1 # 2) * (25 # 100)))
                          (Fin (pw * (1 # 2) * (35 # 100))))
                    (fmul (fmul (positive_sharpe_pct mc) (Fin (1 # 2)))
                          (Fin (25 # 100))))
              (fmul (py_min (fmul (np_mean (ms ++ ws)) (Fin 50)) (Fin 50))
                    (Fin (15 # 100)))
    /\ recommendation r
       = (if fge (robustness_score r) (Fin 70) then REC_STRONG
          else if fge (robustness_score r) (Fin 50) then REC_MODERATE
          else if fge (robustness_score r) (Fin 30) then REC_WEAK
          else REC_FAIL)
    /\ warnings r
       = ((if flt (Fin pm) (Fin 60) then [LowTimeframes (Fin pm)] else [])
          ++ (if flt (Fin pw) (Fin 50) then [LowWalkForward (Fin pw)] else [])
          ++ (if flt (positive_sharpe_pct mc) (Fin 70)
              then [LowMonteCarlo (positive_sharpe_pct mc)] else [])).
Proof.
  cbv zeta. unfold PortfolioValidator.generate_validation_report.
  destruct (PortfolioValidator.positive_pct (map sharpe_ratio (dict_values mt))
              (List.length (map sharpe_ratio (dict_values mt)))) as [e|m] eqn:Em;
    [discriminate|].
  destruct (PortfolioValidator.positive_pct (map sharpe_ratio wf)
              (List.length (map sharpe_ratio wf))) as [e|w] eqn:Ew;
    [discriminate|].
  destruct (positive_pct_inv _ _ Em) as [pm [-> Hm]].
  destruct (positive_pct_inv _ _ Ew) as [pw [-> Hw]].
  cbn [res_bind]. intros H. inversion H; subst r; clear H.
  exists pm, pw. cbn [robustness_score recommendation warnings].
  refine (conj eq_refl (conj eq_refl (conj Hm (conj Hw
            (conj eq_refl (conj eq_refl _)))))).
  destruct (flt (positive_sharpe_pct mc) (Fin 70));
    unfold flt; destruct (Qlt_le_dec pm 60), (Qlt_le_dec pw 50);
    reflexivity.
Qed.

Lemma fge_Fin a b : fge (Fin a) (Fin b) = true <-> (b <= a)%Q.
Proof.
  unfold fge, fle, flt, feqb. destruct (Qlt_le_dec b a) as [Hlt|Hle]; cbn [orb].
  - split; [intros _; lra|reflexivity].
  - split.
    + intros H. apply Qeq_bool_eq in H. lra.
    + intros H. apply Qeq_eq_bool. lra.
Qed.

(** [min(x * 50, 50)]: NaN and minus infinity pass through; otherwise the
    value is a number that is at most 50, and it is 50 exactly when
    [x >= 1]. *)
Lemma sharpe_score_cases x :
  match py_min (fmul x (Fin 50)) (Fin 50) with
  | NaN => x = NaN
  | Inf b => b = true /\ x = Inf true
  | Fin s => (s <= 50)%Q /\ ((50 <= s)%Q <-> fge x (Fin 1) = true)
  end.
Proof.
  destruct x as [|[|]|q]; try reflexivity.
  - split; reflexivity.
  - cbn. split; [discriminate|]. split; [reflexivity|discriminate].
  - pose proof (fge_Fin q 1) as Hq. unfold py_min, fmul, flt.
    destruct (Qlt_le_dec 50 (q * 50)) as [Hlt|Hle]; (split; [lra|]);
      rewrite Hq; split; intros; lra.
Qed.

Lemma filter_length_lt {A} (f : A -> bool) (l : list A) :
  Exists (fun x => f x = false) l -> (List.length (filter f l) < List.length l)%nat.
Proof.
  induction 1 as [x l Hx|x l _ IH]; cbn [filter List.length].
  - rewrite Hx. pose proof (filter_length_le f l). lia.
  - destruct (f x); cbn [List.length]; [lia|].
    pose proof (filter_length_le f l). lia.
Qed.

(** One entry that is not positive keeps the percentage away from 100 by
    the share of one entry. *)
Lemma positive_pct_below xs q :
  PortfolioValidator.positive_pct xs (List.length xs) = ok (Fin q) ->
  Exists (fun x => fgt x (Fin 0) = false) xs ->
  (0 < inject_Z (Z.of_nat (List.length xs)))%Q
  /\ (q <= 100 - 100 / inject_Z (Z.of_nat (List.length xs)))%Q.
Proof.
  intros H Hex.
  assert (Hne : xs <> []) by (intros ->; discriminate H).
  rewrite (positive_pct_value xs Hne) in H.
  apply filter_length_lt in Hex.
  remember (List.length (filter (fun x => fgt x (Fin 0)) xs)) as c in *.
  remember (List.length xs) as n in *.
  assert (Hq : (inject_Z (Z.of_nat c) / inject_Z (Z.of_nat n) * 100)%Q = q)
    by (unfold ok in H; congruence).
  rewrite <- Hq. clear H Hq.
  assert (Hn : (0 < inject_Z (Z.of_nat n))%Q).
  { change 0%Q with (inject_Z 0). rewrite <- Zlt_Qlt. lia. }
  assert (Hc : (inject_Z (Z.of_nat c) <= inject_Z (Z.of_nat n) - 1)%Q).
  { assert (Hc1 : (inject_Z (Z.of_nat c) + 1 <= inject_Z (Z.of_nat n))%Q).
    { change 1%Q with (inject_Z 1). rewrite <- inject_Z_plus, <- Zle_Qle. lia. }
    lra. }
  split; [exact Hn|].
  revert Hn Hc. generalize (inject_Z (Z.of_nat c)), (inject_Z (Z.of_nat n)).
  intros a b Hb Ha.
  assert (E : (100 - 100 / b == (b - 1) / b * 100)%Q) by (field; intros Hz; lra).
  rewrite E. apply Qmult_le_compat_r; [|lra].
  apply Qmult_le_compat_r; [exact Ha|]. apply Qlt_le_weak, Qinv_lt_0_compat, Hb.
Qed.

Lemma rec_below_50 (x : pyfloat) :
  fge x (Fin 70) = false -> fge x (Fin 50) = false ->
  let rec := if fge x (Fin 70) then REC_STRONG
             else if fge x (Fin 50) then REC_MODERATE
             else if fge x (Fin 30) then REC_WEAK
             else REC_FAIL in
  rec = REC_WEAK \/ rec = REC_FAIL.
Proof.
  intros -> ->. cbv zeta. destruct (fge x (Fin 30)); [left|right]; reflexivity.
Qed.

(** X4. With a Monte Carlo percentage of [0, 100], one timeframe result or
    one walk-forward result whose Sharpe ratio is not positive keeps the
    report from "MODERATE" and "STRONG": the score, when it is a number,
    stays below 50 by at least 12.5 divided by the number of timeframe
    results, respectively 17.5 divided by the number of walk-forward
    results, and the recommendation is "WEAK" or "FAIL". *)
Theorem report_weak_with_nonpositive_sharpe mt wf mc p r :
  positive_sharpe_pct mc = Fin p -> (0 <= p <= 100)%Q ->
  PortfolioValidator.generate_validation_report mt wf mc = ok r ->
  (Exists (fun b => fgt (sharpe_ratio b) (Fin 0) = false) (dict_values mt) ->
   at_most (50 - (25 # 2) / inject_Z (Z.of_nat (List.length mt))) (robustness_score r)
   /\ (recommendation r = REC_WEAK \/ recommendation r = REC_FAIL))
  /\ (Exists (fun b => fgt (sharpe_ratio b) (Fin 0) = false) wf ->
      at_most (50 - (35 # 2) / inject_Z (Z.of_nat (List.length wf))) (robustness_score r)
      /\ (recommendation r = REC_WEAK \/ recommendation r = REC_FAIL)).
Proof.
  intros Hmc Hp Hr.
  destruct (report_parts mt wf mc r Hr) as [pm [pw [Em [Ew [Hm [Hw [Hs [Hrec _]]]]]]]].
  cbv zeta in *. rewrite Hmc in Hs.
  pose proof (sharpe_score_cases
                (np_mean (map sharpe_ratio (dict_values mt) ++ map sharpe_ratio wf)))
    as Hc.
  assert (Hrecs : forall b, (b < 50)%Q -> at_most b (robustness_score r) ->
            recommendation r = REC_WEAK \/ recommendation r = REC_FAIL).
  { intros b Hb Hat. rewrite Hrec. apply rec_below_50.
    - apply (at_most_not_fge b); [exact Hat|lra].
    - apply (at_most_not_fge b); [exact Hat|lra]. }
  split; intros Hex.
  - apply (proj2 (Exists_map sharpe_ratio (fun x => fgt x (Fin 0) = false) _)) in Hex.
    destruct (positive_pct_below _ _ Em Hex) as [Hn Hle].
    unfold dict_values in Hn, Hle. rewrite !length_map in Hn, Hle.
    remember (inject_Z (Z.of_nat (List.length mt))) as n.
    assert (Hinv : (0 < / n)%Q) by (apply Qinv_lt_0_compat; exact Hn).
    unfold Qdiv in Hle |- *.
    assert (Hat : at_most (50 - (25 # 2) / n) (robustness_score r)).
    { rewrite Hs.
      destruct (py_min _ (Fin 50)) as [|b|sc].
      - exact I.
      - destruct Hc as [-> _]. reflexivity.
      - destruct Hc as [Hsc _]. unfold at_most, fadd, fmul, Qdiv.
        revert Hle Hinv. generalize (/ n)%Q. intros i Hle Hinv. lra. }
    split; [exact Hat|]. refine (Hrecs _ _ Hat).
    unfold Qdiv. revert Hinv. generalize (/ n)%Q. intros i Hinv. lra.
  - apply (proj2 (Exists_map sharpe_ratio (fun x => fgt x (Fin 0) = false) _)) in Hex.
    destruct (positive_pct_below _ _ Ew Hex) as [Hn Hle].
    rewrite !length_map in Hn, Hle.
    remember (inject_Z (Z.of_nat (List.length wf))) as n.
    assert (Hinv : (0 < / n)%Q) by (apply Qinv_lt_0_compat; exact Hn).
    unfold Qdiv in Hle |- *.
    assert (Hat : at_most (50 - (35 # 2) / n) (robustness_score r)).
    { rewrite Hs.
      destruct (py_min _ (Fin 50)) as [|b|sc].
      - exact I.
      - destruct Hc as [-> _]. reflexivity.
      - destruct Hc as [Hsc _]. unfold at_most, fadd, fmul, Qdiv.
        revert Hle Hinv. generalize (/ n)%Q. intros i Hle Hinv. lra. }
    split; [exact Hat|]. refine (Hrecs _ _ Hat).
    unfold Qdiv. revert Hinv. generalize (/ n)%Q. intros i Hinv. lra.
Qed.

Lemma report_weak_with_nonpositive_sharpe_witness :
  exists r,
    PortfolioValidator.generate_validation_report
      mostly_passed_timeframes all_passed_windows all_passed_monte_carlo = ok r
    /\ recommendation r = REC_WEAK
    /\ at_most (50 - (25 # 2) / inject_Z (Z.of_nat (List.length mostly_passed_timeframes)))
         (robustness_score r)
    /\ (recommendation r = REC_WEAK \/ recommendation r = REC_FAIL).
Proof.
  eexists. split; [reflexivity|]. split; [reflexivity|].
  apply (report_weak_with_nonpositive_sharpe mostly_passed_timeframes
           all_passed_windows all_passed_monte_carlo 100).
  - reflexivity.
  - split; discriminate.
  - reflexivity.
  - apply Exists_cons_tl, Exists_cons_tl, Exists_cons_hd. reflexivity.
Defined.

Lemma Forall_sharpes (P : pyfloat -> Prop) (l : list BacktestResult) :
  Forall P (map sharpe_ratio l) <-> Forall (fun b => P (sharpe_ratio b)) l.
Proof. apply Forall_map. Qed.

Lemma fadd_at_most_0 a b : at_most 0 a -> at_most 0 b -> at_most 0 (fadd a b).
Proof.
  destruct a as [|[|]|x], b as [|[|]|y]; unfold at_most, fadd; cbn [Bool.eqb];
    intros Ha Hb; try exact I; try reflexivity; try discriminate. lra.
Qed.

Lemma fold_fadd_at_most_0 xs :
  Forall (at_most 0) xs -> forall acc, at_most 0 acc -> at_most 0 (fold_left fadd xs acc).
Proof.
  induction 1 as [|x xs Hx _ IH]; intros acc Hacc; [exact Hacc|].
  cbn [fold_left]. apply IH. apply fadd_at_most_0; assumption.
Qed.

(** The mean of values none of which is positive is not positive. *)
Lemma np_mean_at_most_0 xs : Forall (at_most 0) xs -> at_most 0 (np_mean xs).
Proof.
  intros H. unfold np_mean.
  pose proof (fold_fadd_at_most_0 xs H (Fin 0) (Qle_refl 0)) as Hs.
  assert (Hn : (0 <= inject_Z (Z.of_nat (List.length xs)))%Q).
  { change 0%Q with (inject_Z 0). rewrite <- Zle_Qle. lia. }
  remember (inject_Z (Z.of_nat (List.length xs))) as n.
  destruct (fold_left fadd xs (Fin 0)) as [|[|]|q]; unfold fdiv, at_most in *.
  - exact I.
  - unfold Qis0. destruct (Qeq_bool n 0) eqn:E; [reflexivity|]. unfold Qsgn_pos.
    destruct (Qlt_le_dec 0 n) as [Hlt|Hle]; [reflexivity|].
    apply Qeq_bool_neq in E. exfalso. apply E. lra.
  - discriminate Hs.
  - unfold Qis0. destruct (Qeq_bool n 0) eqn:E.
    + destruct (Qeq_bool q 0) eqn:E2; [exact I|].
      unfold Qsgn_pos. destruct (Qlt_le_dec 0 q) as [Hlt|Hle]; [lra|reflexivity].
    + apply Qeq_bool_neq in E.
      assert (Hpos : (0 < n)%Q) by lra.
      apply Qle_shift_div_r; [exact Hpos|lra].
Qed.

Lemma sharpe_score_at_most_0 x :
  at_most 0 x -> at_most 0 (py_min (fmul x (Fin 50)) (Fin 50)).
Proof.
  destruct x as [|[|]|q]; intros H; try exact I; try reflexivity; try discriminate H.
  unfold py_min, fmul, flt, at_most in *.
  destruct (Qlt_le_dec 50 (q * 50)) as [Hlt|Hle]; lra.
Qed.

(** X5. When no timeframe result and no walk-forward result has a positive
    Sharpe ratio, the report is "FAIL": both percentages are zero and are
    reported by the first two warnings, and the score, if it is a number, is
    at most an eighth of the Monte Carlo percentage. *)
Theorem report_fails_without_positive_sharpe mt wf mc p r :
  positive_sharpe_pct mc = Fin p -> (0 <= p <= 100)%Q ->
  PortfolioValidator.generate_validation_report mt wf mc = ok r ->
  Forall (fun b => fgt (sharpe_ratio b) (Fin 0) = false) (dict_values mt) ->
  Forall (fun b => fgt (sharpe_ratio b) (Fin 0) = false) wf ->
  recommendation r = REC_FAIL
  /\ at_most (p * (1 # 8)) (robustness_score r)
  /\ exists a b,
       (a == 0)%Q /\ (b == 0)%Q
       /\ firstn 2 (warnings r) = [LowTimeframes (Fin a); LowWalkForward (Fin b)].
Proof.
  intros Hmc Hp Hr Hmt Hwf.
  destruct (report_parts mt wf mc r Hr) as [pm [pw [Em [Ew [Hm [Hw [Hs [Hrec Hwarn]]]]]]]].
  cbv zeta in *.
  assert (Havg : at_most 0 (np_mean (map sharpe_ratio (dict_values mt)
                                     ++ map sharpe_ratio wf))).
  { apply np_mean_at_most_0. apply Forall_app.
    split; apply Forall_map; [revert Hmt|revert Hwf]; apply Forall_impl;
      intros b Hb; apply at_most_fgt; exact Hb. }
  destruct (positive_pct_extremes _ _ Em) as [_ Em0].
  destruct (positive_pct_extremes _ _ Ew) as [_ Ew0].
  rewrite Forall_sharpes in Em0, Ew0.
  apply Em0 in Hmt. apply Ew0 in Hwf. clear Em Ew Em0 Ew0 Hr.
  apply sharpe_score_at_most_0 in Havg.
  rewrite Hmc in Hs, Hwarn.
  assert (Hbound : at_most (p * (1 # 8)) (robustness_score r)).
  { rewrite Hs.
    destruct (py_min _ (Fin 50)) as [|[|]|sc]; try exact I; try reflexivity;
      try discriminate Havg.
    unfold at_most, fadd, fmul in *. lra. }
  split; [|split; [exact Hbound|]].
  - assert (Hb30 : at_most (25 # 2) (robustness_score r)).
    { destruct (robustness_score r) as [|[|]|x]; unfold at_most in *;
        try assumption. lra. }
    rewrite Hrec, (at_most_not_fge _ 70 _ Hb30), (at_most_not_fge _ 50 _ Hb30),
      (at_most_not_fge _ 30 _ Hb30) by reflexivity.
    reflexivity.
  - exists pm, pw. split; [exact Hmt|]. split; [exact Hwf|].
    rewrite Hwarn. unfold flt at 1 2.
    destruct (Qlt_le_dec pm 60); [|lra].
    destruct (Qlt_le_dec pw 50); [|lra]. reflexivity.
Qed.

Lemma report_fails_without_positive_sharpe_witness :
  exists r,
    PortfolioValidator.generate_validation_report
      all_failed_timeframes all_failed_windows all_failed_monte_carlo = ok r
    /\ recommendation r = REC_FAIL
    /\ at_most (0 * (1 # 8)) (robustness_score r)
    /\ exists a b,
         (a == 0)%Q /\ (b == 0)%Q
         /\ firstn 2 (warnings r) = [LowTimeframes (Fin a); LowWalkForward (Fin b)].
Proof.
  eexists. split; [reflexivity|].
  apply (report_fails_without_positive_sharpe all_failed_timeframes
           all_failed_windows all_failed_monte_carlo 0).
  - reflexivity.
  - split; [apply Qle_refl|discriminate].
  - reflexivity.
  - repeat constructor.
  - repeat constructor.
Defined.

(** ** validation_framework.py: the Monte Carlo analysis *)

Lemma subsequence_length {A} (l1 l2 : list A) :
  subsequence l1 l2 -> (List.length l1 <= List.length l2)%nat.
Proof. induction 1; cbn [List.length]; lia. Qed.

Lemma subsequence_nil_l {A} (l : list A) : subsequence [] l.
Proof. induction l; constructor; assumption. Qed.

Lemma subsequence_In {A} (l1 l2 : list A) x :
  subsequence l1 l2 -> In x l1 -> In x l2.
Proof.
  induction 1 as [|y l1 l2 _ IH|y l1 l2 _ IH]; cbn [In]; [tauto| |]; intuition.
Qed.

Lemma seq_numbers k : forall start,
  map (fun i => Z.of_nat i + 1) (seq start k) = map Z.of_nat (seq (S start) k).
Proof.
  induction k as [|k IH]; intros start; [reflexivity|].
  cbn [seq map]. rewrite IH. f_equal. lia.
Qed.

Section MonteCarloRuns.

Variable strategy_function :
  datetime -> datetime -> option (dict pynum) -> M Portfolio.
Variable np_sqrt : Q -> pyfloat.
Variable np_power : pyfloat -> pyfloat -> pyfloat.
Variable randn : nat -> Q.
Variable random_sample : nat -> Q.

Local Abbreviation draw := (PortfolioValidator.draw_params random_sample).
Local Abbreviation run_backtest :=
  (PortfolioValidator._run_backtest strategy_function np_sqrt np_power randn).
Local Abbreviation mc_loop :=
  (PortfolioValidator.monte_carlo_loop strategy_function np_sqrt np_power randn
     random_sample).
Local Abbreviation mc_sensitivity :=
  (PortfolioValidator.monte_carlo_parameter_sensitivity strategy_function np_sqrt
     np_power randn random_sample).
Local Abbreviation trace ranges :=
  (mc_trace strategy_function run_backtest (draw ranges [])).

(** A run is determined by its simulations and the state it starts from. *)
Lemma mc_trace_deterministic ranges sd ed indices s samples1 s1 :
  trace ranges sd ed indices s samples1 s1 ->
  forall samples2 s2,
    trace ranges sd ed indices s samples2 s2 -> samples2 = samples1 /\ s2 = s1.
Proof.
  induction 1 as [s
                 |i rest s params sa p sb r sc samples s' Hd Hs Hb _ IH
                 |i rest s params sa e sb samples s' Hd Hs _ IH
                 |i rest s params sa p sb e sc samples s' Hd Hs Hb _ IH];
    intros samples2 s2 H2; inversion H2; subst;
    repeat match goal with
           | H1 : ?f = (_, _), H2 : ?f = (_, _) |- _ =>
               rewrite H1 in H2; inversion H2; subst; clear H2
           end;
    try discriminate.
  - split; reflexivity.
  - match goal with
    | H : mc_trace _ _ _ _ _ rest _ _ _ |- _ => destruct (IH _ _ H) as [-> ->]
    end.
    split; reflexivity.
  - match goal with
    | H : mc_trace _ _ _ _ _ rest _ _ _ |- _ => exact (IH _ _ H)
    end.
  - match goal with
    | H : mc_trace _ _ _ _ _ rest _ _ _ |- _ => exact (IH _ _ H)
    end.
Qed.

(** The samples of a run are numbered by their simulation, in order. *)
Lemma mc_trace_numbers ranges sd ed indices s samples s' :
  trace ranges sd ed indices s samples s' ->
  subsequence (map mc_simulation samples) (map (fun i => Z.of_nat i + 1) indices).
Proof.
  induction 1; cbn [map mc_simulation].
  - constructor.
  - apply subsequence_take. assumption.
  - apply subsequence_skip. assumption.
  - apply subsequence_skip. assumption.
Qed.

(** On distinct names every sample of a run has one parameter per range,
    in the order of the ranges. *)
Lemma mc_trace_keys ranges sd ed indices s samples s' :
  NoDup (dict_keys ranges) ->
  trace ranges sd ed indices s samples s' ->
  Forall (fun smp => dict_keys (mc_params smp) = dict_keys ranges) samples.
Proof.
  intros Hnd Htr.
  eapply mc_trace_params with (P := fun params => dict_keys params = dict_keys ranges);
    [exact Htr|].
  intros s0 params s1 Hd. apply draw_params_keys in Hd. apply (proj2 Hd). exact Hnd.
Qed.

(** When every simulation of a run returns, the run keeps one sample per
    simulation. *)
Lemma mc_trace_all_kept ranges sd ed indices s samples s' :
  trace ranges sd ed indices s samples s' ->
  (forall params s0, exists p s1,
      strategy_function sd ed (Some params) s0 = (ok p, s1)) ->
  (forall i p s0, exists r s1,
      run_backtest sd ed ("MC_" ++ string_of_Z (Z.of_nat i + 1)) (Some p) s0
      = (ok r, s1)) ->
  map mc_simulation samples = map (fun i => Z.of_nat i + 1) indices.
Proof.
  intros Htr Hs Hb.
  induction Htr as [s
                   |i rest s params sa p sb r sc samples s' Hd Hst Hbt _ IH
                   |i rest s params sa e sb samples s' Hd Hst _ IH
                   |i rest s params sa p sb e sc samples s' Hd Hst Hbt _ IH].
  - reflexivity.
  - cbn [map mc_simulation]. rewrite IH. reflexivity.
  - destruct (Hs params sa) as [p [s1 E]]. rewrite E in Hst. discriminate Hst.
  - destruct (Hb i p sb) as [r [s1 E]]. rewrite E in Hbt. discriminate Hbt.
Qed.


(** When every range can be drawn from the loop returns. *)
Lemma monte_carlo_loop_returns ranges sd ed indices :
  ranges_ok ranges ->
  forall results s,
    exists new s',
      mc_loop indices ranges sd ed results s = (inr (results ++ new), s')
      /\ trace ranges sd ed indices s new s'.
Proof.
  intros Hok results s.
  pose proof (monte_carlo_loop_trace strategy_function np_sqrt np_power randn
                random_sample ranges sd ed indices results s) as Htr.
  destruct (mc_loop indices ranges sd ed results s) as [[e|results'] s'].
  - destruct Htr as [name [lo [hi [Hin He]]]].
    rewrite (Hok name lo hi Hin) in He. discriminate He.
  - destruct Htr as [new [-> Htr]]. exists new, s'. split; [reflexivity|exact Htr].
Qed.


(** X6. The samples of an analysis that
    [monte_carlo_parameter_sensitivity] returns are those of its run over
    the simulations 0 .. n-1: a simulation whose strategy and backtest both
    return contributes the sample of its result, with the parameters drawn
    for it, and a simulation in which either raises contributes nothing;
    no other list of samples is a run from that state.  The analysis counts
    its samples and holds at least one; they are numbered from 1 to [n] in
    increasing order, each with one parameter per range; and both
    percentages are numbers of [0, 100]. *)
Theorem monte_carlo_analysis_invariants now ranges n days s a s' :
  PortfolioValidator.monte_carlo_parameter_sensitivity strategy_function np_sqrt
    np_power randn random_sample now ranges n days s = (inr a, s') ->
  mc_trace strategy_function
    (PortfolioValidator._run_backtest strategy_function np_sqrt np_power randn)
    (PortfolioValidator.draw_params random_sample ranges [])
    (now - timedelta_days days) now (seq 0 (Z.to_nat n)) s (all_results a) s'
  /\ (forall samples s'',
        mc_trace strategy_function
          (PortfolioValidator._run_backtest strategy_function np_sqrt np_power randn)
          (PortfolioValidator.draw_params random_sample ranges [])
          (now - timedelta_days days) now (seq 0 (Z.to_nat n)) s samples s'' ->
        samples = all_results a /\ s'' = s')
  /\ num_simulations a = List.length (all_results a)
  /\ all_results a <> []
  /\ subsequence (map mc_simulation (all_results a))
                 (map Z.of_nat (seq 1 (Z.to_nat n)))
  /\ (NoDup (dict_keys ranges) ->
      Forall (fun smp => dict_keys (mc_params smp) = dict_keys ranges)
             (all_results a))
  /\ (exists p, profitable_pct a = Fin p /\ (0 <= p <= 100)%Q)
  /\ (exists p, positive_sharpe_pct a = Fin p /\ (0 <= p <= 100)%Q).
Proof.
  intros Hrun.
  apply mc_sensitivity_trace in Hrun.
  destruct Hrun as [Hne [Hnum [Htr [Hpr Hps]]]].
  split; [exact Htr|].
  split; [intros samples s''; apply (mc_trace_deterministic _ _ _ _ _ _ _ Htr)|].
  split; [exact Hnum|]. split; [exact Hne|].
  split; [rewrite <- seq_numbers; apply (mc_trace_numbers _ _ _ _ _ _ _ Htr)|].
  split; [intros Hnd; apply (mc_trace_keys _ _ _ _ _ _ _ Hnd Htr)|].
  split; assumption.
Qed.




End MonteCarloRuns.

Lemma monte_carlo_analysis_invariants_witness :
  exists a s',
    PortfolioValidator.monte_carlo_parameter_sensitivity sample_strategy sample_sqrt
      sample_power sample_randn sample_random_sample
      (timedelta_days 100) demo_parameter_ranges 2 3 0%nat = (inr a, s')
    /\ List.length (all_results a) = 2%nat
    /\ mc_trace sample_strategy
         (PortfolioValidator._run_backtest sample_strategy sample_sqrt sample_power
            sample_randn)
         (PortfolioValidator.draw_params sample_random_sample demo_parameter_ranges [])
         (timedelta_days 100 - timedelta_days 3) (timedelta_days 100)
         (seq 0 (Z.to_nat 2)) 0%nat (all_results a) s'
    /\ (forall samples s'',
          mc_trace sample_strategy
            (PortfolioValidator._run_backtest sample_strategy sample_sqrt sample_power
               sample_randn)
            (PortfolioValidator.draw_params sample_random_sample
               demo_parameter_ranges [])
            (timedelta_days 100 - timedelta_days 3) (timedelta_days 100)
            (seq 0 (Z.to_nat 2)) 0%nat samples s'' ->
          samples = all_results a /\ s'' = s')
    /\ num_simulations a = List.length (all_results a)
    /\ all_results a <> []
    /\ subsequence (map mc_simulation (all_results a))
                   (map Z.of_nat (seq 1 (Z.to_nat 2)))
    /\ (NoDup (dict_keys demo_parameter_ranges) ->
        Forall (fun smp => dict_keys (mc_params smp) = dict_keys demo_parameter_ranges)
               (all_results a))
    /\ (exists p, profitable_pct a = Fin p /\ (0 <= p <= 100)%Q)
    /\ (exists p, positive_sharpe_pct a = Fin p /\ (0 <= p <= 100)%Q).
Proof.
  eexists. eexists. split; [vm_compute; reflexivity|].
  split; [reflexivity|].
  eapply (monte_carlo_analysis_invariants sample_strategy sample_sqrt sample_power
           sample_randn sample_random_sample (timedelta_days 100)
           demo_parameter_ranges 2 3 0%nat).
  vm_compute. reflexivity.
Defined.

(** A strategy that raises on every second call: of four simulations the
    analysis keeps the first and the third. *)
Example monte_carlo_keeps_what_returns :
  exists a s',
    PortfolioValidator.monte_carlo_parameter_sensitivity flaky_strategy sample_sqrt
      sample_power sample_randn sample_random_sample
      (timedelta_days 100) demo_parameter_ranges 4 2 0%nat = (inr a, s')
    /\ map mc_simulation (all_results a) = [1; 3]
    /\ num_simulations a = 2%nat.
Proof. eexists. eexists. vm_compute. repeat split. Qed.


(** The range [(0, 2 ** 63)] leaves [int64]: the draw raises [ValueError]
    before the strategy is called or the percentages are computed; so does
    a range of integers given in the wrong order. *)
Example monte_carlo_beyond_int64 :
  PortfolioValidator.monte_carlo_parameter_sensitivity sample_strategy sample_sqrt
    sample_power sample_randn sample_random_sample (timedelta_days 100)
    [("n"%string, (PyInt 0, PyInt (2 ^ 63)))] 1 0 0%nat
  = (throw ValueError, 0%nat)
  /\ PortfolioValidator.monte_carlo_parameter_sensitivity sample_strategy sample_sqrt
       sample_power sample_randn sample_random_sample (timedelta_days 100)
       [("num_stocks"%string, (PyInt 12, PyInt 8))] 50 365 0%nat
     = (throw ValueError, 0%nat).
Proof. split; vm_compute; reflexivity. Qed.



(** ** demo_validation.py: the whole validation run *)

Lemma report_carries_inputs mt wf mc r :
  PortfolioValidator.generate_validation_report mt wf mc = ok r ->
  multi_timeframe_results r = mt
  /\ walk_forward_results r = wf
  /\ monte_carlo_results r = mc.
Proof.
  unfold PortfolioValidator.generate_validation_report.
  destruct (PortfolioValidator.positive_pct (map sharpe_ratio (dict_values mt)) _)
    as [e|m]; [discriminate|].
  destruct (PortfolioValidator.positive_pct (map sharpe_ratio wf) _)
    as [e|w]; [discriminate|].
  cbn [res_bind]. intros H. inversion H. repeat split.
Qed.

(** With a Monte Carlo percentage of [0, 100] the score of a report does
    not exceed 50. *)
Lemma report_score_at_most_50 mt wf mc p r :
  positive_sharpe_pct mc = Fin p -> (0 <= p <= 100)%Q ->
  PortfolioValidator.generate_validation_report mt wf mc = ok r ->
  at_most 50 (robustness_score r) /\ recommendation r <> REC_STRONG.
Proof.
  intros Hmc Hp Hr. apply report_shape in Hr.
  destruct Hr as [pm [pw [x [Hm [Hw [Hscore Hrec]]]]]].
  assert (Hbound : at_most 50 (robustness_score r)).
  { rewrite Hscore, Hmc. pose proof (sharpe_score_at_most x) as Hs.
    destruct (py_min (fmul x (Fin 50)) (Fin 50)) as [|[|]|q].
    - exact I.
    - reflexivity.
    - discriminate Hs.
    - unfold at_most, fadd, fmul in *. lra. }
  split; [exact Hbound|].
  rewrite Hrec, (at_most_not_fge 50 70 _ Hbound) by reflexivity.
  destruct (fge (robustness_score r) (Fin 50));
    [|destruct (fge (robustness_score r) (Fin 30))]; discriminate.
Qed.

Lemma timeframe_result_keys now tfs es :
  Forall2 (timeframe_result now) tfs es -> dict_keys es = dict_keys tfs.
Proof.
  unfold dict_keys. induction 1 as [|tf e tfs es [Hk _] _ IH]; [reflexivity|].
  cbn [map]. rewrite Hk, IH. reflexivity.
Qed.

Section DemoRun.

Variable strategy_function :
  datetime -> datetime -> option (dict pynum) -> M Portfolio.
Variable np_sqrt : Q -> pyfloat.
Variable np_power : pyfloat -> pyfloat -> pyfloat.
Variable randn : nat -> Q.
Variable random_sample : nat -> Q.

(** X10. The validation run of the demonstration script, for a strategy that
    returns: with enough fuel for the walk-forward loop the run returns a
    report over the three timeframes, four walk-forward windows and fifty
    Monte Carlo samples; its score does not exceed 50 and its recommendation
    is never "STRONG", so the score above 70 that the script asks for before
    paper trading is out of reach. *)
Theorem run_demo_report now_mt now_wf now_mc s :
  (forall sd ed params s0, exists p s1,
      strategy_function sd ed params s0 = (ok p, s1)) ->
  exists fuel0, forall fuel, (fuel0 <= fuel)%nat ->
    exists r s',
      run_demo strategy_function np_sqrt np_power randn random_sample
        fuel now_mt now_wf now_mc s = Some (inr r, s')
      /\ dict_keys (multi_timeframe_results r) = ["6mo"; "1yr"; "2yr"]%string
      /\ List.length (walk_forward_results r) = 4%nat
      /\ num_simulations (monte_carlo_results r) = 50%nat
      /\ fgt (robustness_score r) (Fin 50) = false
      /\ recommendation r <> REC_STRONG.
Proof.
  intros Hstrat. exists 5%nat. intros fuel Hfuel. unfold run_demo.
  (* the timeframes *)
  destruct (mt_loop_results strategy_function np_sqrt np_power randn now_mt
              demo_timeframes) with (results := @nil (string * BacktestResult))
                                    (s := s)
    as [mt [s1 [Hmt Hall]]].
  { intros name d H. cbn in H.
    repeat (destruct H as [H|H]; [inversion H; reflexivity|]). contradiction. }
  { intros sd ed s0. apply Hstrat. }
  { repeat constructor; cbn; intuition discriminate. }
  cbn [app] in Hmt. unfold PortfolioValidator.multi_timeframe_backtest.
  rewrite Hmt. apply timeframe_result_keys in Hall.
  (* the walk-forward windows *)
  assert (Htds : forall d, timedelta_days d = d * usec_per_day) by reflexivity.
  destruct (wf_loop_total strategy_function np_sqrt np_power randn now_wf 365 90 90)
    with (n := 4%nat) (cur := now_wf - timedelta_days 730) (num := 1)
         (results := @nil WFWindow) (s := s1) (fuel := fuel)
    as [ws [s2 [Hwf Hlen]]]; try lia.
  { intros sd ed s0. apply Hstrat. }
  { rewrite !Htds. unfold usec_per_day. lia. }
  unfold PortfolioValidator.walk_forward_analysis,
    PortfolioValidator.walk_forward_windows.
  rewrite Hwf.
  assert (Hws : List.length ws = 4%nat).
  { cbn [List.length] in Hlen.
    replace ((now_wf - (now_wf - timedelta_days 730 + timedelta_days 365
                        + timedelta_days 90)) / timedelta_days 90) with 3 in Hlen.
    - lia.
    - rewrite !Htds.
      replace (now_wf - (now_wf - 730 * usec_per_day + 365 * usec_per_day
                         + 90 * usec_per_day)) with (275 * usec_per_day) by lia.
      reflexivity. }
  (* the Monte Carlo samples *)
  destruct (monte_carlo_loop_returns strategy_function np_sqrt np_power randn
              random_sample demo_parameter_ranges (now_mc - timedelta_days 365) now_mc
              (seq 0 (Z.to_nat 50)) demo_ranges_ok [] s2)
    as [smps [s3 [Hloop Htr]]].
  cbn [app] in Hloop.
  assert (Hnum : map mc_simulation smps
                 = map (fun i => Z.of_nat i + 1) (seq 0 (Z.to_nat 50))).
  { apply (mc_trace_all_kept _ _ _ _ _ _ _ _ _ _ _ _ Htr).
    - intros params s0. apply Hstrat.
    - intros i p s0.
      apply (run_backtest_returns strategy_function np_sqrt np_power randn).
      replace (now_mc - (now_mc - timedelta_days 365)) with (timedelta_days 365)
        by lia.
      rewrite td_days_timedelta_days. lia. }
  assert (Hsmps : List.length smps = 50%nat).
  { rewrite <- (length_map mc_simulation), Hnum, length_map, length_seq.
    reflexivity. }
  destruct (mc_sensitivity_after_loop strategy_function np_sqrt np_power randn
              random_sample now_mc demo_parameter_ranges 50 365 s2 smps s3 Hloop)
    as [_ Hfull].
  destruct Hfull as [a [pr [ps [Ha [Hres [Hn [_ [_ [Hps Hrange]]]]]]]]].
  { intros ->. discriminate Hsmps. }
  rewrite Ha. cbv beta iota delta [ok].
  (* the report *)
  destruct (report_returns mt (map wf_result ws) a) as [r Hr].
  { intros ->. discriminate Hall. }
  { destruct ws; [discriminate Hws|discriminate]. }
  exists r, s3. rewrite Hr. split; [reflexivity|].
  destruct (report_carries_inputs _ _ _ _ Hr) as [-> [-> ->]].
  destruct (report_score_at_most_50 _ _ _ _ _ Hps Hrange Hr) as [Hscore Hrec].
  split; [exact Hall|]. split; [rewrite length_map; exact Hws|].
  split; [rewrite Hn; exact Hsmps|].
  split; [apply at_most_fgt; exact Hscore|exact Hrec].
Qed.

End DemoRun.

Lemma run_demo_report_witness :
  exists fuel0, forall fuel, (fuel0 <= fuel)%nat ->
    exists r s',
      run_demo sample_strategy sample_sqrt sample_power sample_randn
        sample_random_sample fuel (timedelta_days 20000) (timedelta_days 20000)
        (timedelta_days 20000) 0%nat = Some (inr r, s')
      /\ dict_keys (multi_timeframe_results r) = ["6mo"; "1yr"; "2yr"]%string
      /\ List.length (walk_forward_results r) = 4%nat
      /\ num_simulations (monte_carlo_results r) = 50%nat
      /\ fgt (robustness_score r) (Fin 50) = false
      /\ recommendation r <> REC_STRONG.
Proof.
  apply (run_demo_report sample_strategy sample_sqrt sample_power sample_randn
           sample_random_sample (timedelta_days 20000) (timedelta_days 20000)
           (timedelta_days 20000) 0%nat).
  intros sd ed params s0. eexists. eexists. reflexivity.
Defined.

(** ** module_6_backtest_engine.py: rows, observations and capital *)

Lemma select_length {A B} (mask : list bool) : forall (xs : list A) (ys : list B),
  List.length xs = List.length ys ->
  List.length (select mask xs) = List.length (select mask ys).
Proof.
  induction mask as [|b m IH]; intros [|x xs] [|y ys] H; try reflexivity;
    try discriminate H.
  cbn [select]. cbn [List.length] in H.
  destruct b; cbn [List.length]; rewrite (IH xs ys) by lia; reflexivity.
Qed.

Lemma ffill_from_length c : forall last,
  List.length (ffill_from last c) = List.length c.
Proof.
  induction c as [|[v|] t IH]; intros last; cbn [ffill_from List.length];
    [reflexivity| |]; rewrite IH; reflexivity.
Qed.

Lemma dict_set_values_Forall {V} (P : V -> Prop) (d : dict V) k v :
  Forall P (dict_values d) -> P v -> Forall P (dict_values (dict_set d k v)).
Proof.
  unfold dict_values. induction d as [|[k0 v0] d IH]; cbn [dict_set map snd];
    intros Hd Hv.
  - constructor; [exact Hv|constructor].
  - inversion Hd; subst.
    destruct (String.eqb k k0); cbn [map snd]; constructor; auto.
Qed.

Lemma df_setitem_wf df ticker s : df_wf df -> df_wf (df_setitem df ticker s).
Proof.
  unfold df_wf, df_setitem, df_len. intros Hwf.
  destruct (df_index df) as [|d idx] eqn:Eidx.
  - destruct s as [|e s]; cbn [df_index df_columns].
    + apply dict_set_values_Forall; [exact Hwf|reflexivity].
    + apply dict_set_values_Forall; [|rewrite !length_map; reflexivity].
      unfold dict_values. rewrite map_map. apply Forall_map.
      apply Forall_forall. intros [k c] _. cbn [snd].
      rewrite !length_map. reflexivity.
  - cbn [df_index df_columns].
    apply dict_set_values_Forall; [exact Hwf|rewrite length_map; reflexivity].
Qed.

Lemma collect_prices_wf stock_data items : forall df,
  df_wf df -> df_wf (BacktestEngine.collect_prices items stock_data df).
Proof.
  induction items as [|[ticker w] items IH]; intros df Hwf; [exact Hwf|].
  cbn [BacktestEngine.collect_prices].
  destruct (dict_get stock_data ticker) as [[close|]|]; try (apply IH; exact Hwf).
  apply IH. apply df_setitem_wf. exact Hwf.
Qed.

Lemma df_select_rows_wf mask df : df_wf df -> df_wf (df_select_rows mask df).
Proof.
  unfold df_wf, df_select_rows, df_len, dict_values. cbn [df_index df_columns].
  intros Hwf. rewrite map_map. apply Forall_map.
  rewrite Forall_map in Hwf. eapply Forall_impl; [|exact Hwf].
  intros [k c] Hc. cbn [snd] in *. apply select_length. exact Hc.
Qed.

Lemma clean_prices_wf df : df_wf df -> df_wf (BacktestEngine.clean_prices df).
Proof.
  intros Hwf. unfold BacktestEngine.clean_prices, df_dropna_rows.
  apply df_select_rows_wf.
  unfold df_wf, df_ffill, df_dropna_columns, df_len, dict_values in *.
  cbn [df_index df_columns]. rewrite map_map. apply Forall_map.
  rewrite Forall_map in Hwf. apply Forall_forall. intros [k c] Hin.
  apply filter_In in Hin. destruct Hin as [Hin _].
  rewrite Forall_forall in Hwf. specialize (Hwf (k, c) Hin). cbn [snd] in *.
  rewrite ffill_from_length. exact Hwf.
Qed.

(** The frame of prices that [backtest_portfolio] works on keeps every
    column as long as its index. *)
Lemma backtest_prices_wf weights stock_data sd ed :
  df_wf (BacktestEngine.clean_prices
           (BacktestEngine.filter_date_range
              (BacktestEngine.collect_prices weights stock_data (mkDataFrame [] []))
              sd ed)).
Proof.
  apply clean_prices_wf. unfold BacktestEngine.filter_date_range.
  apply df_select_rows_wf. apply collect_prices_wf. constructor.
Qed.

Lemma pct_change_from_length c : forall prev,
  List.length (pct_change_from prev c) = List.length c.
Proof.
  induction c as [|x t IH]; intros prev; cbn [pct_change_from List.length];
    [reflexivity|]. rewrite IH. reflexivity.
Qed.

Lemma pct_change_length c : List.length (pct_change c) = pred (List.length c).
Proof. destruct c as [|x t]; [reflexivity|]. apply pct_change_from_length. Qed.

Lemma finite_series_length xs l :
  finite_series xs = Some l -> List.length l = List.length xs.
Proof.
  revert l. induction xs as [|x xs IH]; intros l; cbn [finite_series fold_right].
  - intros H. inversion H. reflexivity.
  - change (fold_right _ (Some []) xs) with (finite_series xs).
    destruct x as [| |q]; try discriminate.
    destruct (finite_series xs) as [l'|]; [|discriminate].
    intros H. inversion H. cbn [List.length]. rewrite (IH l' eq_refl). reflexivity.
Qed.

Lemma finite_columns_length n cols rs :
  Forall (fun c => List.length c = n) cols ->
  finite_columns cols = Some rs ->
  Forall (fun r => List.length r = n) rs /\ List.length rs = List.length cols.
Proof.
  revert rs. induction cols as [|c cols IH]; intros rs Hc; cbn [finite_columns].
  - intros H. inversion H. split; [constructor|reflexivity].
  - inversion Hc; subst.
    destruct (finite_series c) as [c'|] eqn:Ec; [|discriminate].
    destruct (finite_columns cols) as [t'|]; [|discriminate].
    intros H. inversion H. destruct (IH t' ltac:(assumption) eq_refl) as [Ht Hl].
    split; [constructor; [apply finite_series_length; exact Ec|exact Ht]|].
    cbn [List.length]. rewrite Hl. reflexivity.
Qed.

Lemma finite_columns_short cols :
  Forall (fun c => List.length c = 0%nat) cols ->
  exists rs, finite_columns cols = Some rs.
Proof.
  induction 1 as [|c cols Hc _ [rs IH]]; [exists []; reflexivity|].
  cbn [finite_columns]. destruct c; [|discriminate Hc].
  cbn. rewrite IH. eexists. reflexivity.
Qed.

Lemma transpose_length {A} n (cols : list (list A)) :
  Forall (fun c => List.length c = n) cols ->
  List.length (transpose n cols) = n.
Proof.
  induction 1 as [|c cols Hc _ IH]; cbn [transpose].
  - apply repeat_length.
  - rewrite length_map, length_combine, Hc, IH. apply Nat.min_id.
Qed.

Lemma cumprod_from_length xs : forall acc,
  List.length (cumprod_from acc xs) = List.length xs.
Proof.
  induction xs as [|x xs IH]; intros acc; cbn [cumprod_from List.length];
    [reflexivity|]. rewrite IH. reflexivity.
Qed.

(** The last running product is the product of the whole series. *)
Lemma cumprod_from_last xs : forall acc pre z,
  cumprod_from acc xs = pre ++ [z] -> (z == acc * Qprod xs)%Q.
Proof.
  induction xs as [|x xs IH]; intros acc pre z; cbn [cumprod_from Qprod fold_right].
  - intros H. destruct pre; discriminate H.
  - change (fold_right Qmult 1%Q xs) with (Qprod xs). intros H.
    destruct xs as [|y xs].
    + cbn [cumprod_from] in H. destruct pre as [|p pre].
      * inversion H. unfold Qprod. cbn [fold_right]. ring.
      * inversion H. destruct pre; discriminate.
    + destruct pre as [|p pre].
      * cbn [cumprod_from] in H. discriminate H.
      * inversion H as [[Hp Hrest]]. rewrite (IH _ _ _ Hrest). ring.
Qed.
Section EngineRows.

Variable np_sqrt : Q -> pyfloat.
Variable np_power : pyfloat -> pyfloat -> pyfloat.

Local Abbreviation engine_backtest :=
  (BacktestEngine.backtest_portfolio np_sqrt np_power).

(** What [backtest_portfolio] does past its three checks is decided by the
    number of rows of the cleaned frame: with fewer than two rows there is
    no return observation and [iloc[-1]] raises; otherwise there is one
    observation per row after the first. *)
Lemma backtest_portfolio_rows capital weights stock_data sd ed :
  let in_window :=
    BacktestEngine.filter_date_range
      (BacktestEngine.collect_prices weights stock_data (mkDataFrame [] [])) sd ed in
  let prices := BacktestEngine.clean_prices in_window in
  let total :=
    BacktestEngine.total_weight_of weights (dict_keys (df_columns prices)) in
  match engine_backtest capital weights stock_data sd ed with
  | Returns (BacktestEngine.Success r) =>
      (2 <= df_len prices)%nat
      /\ BacktestEngine.num_days r = pred (df_len prices)
      /\ List.length (BacktestEngine.portfolio_returns r) = BacktestEngine.num_days r
      /\ BacktestEngine.cumulative_returns r
         = cumprod (map (fun x => 1 + x)%Q (BacktestEngine.portfolio_returns r))
      /\ BacktestEngine.portfolio_value r
         = map (fun c => c * capital)%Q (BacktestEngine.cumulative_returns r)
      /\ BacktestEngine.initial_capital r = capital
      /\ (exists pre,
            BacktestEngine.portfolio_value r = pre ++ [BacktestEngine.final_value r])
      /\ BacktestEngine.total_return r
         = fsub (fdiv (Fin (BacktestEngine.final_value r)) (Fin capital)) (Fin 1)
  | Raises e =>
      e = IndexError /\ (df_len prices <= 1)%nat
  | Returns (BacktestEngine.Failure _) =>
      df_len in_window = 0%nat \/ df_columns prices = [] \/ (total == 0)%Q
  | Unmodelled =>
      (2 <= df_len prices)%nat
  end.
Proof.
  cbv zeta. unfold BacktestEngine.backtest_portfolio.
  pose proof (backtest_prices_wf weights stock_data sd ed) as Hwf.
  set (filtered := BacktestEngine.filter_date_range _ sd ed) in *.
  destruct (df_len filtered =? 0)%nat eqn:Erows;
    [left; apply Nat.eqb_eq; exact Erows|].
  set (prices := BacktestEngine.clean_prices filtered) in *.
  destruct (List.length (df_columns prices) =? 0)%nat eqn:Ecols.
  { right. left. apply Nat.eqb_eq in Ecols.
    destruct (df_columns prices); [reflexivity|discriminate Ecols]. }
  destruct (Qeq_bool (BacktestEngine.total_weight_of weights
                        (dict_keys (df_columns prices))) 0) eqn:Etot.
  { right. right. apply Qeq_bool_eq. exact Etot. }
  assert (Hcols : Forall (fun c => List.length c = pred (df_len prices))
                    (map (fun c => pct_change (unwrap c))
                         (dict_values (df_columns prices)))).
  { apply Forall_map. unfold df_wf in Hwf. eapply Forall_impl; [|exact Hwf].
    intros c Hc. cbn beta in *. rewrite pct_change_length. unfold unwrap.
    rewrite length_map, Hc. reflexivity. }
  destruct (finite_columns _) as [returns|] eqn:Efin.
  - destruct (finite_columns_length _ _ _ Hcols Efin) as [Hret _].
    pose proof (transpose_length _ _ Hret) as Hlen.
    set (rs := map _ (transpose _ returns)).
    assert (Hrs : List.length rs = pred (df_len prices))
      by (unfold rs; rewrite length_map; exact Hlen).
    destruct (rev (map (fun c => (c * capital)%Q)
                       (cumprod (map (fun x => (1 + x)%Q) rs))))
      as [|last tl] eqn:Erev.
    + split; [reflexivity|].
      assert (Hz : List.length rs = 0%nat).
      { apply (f_equal (@List.length Q)) in Erev.
        rewrite length_rev, length_map in Erev. unfold cumprod in Erev.
        rewrite cumprod_from_length, length_map in Erev. exact Erev. }
      lia.
    + cbn [BacktestEngine.num_days BacktestEngine.portfolio_returns
           BacktestEngine.cumulative_returns BacktestEngine.portfolio_value
           BacktestEngine.initial_capital BacktestEngine.final_value
           BacktestEngine.total_return].
      assert (Hpos : List.length rs <> 0%nat).
      { intros Hz. destruct rs; [discriminate Erev|discriminate Hz]. }
      repeat split; try reflexivity; try lia.
      exists (rev tl). apply (f_equal (@rev Q)) in Erev.
      rewrite rev_involutive in Erev. exact Erev.
  - destruct (le_lt_dec 2 (df_len prices)) as [H2|H1]; [exact H2|exfalso].
    destruct (finite_columns_short
                (map (fun c => pct_change (unwrap c)) (dict_values (df_columns prices))))
      as [rs Hrs]; [|rewrite Hrs in Efin; discriminate Efin].
    eapply Forall_impl; [|exact Hcols]. intros c Hc. cbn beta in Hc. lia.
Qed.



(** X13. The final value of a successful backtest is the initial capital
    times the product of the daily growth factors.  The total return does
    not depend on a non-zero initial capital: it is that product minus one;
    a zero initial capital makes it NaN. *)
Theorem backtest_total_return capital weights stock_data sd ed r :
  engine_backtest capital weights stock_data sd ed
  = Returns (BacktestEngine.Success r) ->
  let growth :=
    Qprod (map (fun x => 1 + x)%Q (BacktestEngine.portfolio_returns r)) in
  (BacktestEngine.final_value r == capital * growth)%Q
  /\ (~ (capital == 0)%Q ->
      exists q, BacktestEngine.total_return r = Fin q /\ (q == growth - 1)%Q)
  /\ ((capital == 0)%Q -> BacktestEngine.total_return r = NaN).
Proof.
  intros H. cbv zeta.
  pose proof (backtest_portfolio_rows capital weights stock_data sd ed) as Hrows.
  cbv zeta in Hrows. rewrite H in Hrows.
  destruct Hrows as [_ [_ [_ [Hcum [Hval [_ [[pre Hlast] Htr]]]]]]].
  assert (Hfinal : (BacktestEngine.final_value r
                    == capital * Qprod (map (fun x => 1 + x)%Q
                                          (BacktestEngine.portfolio_returns r)))%Q).
  { rewrite Hval, Hcum in Hlast. unfold cumprod in Hlast.
    remember (map (fun x => (1 + x)%Q) (BacktestEngine.portfolio_returns r)) as gs.
    clear -Hlast. remember (cumprod_from 1 gs) as cs.
    assert (Hsplit : exists pre' z, cs = pre' ++ [z]
                                    /\ BacktestEngine.final_value r = (z * capital)%Q).
    { clear Heqcs. destruct (exists_last (l := cs)) as [pre' [z Hcs]].
      - intros ->. destruct pre; discriminate Hlast.
      - exists pre', z. split; [exact Hcs|]. rewrite Hcs, map_app in Hlast.
        cbn [map] in Hlast. apply app_inj_tail in Hlast. symmetry. apply Hlast. }
    destruct Hsplit as [pre' [z [Hcs ->]]]. subst cs.
    rewrite (cumprod_from_last _ _ _ _ Hcs). ring. }
  split; [exact Hfinal|]. rewrite Htr. unfold fsub, fdiv, fopp, fadd, Qis0. split.
  - intros Hc. destruct (Qeq_bool capital 0) eqn:E;
      [apply Qeq_bool_eq in E; contradiction|].
    eexists. split; [reflexivity|]. rewrite Hfinal. field. exact Hc.
  - intros Hc. rewrite (Qeq_eq_bool _ _ Hc).
    assert (Hz : (BacktestEngine.final_value r == 0)%Q)
      by (rewrite Hfinal, Hc; ring).
    rewrite (Qeq_eq_bool _ _ Hz). reflexivity.
Qed.

End EngineRows.


Lemma backtest_total_return_witness :
  exists r,
    BacktestEngine.backtest_portfolio sample_sqrt sample_power 100000
      three_stock_weights two_stock_data (timedelta_days 0) (timedelta_days 30)
    = Returns (BacktestEngine.Success r)
    /\ (BacktestEngine.final_value r
        == 100000 * Qprod (map (fun x => 1 + x)
                             (BacktestEngine.portfolio_returns r)))%Q
    /\ (~ (100000 == 0)%Q ->
        exists q,
          BacktestEngine.total_return r = Fin q
          /\ (q == Qprod (map (fun x => 1 + x)
                            (BacktestEngine.portfolio_returns r)) - 1)%Q)
    /\ ((100000 == 0)%Q -> BacktestEngine.total_return r = NaN).
Proof.
  eexists. split; [vm_compute; reflexivity|].
  apply (backtest_total_return sample_sqrt sample_power 100000
           three_stock_weights two_stock_data (timedelta_days 0) (timedelta_days 30)).
  vm_compute. reflexivity.
Defined.


(** ** A Sharpe ratio that is not a number *)

Lemma fadd_nan_r a : fadd a NaN = NaN.
Proof. destruct a as [|[|]|q]; reflexivity. Qed.

Lemma fold_fadd_nan xs : fold_left fadd xs NaN = NaN.
Proof. induction xs as [|x xs IH]; [reflexivity|exact IH]. Qed.

Lemma fold_fadd_In_nan xs : forall acc, In NaN xs -> fold_left fadd xs acc = NaN.
Proof.
  induction xs as [|x xs IH]; intros acc Hin; [contradiction|].
  cbn [fold_left]. destruct Hin as [->|Hin].
  - rewrite fadd_nan_r. apply fold_fadd_nan.
  - apply IH. exact Hin.
Qed.

(** [np.mean] of a list that holds a NaN is NaN. *)
Lemma np_mean_In_nan xs : In NaN xs -> np_mean xs = NaN.
Proof. intros H. unfold np_mean. rewrite (fold_fadd_In_nan xs _ H). reflexivity. Qed.

(** X14. One Sharpe ratio that is NaN, among the timeframe results or the
    walk-forward results, makes the score of the report NaN and its
    recommendation "FAIL", whatever the other results and the Monte Carlo
    analysis are: the average Sharpe ratio is NaN, [min(nan, 50)] is NaN,
    and no threshold compares below NaN. *)
Theorem report_nan_sharpe_fails mt wf mc r :
  PortfolioValidator.generate_validation_report mt wf mc = ok r ->
  In NaN (map sharpe_ratio (dict_values mt) ++ map sharpe_ratio wf) ->
  robustness_score r = NaN /\ recommendation r = REC_FAIL.
Proof.
  intros Hr Hin.
  destruct (report_parts mt wf mc r Hr) as [pm [pw [_ [_ [_ [_ [Hs [Hrec _]]]]]]]].
  cbv zeta in *. rewrite (np_mean_In_nan _ Hin) in Hs.
  assert (Hnan : robustness_score r = NaN).
  { rewrite Hs. cbn [fmul py_min flt]. apply fadd_nan_r. }
  split; [exact Hnan|]. rewrite Hrec, Hnan. reflexivity.
Qed.

Lemma report_nan_sharpe_fails_witness :
  exists r,
    PortfolioValidator.generate_validation_report
      one_day_timeframes all_failed_windows all_failed_monte_carlo = ok r
    /\ robustness_score r = NaN /\ recommendation r = REC_FAIL.
Proof.
  eexists. split; [reflexivity|].
  apply (report_nan_sharpe_fails one_day_timeframes all_failed_windows
           all_failed_monte_carlo).
  - reflexivity.
  - left. reflexivity.
Defined.

Section OneObservation.

Variable strategy_function :
  datetime -> datetime -> option (dict pynum) -> M Portfolio.
Variable np_sqrt : Q -> pyfloat.
Variable np_power : pyfloat -> pyfloat -> pyfloat.
Variable randn : nat -> Q.

Lemma validator_sharpe_one x rf :
  PortfolioValidator._calculate_sharpe np_sqrt [x] rf = NaN.
Proof.
  unfold PortfolioValidator._calculate_sharpe, series_std, series_var.
  cbn [feqb]. apply fdiv_nan_r.
Qed.

Lemma engine_sharpe_one x rf :
  BacktestEngine._calculate_sharpe np_sqrt [x] rf = NaN.
Proof.
  unfold BacktestEngine._calculate_sharpe, series_std, series_var.
  cbn [List.length Nat.eqb feqb orb]. apply fdiv_nan_r.
Qed.

Lemma backtest_success_dispersion capital weights stock_data sd ed r :
  BacktestEngine.backtest_portfolio np_sqrt np_power capital weights stock_data sd ed
  = Returns (BacktestEngine.Success r) ->
  BacktestEngine.volatility r
  = fmul (series_std np_sqrt (BacktestEngine.portfolio_returns r)) (np_sqrt 252)
  /\ BacktestEngine.sharpe_ratio r
     = BacktestEngine._calculate_sharpe np_sqrt (BacktestEngine.portfolio_returns r)
         default_risk_free_rate.
Proof.
  unfold BacktestEngine.backtest_portfolio.
  destruct (df_len _ =? 0)%nat; [discriminate|].
  destruct (List.length (df_columns _) =? 0)%nat; [discriminate|].
  destruct (Qeq_bool _ 0); [discriminate|].
  destruct (finite_columns _) as [returns|]; [|discriminate].
  destruct (rev _) as [|last tl]; [discriminate|].
  intros H. inversion H; subst r; clear H. split; reflexivity.
Qed.

(** X15. A window of one day gives the validator a single simulated return,
    and a cleaned frame of two rows gives the engine a single observation:
    in both cases the standard deviation is NaN, and the Sharpe ratio and
    the volatility of the result are NaN. *)
Theorem one_observation_sharpe_nan :
  (forall sd ed name p s,
      td_days (ed - sd) = 1 ->
      exists r,
        PortfolioValidator._run_backtest strategy_function np_sqrt np_power randn
          sd ed name (Some p) s = (inr r, S s)
        /\ sharpe_ratio r = NaN /\ volatility r = NaN)
  /\ (forall capital weights stock_data sd ed r,
        BacktestEngine.backtest_portfolio np_sqrt np_power capital weights
          stock_data sd ed = Returns (BacktestEngine.Success r) ->
        BacktestEngine.num_days r = 1%nat ->
        BacktestEngine.sharpe_ratio r = NaN /\ BacktestEngine.volatility r = NaN).
Proof.
  split.
  - intros sd ed name p s Hd.
    unfold PortfolioValidator._run_backtest, bind, lift, ret,
      PortfolioValidator._calculate_portfolio_returns,
      PortfolioValidator.np_random_randn, bind, ret.
    rewrite Hd. cbn [Z.ltb Z.compare Z.to_nat Pos.to_nat Pos.iter_op seq map].
    unfold py_truediv. cbn [Z.eqb]. unfold ok.
    eexists. split; [rewrite Nat.add_1_r; reflexivity|].
    cbn [sharpe_ratio volatility]. split; [apply validator_sharpe_one|reflexivity].
  - intros capital weights stock_data sd ed r Hr Hn.
    destruct (backtest_success_dispersion _ _ _ _ _ _ Hr) as [Hv Hs].
    pose proof (backtest_portfolio_rows np_sqrt np_power capital weights
                  stock_data sd ed) as Hrows.
    cbv zeta in Hrows. rewrite Hr in Hrows. destruct Hrows as [_ [_ [Hlen _]]].
    rewrite Hn in Hlen.
    destruct (BacktestEngine.portfolio_returns r) as [|x [|y rs]];
      try discriminate Hlen.
    rewrite Hv, Hs. split; [apply engine_sharpe_one|reflexivity].
Qed.

End OneObservation.

Lemma one_observation_sharpe_nan_witness :
  exists r,
    PortfolioValidator._run_backtest sample_strategy sample_sqrt sample_power
      sample_randn 0 (timedelta_days 1) "1d"
      (Some {| stocks := Some ["AAPL"%string]; weights := [] |}) 0%nat
    = (inr r, 1%nat)
    /\ sharpe_ratio r = NaN /\ volatility r = NaN.
Proof.
  apply (proj1 (one_observation_sharpe_nan sample_strategy sample_sqrt sample_power
                  sample_randn)).
  reflexivity.
Defined.

(** ** run_complete_strategy.py: the validator that backtests with the engine *)

Section RealValidatorRuns.

Variable strategy_function :
  datetime -> datetime -> option (dict pynum) -> M RealPortfolio.
Variable np_sqrt : Q -> pyfloat.
Variable np_power : pyfloat -> pyfloat -> pyfloat.

Local Abbreviation real_backtest :=
  (RealPortfolioValidator._run_backtest strategy_function np_sqrt np_power).


(** With no predefined portfolio the override asks the strategy first: an
    exception of the strategy is raised unchanged, and otherwise the
    outcome is the one of the portfolio that the strategy returned. *)
Lemma real_backtest_strategy sd ed name s :
  real_backtest sd ed name None s
  = match strategy_function sd ed None s with
    | (inl e, s') => (Raises e, s')
    | (inr p, s') => real_backtest sd ed name (Some p) s'
    end.
Proof.
  unfold RealPortfolioValidator._run_backtest.
  destruct (strategy_function sd ed None s) as [[e|p] s']; reflexivity.
Qed.

End RealValidatorRuns.

(** ** module_6_backtest_engine.py: the rolling Sharpe ratio *)

Lemma fmul_nan_l a : fmul NaN a = NaN.
Proof. reflexivity. Qed.

Section RollingSharpeProperties.

Variable np_sqrt : Q -> pyfloat.

Lemma rolling_length window returns :
  List.length (rolling window returns) = List.length returns.
Proof. unfold rolling. rewrite length_map, length_seq. reflexivity. Qed.

Lemma rolling_nth window returns i :
  (i < List.length returns)%nat ->
  nth_error (rolling window returns) i
  = Some (if (window <=? i + 1)%nat
          then Some (firstn window (skipn (i + 1 - window) returns))
          else None).
Proof.
  intros Hi. unfold rolling.
  rewrite nth_error_map, nth_error_nth' with (d := 0%nat)
    by (rewrite length_seq; exact Hi).
  rewrite seq_nth by exact Hi. reflexivity.
Qed.

Lemma rolling_sharpe_nth returns window i :
  0 <= window -> (i < List.length returns)%nat ->
  exists l,
    calculate_rolling_sharpe np_sqrt returns window = ok l
    /\ List.length l = List.length returns
    /\ nth_error l i
       = Some (let w := if (Z.to_nat window <=? i + 1)%nat
                        then Some (firstn (Z.to_nat window)
                                     (skipn (i + 1 - Z.to_nat window) returns))
                        else None in
               fdiv (fsub (fmul (rolling_mean w) (Fin 252)) (Fin (2 # 100)))
                    (fmul (rolling_std np_sqrt w) (np_sqrt 252))).
Proof.
  intros Hw Hi. unfold calculate_rolling_sharpe.
  destruct (Z.ltb_spec window 0) as [Hneg|_]; [lia|].
  eexists. split; [reflexivity|]. split.
  - rewrite length_map, length_combine, !length_map, rolling_length.
    apply Nat.min_id.
  - rewrite nth_error_map.
    assert (Hc : forall (ws : list (option series)) f g,
               combine (map f ws) (map g ws)
               = map (fun w => (f w : pyfloat, g w : pyfloat)) ws).
    { intros ws f g. induction ws as [|w ws IH]; [reflexivity|].
      cbn [map combine]. rewrite IH. reflexivity. }
    rewrite Hc, nth_error_map, (rolling_nth _ _ _ Hi). reflexivity.
Qed.

(** X17. [calculate_rolling_sharpe] refuses a negative window.  Otherwise it
    returns one value per return; the first [window - 1] of them are NaN,
    and with a window of 0 or 1 all of them are, since no window of fewer
    than two observations has a standard deviation. *)
Theorem rolling_sharpe_shape returns window :
  (window < 0 -> calculate_rolling_sharpe np_sqrt returns window = throw ValueError)
  /\ (0 <= window ->
      exists l,
        calculate_rolling_sharpe np_sqrt returns window = ok l
        /\ List.length l = List.length returns
        /\ (forall i, (i < List.length returns)%nat ->
                      Z.of_nat i + 1 < window \/ window <= 1 ->
                      nth_error l i = Some NaN)).
Proof.
  split.
  - intros Hneg. unfold calculate_rolling_sharpe.
    destruct (Z.ltb_spec window 0) as [_|Hge]; [reflexivity|lia].
  - intros Hw.
    assert (Hret : exists l, calculate_rolling_sharpe np_sqrt returns window = ok l
                             /\ List.length l = List.length returns).
    { unfold calculate_rolling_sharpe.
      destruct (Z.ltb_spec window 0) as [Hneg|_]; [lia|].
      eexists. split; [reflexivity|].
      rewrite length_map, length_combine, !length_map, rolling_length.
      apply Nat.min_id. }
    destruct Hret as [l [Hl Hlen]]. exists l.
    split; [exact Hl|]. split; [exact Hlen|].
    intros i Hi Hcase.
    destruct (rolling_sharpe_nth returns window i Hw Hi) as [l' [Hl' [_ Hnth]]].
    rewrite Hl in Hl'. inversion Hl'; subst l'. rewrite Hnth. f_equal. cbv zeta.
    destruct (Nat.leb_spec (Z.to_nat window) (i + 1)) as [Hfull|Hshort].
    + destruct Hcase as [Hlt|H1]; [lia|].
      assert (Hshort : (List.length (firstn (Z.to_nat window)
                                       (skipn (i + 1 - Z.to_nat window) returns))
                        <= 1)%nat).
      { rewrite length_firstn. lia. }
      cbn [rolling_std rolling_mean].
      destruct (firstn _ _) as [|x [|y t]]; [| |cbn [List.length] in Hshort; lia];
        unfold series_std, series_var; apply fdiv_nan_r.
    + cbn [rolling_std rolling_mean fmul]. apply fdiv_nan_r.
Qed.

End RollingSharpeProperties.

Lemma rolling_sharpe_shape_witness :
  exists l,
    calculate_rolling_sharpe sample_sqrt [1 # 100; -1 # 100; 2 # 100; 1 # 100] 3 = ok l
    /\ List.length l = 4%nat
    /\ nth_error l 0 = Some NaN /\ nth_error l 1 = Some NaN
    /\ exists q, nth_error l 2 = Some (Fin q).
Proof.
  destruct (proj2 (rolling_sharpe_shape sample_sqrt
                     [1 # 100; -1 # 100; 2 # 100; 1 # 100] 3))
    as [l [Hl [Hlen Hnan]]]; [lia|].
  exists l. split; [exact Hl|]. split; [exact Hlen|].
  split; [apply Hnan; cbn; lia|]. split; [apply Hnan; cbn; lia|].
  vm_compute in Hl. inversion Hl. eexists. reflexivity.
Defined.

(** ** module_6_backtest_engine.py: the comparison with a benchmark *)





Lemma index_intersection_disjoint (a b : list datetime) :
  (forall d, In d a -> ~ In d b) -> index_intersection a b = [].
Proof.
  unfold index_intersection. intros H. induction a as [|d a IH]; [reflexivity|].
  cbn [filter]. destruct (existsb (Z.eqb d) b) eqn:E.
  - apply existsb_exists in E. destruct E as [d' [Hin Heq]].
    apply Z.eqb_eq in Heq. subst d'. exfalso. apply (H d); [left; reflexivity|exact Hin].
  - apply IH. intros d' Hd'. apply H. right. exact Hd'.
Qed.

Lemma Qlen_pos (xs : series) : xs <> [] -> (0 < Qlen xs)%Q.
Proof.
  intros H. unfold Qlen. change 0%Q with (inject_Z 0). rewrite <- Zlt_Qlt.
  destruct xs; [contradiction|cbn [List.length]; lia].
Qed.




(** X19. When no date of the portfolio returns is a date of the benchmark
    returns there is no aligned observation, and the function raises
    [IndexError] instead of returning a failure dictionary. *)
Theorem benchmark_without_common_date (portfolio_returns : indexed_series)
    (benchmark_data : dict (option indexed_series)) benchmark_ticker
    (closes returns : indexed_series) :
  dict_get benchmark_data benchmark_ticker = Some (Some closes) ->
  benchmark_returns_of closes = Some returns ->
  (forall d, In d (map fst portfolio_returns) -> ~ In d (map fst returns)) ->
  compare_to_benchmark portfolio_returns benchmark_data benchmark_ticker
  = Raises IndexError.
Proof.
  intros Hget Hret Hdis. unfold compare_to_benchmark. rewrite Hget, Hret.
  cbv zeta. rewrite (index_intersection_disjoint _ _ Hdis). reflexivity.
Qed.


(** The beta of the benchmark above against itself is 3/2. *)
Example benchmark_beta_three_returns :
  exists r,
    compare_to_benchmark spy_returns spy_data "SPY" = Returns (BenchmarkSuccess r)
    /\ exists b, beta r = Fin b /\ (b == 3 # 2)%Q.
Proof.
  eexists. split; [vm_compute; reflexivity|].
  eexists. split; [reflexivity|]. vm_compute. reflexivity.
Qed.

Lemma benchmark_without_common_date_witness :
  compare_to_benchmark [(timedelta_days 9, 1 # 100)] spy_data "SPY"
  = Raises IndexError.
Proof.
  apply (benchmark_without_common_date [(timedelta_days 9, 1 # 100)] spy_data "SPY"
           spy_closes spy_returns).
  - reflexivity.
  - reflexivity.
  - intros d [<-|[]] H. cbn in H. intuition discriminate.
Defined.

(** ** validation_framework.py: periods that are not positive *)

Section NonPositivePeriods.

Variable strategy_function :
  datetime -> datetime -> option (dict pynum) -> M Portfolio.
Variable np_sqrt : Q -> pyfloat.
Variable np_power : pyfloat -> pyfloat -> pyfloat.
Variable randn : nat -> Q.

Local Abbreviation run_backtest :=
  (PortfolioValidator._run_backtest strategy_function np_sqrt np_power randn).
Local Abbreviation mt_loop :=
  (PortfolioValidator.multi_timeframe_loop strategy_function np_sqrt np_power randn).
Local Abbreviation mt_backtest :=
  (PortfolioValidator.multi_timeframe_backtest strategy_function np_sqrt np_power randn).
Local Abbreviation wf_loop :=
  (PortfolioValidator.walk_forward_loop strategy_function np_sqrt np_power randn).
Local Abbreviation wf_analysis :=
  (PortfolioValidator.walk_forward_analysis strategy_function np_sqrt np_power randn).






End NonPositivePeriods.



